(** * save_roipac: conversion of a MintPy HDF5 product to ROI_PAC format

    A shallow embedding of [mintpy/save_roipac.py]: the command-line default
    of the dataset ([cmd_line_parse]), the dispatch and numeric transform
    ([read_data]), the metadata clean-up ([clean_metadata4roipac]) and the
    driver ([main]), followed by the properties of the written
    specification that concern them.

    The HDF5 readers, the date helper and the writer live in other modules
    of the package ([mintpy.utils.readfile], [mintpy.utils.ptime],
    [mintpy.view], [mintpy.objects], [mintpy.utils.writefile]); they are
    the fields of the record [world] below, each with the exception it may
    end with, and the general theorems hold for all of them. The
    messages that the program prints are left out: they change neither the
    data nor the attributes. *)

From Stdlib Require Import ZArith Bool List Ascii String Floats Reals Lra.
From stdpp Require Import gmap strings list fin_maps pretty.

Local Open Scope string_scope.
Local Open Scope Z_scope.

(** ** Python strings

    A [str] is modelled by [string]; the attribute names and dataset tokens
    of the program are ASCII, and a byte above 127 counts as an uncased
    character. *)

Module PyStr.

Definition is_upper_char (c : ascii) : bool :=
  let n := nat_of_ascii c in (65 <=? n)%nat && (n <=? 90)%nat.

Definition is_lower_char (c : ascii) : bool :=
  let n := nat_of_ascii c in (97 <=? n)%nat && (n <=? 122)%nat.

Definition lower_char (c : ascii) : ascii :=
  if is_upper_char c then ascii_of_nat (nat_of_ascii c + 32) else c.

(** [s.lower()] *)
Fixpoint lower (s : string) : string :=
  match s with
  | EmptyString => EmptyString
  | String c s' => String (lower_char c) (lower s')
  end.

Fixpoint has_upper (s : string) : bool :=
  match s with
  | EmptyString => false
  | String c s' => is_upper_char c || has_upper s'
  end.

Fixpoint has_lower (s : string) : bool :=
  match s with
  | EmptyString => false
  | String c s' => is_lower_char c || has_lower s'
  end.

(** [s.isupper()]: no cased character is lower case and there is at
    least one cased character. *)
Definition isupper (s : string) : bool :=
  negb (has_lower s) && has_upper s.

(** [s.startswith(p)] *)
Fixpoint startswith (s p : string) : bool :=
  match p, s with
  | EmptyString, _ => true
  | String a p', String b s' => Ascii.eqb a b && startswith s' p'
  | String _ _, EmptyString => false
  end.

(** [sub in s] *)
Fixpoint contains (sub s : string) : bool :=
  startswith s sub ||
  match s with
  | EmptyString => false
  | String _ s' => contains sub s'
  end.

(** [s.split(sep)] for a one-character separator; the result is never
    empty. *)
Fixpoint split (sep : ascii) (s : string) : list string :=
  match s with
  | EmptyString => [EmptyString]
  | String c s' =>
      if Ascii.eqb c sep then EmptyString :: split sep s'
      else match split sep s' with
           | w :: ws => String c w :: ws
           | [] => [String c EmptyString]
           end
  end.

(** [s[i:j]] for non-negative [i <= j]. *)
Definition slice (i j : nat) (s : string) : string :=
  substring i (j - i) s.

(** [s.rfind(c)] for a character, as an offset from the start;
    [None] stands for -1. *)
Fixpoint rfind (c : ascii) (s : string) : option nat :=
  match s with
  | EmptyString => None
  | String a s' =>
      match rfind c s' with
      | Some i => Some (S i)
      | None => if Ascii.eqb a c then Some 0%nat else None
      end
  end.

Fixpoint all_char (c : ascii) (s : string) : bool :=
  match s with
  | EmptyString => true
  | String a s' => Ascii.eqb a c && all_char c s'
  end.

(** [os.path.splitext(p)[0]] (posix): the extension starts at the last
    dot of the last path component, leading dots of that component
    apart. *)
Definition splitext_root (p : string) : string :=
  let filenameIndex :=
    match rfind "/" p with Some i => S i | None => 0%nat end in
  match rfind "." p with
  | Some dotIndex =>
      if (filenameIndex <=? dotIndex)%nat
         && negb (all_char "." (slice filenameIndex dotIndex p))
      then slice 0 dotIndex p
      else p
  | None => p
  end.

Definition is_space (c : ascii) : bool :=
  let n := nat_of_ascii c in
  (n =? 32)%nat || ((9 <=? n)%nat && (n <=? 13)%nat)
  || ((28 <=? n)%nat && (n <=? 31)%nat).

Fixpoint lstrip (s : string) : string :=
  match s with
  | String c s' => if is_space c then lstrip s' else s
  | EmptyString => s
  end.

Fixpoint rstrip (s : string) : string :=
  match s with
  | EmptyString => EmptyString
  | String c s' =>
      match rstrip s' with
      | EmptyString => if is_space c then EmptyString else String c EmptyString
      | r => String c r
      end
  end.

(** [s.strip()] *)
Definition strip (s : string) : string := rstrip (lstrip s).

Definition digit_of (c : ascii) : option Z :=
  let n := nat_of_ascii c in
  if (48 <=? n)%nat && (n <=? 57)%nat then Some (Z.of_nat (n - 48)) else None.

(** Digits of a literal, most significant first, with the single
    underscores Python allows between two digits: [acc] is the value
    read so far, [count] the number of digits read and [after_digit]
    tells whether the previous character was a digit. *)
Fixpoint digits (s : string) (acc : Z) (count : nat) (after_digit : bool)
  : option (Z * nat * string) :=
  match s with
  | EmptyString => if after_digit then Some (acc, count, s) else None
  | String c s' =>
      match digit_of c with
      | Some d => digits s' (10 * acc + d) (S count) true
      | None =>
          if Ascii.eqb c "_" then
            if after_digit then digits s' acc count false else None
          else if after_digit then Some (acc, count, s) else None
      end
  end.

Definition sign_of (s : string) : Z * string :=
  match s with
  | String "-" s' => (-1, s')
  | String "+" s' => (1, s')
  | _ => (1, s)
  end.

(** [int(s)] in base ten: surrounding white space, an optional sign,
    digits. [None] stands for the [ValueError]. *)
Definition parse_int (s : string) : option Z :=
  let '(sg, body) := sign_of (strip s) in
  match digits body 0 0 false with
  | Some (n, _, EmptyString) => Some (sg * n)
  | _ => None
  end.

(** A literal that [float] accepts: [negative] [m] times ten to the [e],
    an infinity, or [nan]. *)
Inductive float_literal :=
| Decimal (negative : bool) (m : Z) (e : Z)
| Infinite (negative : bool)
| NotANumber.

(** The exponent [e[sign]digits] that may end a number. *)
Definition exponent (s : string) : option Z :=
  match s with
  | EmptyString => Some 0
  | String c rest =>
      if Ascii.eqb c "e" || Ascii.eqb c "E" then
        let '(sg, body) := sign_of rest in
        match digits body 0 0 false with
        | Some (n, _, EmptyString) => Some (sg * n)
        | _ => None
        end
      else None
  end.

(** The grammar of [float(s)]: surrounding white space, an optional sign,
    then [inf], [infinity] or [nan] in any case, or the digits of a number
    with an optional point and an optional exponent. [None] stands for the
    [ValueError]. *)
Definition parse_literal (s : string) : option float_literal :=
  let '(sg, body) := sign_of (strip s) in
  let negative := sg <? 0 in
  let word := lower body in
  if String.eqb word "inf" || String.eqb word "infinity" then
    Some (Infinite negative)
  else if String.eqb word "nan" then Some NotANumber
  else
    match body with
    | String "." frac =>
        match digits frac 0 0 false with
        | Some (m, d, rest) =>
            option_map (fun e => Decimal negative m (e - Z.of_nat d))
                       (exponent rest)
        | None => None
        end
    | _ =>
        match digits body 0 0 false with
        | Some (n, _, String "." rest) =>
            match digits rest n 0 false with
            | Some (m, d, rest') =>
                option_map (fun e => Decimal negative m (e - Z.of_nat d))
                           (exponent rest')
            | None => option_map (Decimal negative n) (exponent rest)
            end
        | Some (n, _, rest) => option_map (Decimal negative n) (exponent rest)
        | None => None
        end
    end.

End PyStr.

(** ** Values, exceptions and effects *)

(** The value of an attribute: the text [read_attribute] returns, or the
    [int] that [--ref-yx] stores under [REF_Y] and [REF_X]. *)
Inductive value :=
| VStr (s : string)
| VInt (n : Z).

(** [str(v)] *)
Definition py_str (v : value) : string :=
  match v with
  | VStr s => s
  | VInt n => pretty n
  end.

(** [v == s] for a string literal [s]. *)
Definition value_is (v : value) (s : string) : bool :=
  match v with
  | VStr t => String.eqb t s
  | VInt _ => false
  end.

(** The exceptions the program raises or lets through. *)
Inductive exn :=
| Exception (msg : string)
| KeyError (key : string)
| ValueError (msg : string)
| IndexError
| TypeError
| AttributeError
| ZeroDivisionError.

Inductive result (A : Type) :=
| Ok (a : A)
| Raise (e : exn).
Arguments Ok {A} a.
Arguments Raise {A} e.

(** What the program asks of the file, in the order it asks. *)
Inductive event :=
| ReadAttribute
| Read (datasetName : option string)
| TimeseriesDateList
| HdfeosDateList
| GetSliceList
| WriteFile (out_file : string).

(** A computation logs its accesses to the file and ends with a value or
    with an exception; nothing runs after an exception. *)
Definition io (A : Type) : Type := list event * result A.

#[export] Instance io_ret : MRet io := fun A a => ([], Ok a).

#[export] Instance io_bind : MBind io := fun A B f m =>
  match m with
  | (t, Ok a) => let '(t', r) := f a in ((t ++ t')%list, r)
  | (t, Raise e) => (t, Raise e)
  end.

(** A step without access to the file. *)
Definition pure {A} (r : result A) : io A := ([], r).

(** An access to the file. *)
Definition perform {A} (ev : event) (r : result A) : io A := ([ev], r).

Definition raise {A} (e : exn) : io A := ([], Raise e).

Definition trace {A} (m : io A) : list event := fst m.
Definition outcome {A} (m : io A) : result A := snd m.

(** [d[key]] *)
Definition getitem {V} (d : gmap string V) (key : string) : result V :=
  match d !! key with
  | Some v => Ok v
  | None => Raise (KeyError key)
  end.

(** [key in d.keys()] *)
Definition haskey {V} (d : gmap string V) (key : string) : bool :=
  bool_decide (is_Some (d !! key)).

(** The text of a value that the program slices or compares as a string;
    an [int] there is a [TypeError]. *)
Definition as_str (v : value) : result string :=
  match v with
  | VStr s => Ok s
  | VInt _ => Raise TypeError
  end.

(** [int(v)] *)
Definition py_int (v : value) : result Z :=
  match v with
  | VInt n => Ok n
  | VStr s =>
      match PyStr.parse_int s with
      | Some n => Ok n
      | None => Raise (ValueError "invalid literal for int()")
      end
  end.

(** [l[i]] with Python's negative indices. *)
Definition py_index {A} (l : list A) (i : Z) : result A :=
  let n := Z.of_nat (length l) in
  let j := if i <? 0 then n + i else i in
  if (0 <=? j) && (j <? n) then
    match l !! Z.to_nat j with
    | Some a => Ok a
    | None => Raise IndexError
    end
  else Raise IndexError.

(** ** Numbers and rasters

    The program computes on the numbers of a numpy array. The embedding is
    generic in them: [Scalar] lists the operations the program uses, and
    the binary64 floats and the real numbers are instances. *)

Class Scalar (num : Type) := {
  nsub : num -> num -> num;
  nmul : num -> num -> num;
  ndiv : num -> num -> num;
  nopp : num -> num;
  nis_zero : num -> bool;
  nof_Z : Z -> num;
  npi : num;
  (** [float(s)] for a string; [None] stands for the [ValueError]. *)
  parse_float : string -> option num
}.

Section Raster.
Context {num : Type} `{Scalar num}.

(** A 2-D array as the list of its rows, all of one length. *)
Definition raster : Type := list (list num).

(** [float(v)] *)
Definition py_float (v : value) : result num :=
  match v with
  | VInt n => Ok (nof_Z n)
  | VStr s =>
      match parse_float s with
      | Some x => Ok x
      | None => Raise (ValueError "could not convert string to float")
      end
  end.

(** [a / b] on Python floats. *)
Definition py_div (a b : num) : result num :=
  if nis_zero b then Raise ZeroDivisionError else Ok (ndiv a b).

(** [data * k] and [data *= k] for a number [k]. *)
Definition scale (data : raster) (k : num) : raster :=
  map (map (fun x => nmul x k)) data.

(** [data - v] and [data -= v] for a number [v]. *)
Definition shift (data : raster) (v : num) : raster :=
  map (map (fun x => nsub x v)) data.

(** [- data] *)
Definition negate (data : raster) : raster :=
  map (map nopp) data.

Definition broadcast_error {A} : result A :=
  Raise (ValueError "operands could not be broadcast together").

(** One axis of [a -= b]: the operand has the length of the target or the
    length one. *)
Definition isub_row (a b : list num) : result (list num) :=
  if (length b =? length a)%nat then Ok (zip_with nsub a b)
  else match b with
       | [y] => Ok (map (fun x => nsub x y) a)
       | _ => broadcast_error
       end.

Fixpoint isub_rows (a b : raster) : result raster :=
  match a, b with
  | [], [] => Ok []
  | ra :: a', rb :: b' =>
      match isub_row ra rb, isub_rows a' b' with
      | Ok r, Ok rs => Ok (r :: rs)
      | Raise e, _ => Raise e
      | _, Raise e => Raise e
      end
  | _, _ => broadcast_error
  end.

Fixpoint isub_each (a : raster) (rb : list num) : result raster :=
  match a with
  | [] => Ok []
  | ra :: a' =>
      match isub_row ra rb, isub_each a' rb with
      | Ok r, Ok rs => Ok (r :: rs)
      | Raise e, _ => Raise e
      | _, Raise e => Raise e
      end
  end.

(** [a -= b] on two 2-D arrays: element by element, [b] broadcast to the
    shape of [a]. *)
Definition isub (a b : raster) : result raster :=
  if (length b =? length a)%nat then isub_rows a b
  else match b with
       | [rb] => isub_each a rb
       | _ => broadcast_error
       end.

(** [data[y, x]] *)
Definition index2 (data : raster) (y x : Z) : result num :=
  match py_index data y with
  | Ok row => py_index row x
  | Raise e => Raise e
  end.

(** [data -= data[y, x]] *)
Definition subtract_at (data : raster) (y x : Z) : result raster :=
  match index2 data y x with
  | Ok v => Ok (shift data v)
  | Raise e => Raise e
  end.

(** [if ref_yx: data -= data[ref_yx[0], ref_yx[1]]] *)
Definition with_reference (ref : option (Z * Z)) (data : raster)
  : result raster :=
  match ref with
  | Some (y, x) => subtract_at data y x
  | None => Ok data
  end.

End Raster.

Arguments raster num : clear implicits.

(** ** The program *)

(** The parsed command line ([argparse] namespace). *)
Record args := {
  file : string;
  dset : option string;
  outfile : option string;
  ref_yx : option (Z * Z)
}.

(** The functions of the package that the program calls on the file, each
    with the exception it may end with. [check_dataset_input] returns the
    list of the matching slice names (the first component of the pair the
    function of [mintpy.view] returns); [yyyymmdd] is the date helper of
    [mintpy.utils.ptime] on one date, and acts on a list date by date;
    [write] is [writefile.write(data, out_file=..., metadata=...)]. *)
Record world (num : Type) := {
  read_attribute : string -> result (gmap string value);
  read : string -> option string -> result (raster num);
  timeseries_get_date_list : string -> result (list string);
  HDFEOS_get_date_list : string -> result (list string);
  get_slice_list : string -> result (list string);
  check_dataset_input : list string -> string -> result (list string);
  yyyymmdd : string -> string;
  write : raster num -> string -> gmap string string -> result unit
}.
Arguments read_attribute {num} w fname.
Arguments read {num} w fname datasetName.
Arguments timeseries_get_date_list {num} w fname.
Arguments HDFEOS_get_date_list {num} w fname.
Arguments get_slice_list {num} w fname.
Arguments check_dataset_input {num} w allList inList.
Arguments yyyymmdd {num} w date.
Arguments write {num} w data out_file metadata.

(** [atr['REF_Y'] = y] then [atr['REF_X'] = x] *)
Definition set_reference (y x : Z) (atr : gmap string value)
  : gmap string value :=
  <["REF_X" := VInt x]> (<["REF_Y" := VInt y]> atr).

(** [not s] for an optional string: [None] and the empty string. *)
Definition falsy (s : option string) : bool :=
  match s with
  | None => true
  | Some EmptyString => true
  | Some _ => false
  end.

(** [a, b = l] *)
Definition unpack2 {A} (l : list A) : result (A * A) :=
  match l with
  | [a; b] => Ok (a, b)
  | _ => Raise (ValueError "wrong number of values to unpack")
  end.

(** [inps.outfile], or the default name when it is not given. *)
Definition default_outfile (o : option string) (default : string) : string :=
  match o with
  | Some s => if falsy o then default else s
  | None => default
  end.

(** The same command line with another reference pixel. *)
Definition with_ref_yx (inps : args) (ref : option (Z * Z)) : args :=
  {| file := file inps; dset := dset inps; outfile := outfile inps;
     ref_yx := ref |}.

(** The same command line with another dataset. *)
Definition with_dset (inps : args) (ds : option string) : args :=
  {| file := file inps; dset := ds; outfile := outfile inps;
     ref_yx := ref_yx inps |}.

Section Program.
Context {num : Type} `{Scalar num} (w : world num).

Local Abbreviation product := (raster num * gmap string value * string)%type.

Definition cmd_line_parse (inps : args) : io args :=
  if falsy (dset inps) then
    atr ← perform ReadAttribute (read_attribute w (file inps));
    k ← pure (getitem atr "FILE_TYPE");
    if value_is k "ifgramStack" || value_is k "HDFEOS" then
      raise (Exception ("NO input dataset! It's required for " ++ py_str k ++ " file"))
    else if value_is k "timeseries" then
      date_list ← perform TimeseriesDateList (timeseries_get_date_list w (file inps));
      last_date ← pure (py_index date_list (-1));
      mret (with_dset inps (Some last_date))
    else mret inps
  else mret inps.

(** [readfile.read(inps.file, datasetName=ds)[0]] *)
Definition read_slice (inps : args) (ds : option string) : io (raster num) :=
  perform (Read ds) (read w (file inps) ds).

(** [if inps.ref_yx: data -= data[inps.ref_yx[0], inps.ref_yx[1]]] *)
Definition subtract_ref (inps : args) (data : raster num) : io (raster num) :=
  pure (with_reference (ref_yx inps) data).

(** [atr['DATE'] = date1[2:8]] and
    [atr['DATE12'] = '{}-{}'.format(date1[2:8], date2[2:8])] *)
Definition set_dates (date1 date2 : string) (atr : gmap string value)
  : gmap string value :=
  let atr := <["DATE" := VStr (PyStr.slice 2 8 date1)]> atr in
  <["DATE12" := VStr (PyStr.slice 2 8 date1 ++ "-" ++ PyStr.slice 2 8 date2)]> atr.

(** The text of [inps.dset] where the program uses it as a string; on
    [None] the use fails with the exception [e]. *)
Definition dset_text (inps : args) (e : exn) : io string :=
  match dset inps with
  | Some s => mret s
  | None => raise e
  end.

(** [date1 = atr['REF_DATE']]; the attributes of a file are text. *)
Definition ref_date (atr : gmap string value) : io string :=
  v ← pure (getitem atr "REF_DATE");
  pure (as_str v).

(** The branch [k == 'velocity']. *)
Definition read_velocity (inps : args) (atr : gmap string value)
  (range2phase : num) : io product :=
  raw ← read_slice inps None;
  let data := scale raw range2phase in
  data ← subtract_ref inps data;
  let atr := <["FILE_TYPE" := VStr ".unw"]> atr in
  let atr := <["UNIT" := VStr "radian"]> atr in
  file_type ← pure (getitem atr "FILE_TYPE");
  let out := default_outfile (outfile inps)
               (PyStr.splitext_root (file inps) ++ py_str file_type) in
  mret (data, atr, out).

(** The branch [k == 'timeseries']. *)
Definition read_timeseries (inps : args) (atr : gmap string value)
  (range2phase : num) : io product :=
  ds ← dset_text inps TypeError;
  '(date1, date2) ←
    (if PyStr.contains "_" ds then
       pure (unpack2 (map (yyyymmdd w) (PyStr.split "_" ds)))
     else
       date1 ← ref_date atr;
       mret (date1, yyyymmdd w ds));
  data ← read_slice inps (Some date2);
  data1 ← read_slice inps (Some date1);
  data ← pure (isub data data1);
  let data := scale data range2phase in
  data ← subtract_ref inps data;
  let atr := set_dates date1 date2 atr in
  let atr := <["FILE_TYPE" := VStr ".unw"]> atr in
  let atr := <["UNIT" := VStr "radian"]> atr in
  let name := date1 ++ "_" ++ date2 ++ ".unw" in
  let out := default_outfile (outfile inps)
               (if PyStr.startswith (file inps) "geo_" then "geo_" ++ name
                else name) in
  mret (data, atr, out).

(** The dates of the branch [k == 'HDFEOS']. *)
Definition hdfeos_dates (inps : args) (atr : gmap string value)
  (ds dname : string) : io (string * string) :=
  if String.eqb dname "displacement" then
    if PyStr.contains "-" ds then
      suffix ← pure (py_index (PyStr.split "-" ds) 1);
      if PyStr.contains "_" suffix then
        pure (unpack2 (map (yyyymmdd w) (PyStr.split "_" suffix)))
      else
        date1 ← ref_date atr;
        mret (date1, yyyymmdd w suffix)
    else
      raise (ValueError ("No '-' in input dataset! It is required for " ++ dname))
  else
    date_list ← perform HdfeosDateList (HDFEOS_get_date_list w (file inps));
    date1 ← pure (py_index date_list 0);
    date2 ← pure (py_index date_list (-1));
    mret (date1, date2).

(** [view.check_dataset_input(slice_list, name)[0][0]] *)
Definition slice_name_of (slice_list : list string) (name : string) : io string :=
  found ← pure (check_dataset_input w slice_list name);
  pure (py_index found 0).

(** The data of the branch [k == 'HDFEOS']. *)
Definition hdfeos_data (inps : args) (range2phase : num)
  (ds dname date1 date2 : string) : io (raster num) :=
  slice_list ← perform GetSliceList (get_slice_list w (file inps));
  if PyStr.contains "displacement" ds then
    slice_name1 ← slice_name_of slice_list (dname ++ "-" ++ date1);
    slice_name2 ← slice_name_of slice_list (dname ++ "-" ++ date2);
    data ← read_slice inps (Some slice_name1);
    data2 ← read_slice inps (Some slice_name2);
    data ← pure (isub data data2);
    let data := scale data range2phase in
    subtract_ref inps data
  else
    slice_name ← slice_name_of slice_list ds;
    read_slice inps (Some slice_name).

(** The type, unit and data type of the branch [k == 'HDFEOS']. *)
Definition hdfeos_kind (ds dname : string) (atr : gmap string value)
  : io (gmap string value) :=
  if String.eqb dname "displacement" then
    mret (<["UNIT" := VStr "radian"]> (<["FILE_TYPE" := VStr ".unw"]> atr))
  else if PyStr.contains "coherence" (PyStr.lower dname) then
    mret (<["UNIT" := VStr "1"]> (<["FILE_TYPE" := VStr ".cor"]> atr))
  else if String.eqb dname "height" then
    mret (<["DATA_TYPE" := VStr "int16"]> (<["FILE_TYPE" := VStr ".dem"]> atr))
  else raise (ValueError ("unrecognized input dataset type: " ++ ds)).

(** The branch [k == 'HDFEOS']. *)
Definition read_hdfeos (inps : args) (atr : gmap string value)
  (range2phase : num) : io product :=
  ds ← dset_text inps AttributeError;
  dname ← pure (py_index (PyStr.split "-" ds) 0);
  '(date1, date2) ← hdfeos_dates inps atr ds dname;
  let date12 := date1 ++ "_" ++ date2 in
  data ← hdfeos_data inps range2phase ds dname date1 date2;
  let atr := set_dates date1 date2 atr in
  atr ← hdfeos_kind ds dname atr;
  file_type ← pure (getitem atr "FILE_TYPE");
  let out := default_outfile (outfile inps) (date12 ++ py_str file_type) in
  mret (data, atr, out).

(** The reference of the branch [k == 'ifgramStack']. *)
Definition ifgram_reference (dname : string) (atr : gmap string value)
  (data : raster num) : io (raster num) :=
  if PyStr.startswith dname "unwrapPhase" then
    if haskey atr "REF_X" then
      ref_y ← pure (getitem atr "REF_Y");
      y ← pure (py_int ref_y);
      ref_x ← pure (getitem atr "REF_X");
      x ← pure (py_int ref_x);
      pure (subtract_at data y x)
    else mret data
  else mret data.

(** The type and unit of the branch [k == 'ifgramStack']. *)
Definition ifgram_kind (ds dname : string) (atr : gmap string value)
  : io (gmap string value) :=
  if PyStr.startswith dname "unwrapPhase" then
    mret (<["UNIT" := VStr "radian"]> (<["FILE_TYPE" := VStr ".unw"]> atr))
  else if String.eqb dname "coherence" then
    mret (<["UNIT" := VStr "1"]> (<["FILE_TYPE" := VStr ".cor"]> atr))
  else if String.eqb dname "wrapPhase" then
    mret (<["UNIT" := VStr "radian"]> (<["FILE_TYPE" := VStr ".int"]> atr))
  else raise (ValueError ("unrecognized dataset type: " ++ ds)).

(** The branch [k == 'ifgramStack']. *)
Definition read_ifgram_stack (inps : args) (atr : gmap string value)
  : io product :=
  ds ← dset_text inps AttributeError;
  '(dname, date12) ← pure (unpack2 (PyStr.split "-" ds));
  '(date1, date2) ← pure (unpack2 (PyStr.split "_" date12));
  data ← read_slice inps (Some ds);
  data ← ifgram_reference dname atr data;
  let atr := set_dates date1 date2 atr in
  atr ← ifgram_kind ds dname atr;
  file_type ← pure (getitem atr "FILE_TYPE");
  let name := date12 ++ py_str file_type in
  let out := default_outfile (outfile inps)
               (if PyStr.startswith (file inps) "geo_" then "geo_" ++ name
                else name) in
  mret (data, atr, out).

(** The last branch, for every other type [k] of file. *)
Definition read_generic (inps : args) (atr : gmap string value) (k : value)
  : io product :=
  data ← read_slice inps (dset inps);
  kind ← match k with
         | VStr s => mret s
         | VInt _ => raise AttributeError
         end;
  '(data, atr) ←
    (if PyStr.contains "coherence" (PyStr.lower kind) then
       let atr := <["FILE_TYPE" := VStr ".cor"]> atr in
       data ← read_slice inps None;
       mret (data, atr)
     else if String.eqb kind "mask" then
       let atr := <["FILE_TYPE" := VStr ".msk"]> atr in
       let atr := <["DATA_TYPE" := VStr "byte"]> atr in
       data ← read_slice inps None;
       mret (data, atr)
     else if String.eqb kind "geometry"
             && bool_decide (dset inps = Some "height") then
       '(data, atr) ←
         (if haskey atr "Y_FIRST" then
            let atr := <["FILE_TYPE" := VStr ".dem"]> atr in
            let atr := <["DATA_TYPE" := VStr "int16"]> atr in
            data ← read_slice inps None;
            mret (data, atr)
          else mret (data, <["FILE_TYPE" := VStr ".hgt"]> atr));
       mret (data, <["UNIT" := VStr "m"]> atr)
     else mret (data, <["FILE_TYPE" := VStr ".unw"]> atr));
  file_type ← pure (getitem atr "FILE_TYPE");
  let out := default_outfile (outfile inps)
               (PyStr.splitext_root (file inps) ++ py_str file_type) in
  mret (data, atr, out).

(** [range2phase = -4 * np.pi / float(atr['WAVELENGTH'])] *)
Definition range2phase_of (atr : gmap string value) : result num :=
  match getitem atr "WAVELENGTH" with
  | Ok v =>
      match py_float v with
      | Ok wavelength => py_div (nmul (nof_Z (-4)) npi) wavelength
      | Raise e => Raise e
      end
  | Raise e => Raise e
  end.

(** [if inps.ref_yx: atr['REF_Y'] = ...; atr['REF_X'] = ...] *)
Definition change_reference (inps : args) (atr : gmap string value)
  : gmap string value :=
  match ref_yx inps with
  | Some (y, x) => set_reference y x atr
  | None => atr
  end.

Definition read_data (inps : args) : io product :=
  atr ← perform ReadAttribute (read_attribute w (file inps));
  range2phase ← pure (range2phase_of atr);
  let atr := change_reference inps atr in
  k ← pure (getitem atr "FILE_TYPE");
  '(data, atr, out) ←
    (if value_is k "velocity" then read_velocity inps atr range2phase
     else if value_is k "timeseries" then read_timeseries inps atr range2phase
     else if value_is k "HDFEOS" then read_hdfeos inps atr range2phase
     else if value_is k "ifgramStack" then read_ifgram_stack inps atr
     else read_generic inps atr k);
  mret (data, <["PROCESSOR" := VStr "roipac"]> atr, out).

End Program.

(** [for key in key_list: if key in atr.keys(): atr.pop(key)] *)
Definition drop_keys (key_list : list string) (atr : gmap string string)
  : gmap string string :=
  foldl (fun m key => if haskey m key then delete key m else m) atr key_list.

(** [for key in list(atr.keys()): if not key.isupper(): atr.pop(key)] *)
Definition drop_not_upper (atr : gmap string string) : gmap string string :=
  foldl (fun m key => if negb (PyStr.isupper key) then delete key m else m)
        atr (map_to_list atr).*1.

(** [key_list = ['width', 'Width', 'samples', 'length', 'lines']] *)
Definition redundant_keys : list string :=
  ["width"; "Width"; "samples"; "length"; "lines"].

Definition clean_metadata4roipac (atr_in : gmap string value)
  : result (gmap string string) :=
  let atr := py_str <$> atr_in in
  let atr := drop_keys redundant_keys atr in
  let atr := drop_not_upper atr in
  match getitem atr "LENGTH" with
  | Ok v => Ok (<["FILE_LENGTH" := v]> atr)
  | Raise e => Raise e
  end.

Section Main.
Context {num : Type} `{Scalar num} (w : world num).

(** The driver; the value is what the writer receives, and the writer may
    end with an exception like every other function of the package. *)
Definition main (inps : args) : io (raster num * gmap string string * string) :=
  inps ← cmd_line_parse w inps;
  '(data, atr, out_file) ← read_data w inps;
  atr ← pure (clean_metadata4roipac atr);
  _ ← perform (WriteFile out_file) (write w data out_file atr);
  mret (data, atr, out_file).

End Main.

(** ** Two kinds of numbers *)

(** Binary64 floats, the numbers of Python and of a [float64] array. *)
Module Binary64.

(** [float(z)] for an [int]: the nearest float, ties to even. An [int]
    beyond the largest float, for which Python raises [OverflowError],
    gives an infinity here. *)
Definition of_Z (z : Z) : float :=
  SF2Prim (binary_normalize prec emax z 0 false).

(** The float nearest to pi, [math.pi]. *)
Definition pi : float := 0x1.921fb54442d18p+1%float.

(** The float nearest to the value of a literal, ties to even: the one
    rounding of the integer [m * 10^e], or of the quotient [m / 10^(-e)]
    of two integers. *)
Definition of_literal (l : PyStr.float_literal) : spec_float :=
  match l with
  | PyStr.NotANumber => S754_nan
  | PyStr.Infinite negative => S754_infinity negative
  | PyStr.Decimal negative m e =>
      match m with
      | Zpos p =>
          if 0 <=? e then
            binary_normalize prec emax (cond_Zopp negative (m * 10 ^ e)) 0 false
          else
            SFdiv prec emax (S754_finite negative p 0)
                  (S754_finite false (Z.to_pos (10 ^ (- e))) 0)
      | _ => S754_zero negative
      end
  end.

(** [float(s)] *)
Definition parse (s : string) : option float :=
  option_map (fun l => SF2Prim (of_literal l)) (PyStr.parse_literal s).

#[global] Instance scalar : Scalar float := {|
  nsub := PrimFloat.sub;
  nmul := PrimFloat.mul;
  ndiv := PrimFloat.div;
  nopp := PrimFloat.opp;
  nis_zero := fun x => PrimFloat.eqb x PrimFloat.zero;
  nof_Z := of_Z;
  npi := pi;
  parse_float := parse
|}.

End Binary64.

(** Real numbers, the arithmetic without rounding. *)
Module Exact.

Definition is_zero (x : R) : bool :=
  if Req_dec_T x 0%R then true else false.

(** The value of a literal as a real number; an infinity and [nan] are
    no real numbers and count as invalid. *)
Definition parse (s : string) : option R :=
  match PyStr.parse_literal s with
  | Some (PyStr.Decimal negative m e) =>
      let x := if 0 <=? e then IZR (m * 10 ^ e)
               else (IZR m / IZR (10 ^ (- e)))%R in
      Some (if negative then (- x)%R else x)
  | _ => None
  end.

#[global] Instance scalar : Scalar R := {|
  nsub := Rminus;
  nmul := Rmult;
  ndiv := Rdiv;
  nopp := Ropp;
  nis_zero := is_zero;
  nof_Z := IZR;
  npi := PI;
  parse_float := parse
|}.

End Exact.

(** ** Worked inputs *)

Module Demo.
Import Binary64.

(** A world that holds one file: its attributes, its default dataset, its
    named slices and its dates. A name matches the slices that contain
    it, a date of six digits gets its century, and the writer succeeds. *)
Definition lookup_slice {num : Type} (slices : list (string * raster num))
  (name : string) : result (raster num) :=
  match list_find (fun p => bool_decide (fst p = name)) slices with
  | Some (_, (_, r)) => Ok r
  | None => Raise (Exception "dataset not found")
  end.

Definition century (date : string) : string :=
  if (String.length date =? 6)%nat then
    (if PyStr.startswith date "9" then "19" else "20") ++ date
  else date.

Definition single {num : Type} (atr : gmap string value)
  (default : raster num) (slices : list (string * raster num))
  (dates : list string) : world num := {|
  read_attribute := fun _ => Ok atr;
  read := fun _ ds =>
    match ds with
    | None => Ok default
    | Some name => lookup_slice slices name
    end;
  timeseries_get_date_list := fun _ => Ok dates;
  HDFEOS_get_date_list := fun _ => Ok dates;
  get_slice_list := fun _ => Ok (map fst slices);
  check_dataset_input := fun allList name =>
    Ok (List.filter (fun e => PyStr.contains name e) allList);
  yyyymmdd := century;
  write := fun _ _ _ => Ok tt
|}.

(** The world [w] on a medium that cannot be written. *)
Definition read_only {num : Type} (w : world num) : world num := {|
  read_attribute := read_attribute w;
  read := read w;
  timeseries_get_date_list := timeseries_get_date_list w;
  HDFEOS_get_date_list := HDFEOS_get_date_list w;
  get_slice_list := get_slice_list w;
  check_dataset_input := check_dataset_input w;
  yyyymmdd := yyyymmdd w;
  write := fun _ _ _ => Raise (Exception "read-only file system")
|}.

Definition attrs (l : list (string * string)) : gmap string value :=
  list_to_map (map (fun p => (fst p, VStr (snd p))) l).

Definition request (f : string) (ds : option string) (ref : option (Z * Z))
  : args :=
  {| file := f; dset := ds; outfile := None; ref_yx := ref |}.

End Demo.

(** ** Vocabulary of the properties *)

(** Two numbers that are the same number: identical, or two zeros. On the
    real numbers this is equality; two binary64 zeros may differ in their
    sign, and a value that is not a number is identical to itself. *)
Definition same_number {num : Type} `{Scalar num} (a b : num) : Prop :=
  a = b \/ (nis_zero a = true /\ nis_zero b = true).

(** Two rasters that hold the same numbers, pixel by pixel. *)
Definition same_raster {num : Type} `{Scalar num} (a b : raster num) : Prop :=
  Forall2 (Forall2 same_number) a b.

(** The sign laws of subtraction and multiplication. The real numbers and
    the binary64 floats both have them: the difference of two equal
    numbers is a zero whose sign does not follow the order of the two. *)
Class SignLaws (num : Type) `{Scalar num} : Prop := {
  nsub_swap : forall a b : num, same_number (nsub a b) (nopp (nsub b a));
  nmul_opp_l : forall a k : num, nmul (nopp a) k = nopp (nmul a k);
  nmul_zero : forall a a' k : num,
    nis_zero a = true -> nis_zero a' = true ->
    same_number (nmul a k) (nmul a' k)
}.

(** Two rasters with rows of the same lengths. *)
Definition same_shape {num : Type} (a b : raster num) : Prop :=
  map length a = map length b.


(** The names of the redundant geometry keys, in lower case. *)
Definition geometry_names : list string :=
  ["width"; "samples"; "length"; "lines"].

(** No key of [out] is a geometry name in some capitalization. *)
Definition no_geometry_key_any_case (out : gmap string string) : Prop :=
  forall key, is_Some (out !! key) -> PyStr.lower key ∉ geometry_names.

(** The name before the first [-] of a dataset token. *)
Definition dataset_name (ds : option string) : string :=
  match ds with
  | Some s => match PyStr.split "-" s with d :: _ => d | [] => "" end
  | None => ""
  end.

(** The branches of [read_data] in which the raster depends on the
    reference pixel of the attributes: velocity, time-series, the
    displacement of an HDF-EOS5 file and the unwrapped phase of a stack. *)
Definition reference_changes_raster (k : value) (ds : option string) : bool :=
  value_is k "velocity" || value_is k "timeseries"
  || (value_is k "HDFEOS"
      && match ds with Some s => PyStr.contains "displacement" s | None => false end)
  || (value_is k "ifgramStack"
      && PyStr.startswith (dataset_name ds) "unwrapPhase").

(** The files of the last branch whose data is read again without a
    dataset name: coherence, mask, and the height of a geocoded geometry. *)
Definition rereads_default (atr : gmap string value) (kind : string)
  (ds : option string) : bool :=
  PyStr.contains "coherence" (PyStr.lower kind)
  || String.eqb kind "mask"
  || (String.eqb kind "geometry" && bool_decide (ds = Some "height")
      && haskey atr "Y_FIRST").

(** The computation [m] after the access [ev] to the file. *)
Definition logged {A} (ev : event) (m : io A) : io A :=
  (ev :: trace m, outcome m).

(** [-4 * np.pi / wavelength] *)
Definition phase_factor {num : Type} `{Scalar num} (wavelength : num) : num :=
  ndiv (nmul (nof_Z (-4)) npi) wavelength.

Module Scenario.
Import Binary64 Demo.




(** The float that [float('0.0562')] gives. *)
Definition c_band : float := PrimFloat.div 562 10000.

End Scenario.

Module Files.
Import Binary64 Demo.

(** An HDF-EOS5 file with two dates of displacement and a temporal
    coherence. *)
Definition hdfeos_attrs : gmap string value :=
  attrs [("FILE_TYPE", "HDFEOS"); ("WAVELENGTH", "0.0562");
         ("REF_DATE", "20170904"); ("LENGTH", "1"); ("WIDTH", "2")].

Definition hdfeos_world : world float :=
  single hdfeos_attrs []
    [("displacement-20170904", [[1; 2]]);
     ("displacement-20170916", [[4; 8]]);
     ("temporalCoherence", [[1; 1]])]%float
    ["20170904"; "20170916"].

(** A time-series file with two dates. *)
Definition timeseries_attrs : gmap string value :=
  attrs [("FILE_TYPE", "timeseries"); ("WAVELENGTH", "0.0562");
         ("REF_DATE", "20040101"); ("LENGTH", "1"); ("WIDTH", "2")].

Definition timeseries_world : world float :=
  single timeseries_attrs []
    [("20040101", [[1; 2]]); ("20050601", [[3; 5]])]%float
    ["20040101"; "20050601"].

(** A stack of interferograms that records the reference pixel (0, 0). *)
Definition stack_attrs : gmap string value :=
  attrs [("FILE_TYPE", "ifgramStack"); ("WAVELENGTH", "0.0562");
         ("REF_Y", "0"); ("REF_X", "0"); ("LENGTH", "2"); ("WIDTH", "2")].

Definition stack_world : world float :=
  single stack_attrs []
    [("unwrapPhase-20091225_20100723", [[1; 2]; [3; 4]])]%float [].

(** A mask file. *)
Definition mask_attrs : gmap string value :=
  attrs [("FILE_TYPE", "mask"); ("WAVELENGTH", "0.0562");
         ("LENGTH", "1"); ("WIDTH", "2")].

Definition mask_world : world float :=
  single mask_attrs [[1; 0]]%float [("mask", [[1; 0]]%float)] [].

End Files.

(** The token [date1_date2] of a pair of dates. *)
Definition pair_token (e1 e2 : string) : string := e1 ++ "_" ++ e2.

(** The token [displacement-date1_date2]. *)
Definition displacement_token (e1 e2 : string) : string :=
  "displacement" ++ "-" ++ pair_token e1 e2.

(** A date written without the separators of a token. *)
Definition plain (e : string) : Prop :=
  PyStr.contains "_" e = false /\ PyStr.contains "-" e = false.

(** [DATE12] for the dates [date1] and [date2] of eight digits. *)
Definition date12_of (date1 date2 : string) : value :=
  VStr (PyStr.slice 2 8 date1 ++ "-" ++ PyStr.slice 2 8 date2).

Module Compare.

(** Two float rasters with the same shape and equal values. *)
Definition same_values (a b : raster float) : bool :=
  bool_decide (map length a = map length b)
  && forallb (fun '(x, y) => PrimFloat.eqb x y) (zip (concat a) (concat b)).

End Compare.

(** The raster that a run of [read_data] returns. *)
Definition raster_of {num : Type}
  (m : io (raster num * gmap string value * string)) : result (raster num) :=
  match outcome m with
  | Ok (data, _, _) => Ok data
  | Raise e => Raise e
  end.

(** The attribute [key] of the mapping that a run of [read_data] returns. *)
Definition attribute_of {num : Type}
  (m : io (raster num * gmap string value * string)) (key : string)
  : result (option value) :=
  match outcome m with
  | Ok (_, atr, _) => Ok (atr !! key)
  | Raise e => Raise e
  end.

Module Pairs.
Import Binary64 Demo.

(** An HDF-EOS5 file with four dates whose catalog has a coherence slice
    named after a pair of dates. *)
Definition hdfeos_world : world float :=
  single Files.hdfeos_attrs []
    [("displacement-20170904", [[1; 2]]);
     ("displacement-20170916", [[4; 8]]);
     ("coherence-20170910_20170912", [[1; 1]])]%float
    ["20170904"; "20170910"; "20170912"; "20170916"].

End Pairs.

(** The computation [m] with [f] applied to its value. *)
Definition io_map {A B} (f : A -> B) (m : io A) : io B :=
  (trace m, match outcome m with Ok a => Ok (f a) | Raise e => Raise e end).

(** [f] applied to the attributes of a product. *)
Definition on_attributes {num : Type}
  (f : gmap string value -> gmap string value)
  (p : raster num * gmap string value * string)
  : raster num * gmap string value * string :=
  let '(data, atr, out) := p in (data, f atr, out).

(** The laws of zero that the reference pixel needs. The real numbers have
    them; binary64 floats have the first one for finite numbers. *)
Class ZeroLaws (num : Type) `{Scalar num} : Prop := {
  nsub_diag : forall a : num, nsub a a = nof_Z 0;
  nsub_zero_r : forall a : num, nsub a (nof_Z 0) = a
}.

(** [i] is an index of a sequence of length [n], counted from the start or,
    when negative, from the end. *)
Definition in_range (n : nat) (i : Z) : Prop :=
  - Z.of_nat n <= i < Z.of_nat n.



(** The accesses that read the file. *)
Definition is_read (ev : event) : Prop :=
  match ev with
  | WriteFile _ => False
  | _ => True
  end.

(** The values of [FILE_TYPE] in the ROI_PAC format. *)
Definition file_type_tags : list string :=
  [".unw"; ".cor"; ".int"; ".dem"; ".hgt"; ".msk"].

(** The attributes that [read_data] sets after the reference pixel. *)
Definition derived_keys : list string :=
  ["DATE"; "DATE12"; "FILE_TYPE"; "UNIT"; "DATA_TYPE"; "PROCESSOR"].

(** What a branch of [read_data] returns for the attributes [atr] it
    receives: a type of the ROI_PAC format, a file name that is the name
    of the command line or ends with the type, the other attributes as
    they were, and a raster with the shape of a dataset of the file. *)
Definition branch_post {num : Type} `{Scalar num} (w : world num)
  (inps : args) (atr : gmap string value)
  (p : raster num * gmap string value * string) : Prop :=
  let '(data, atr', out) := p in
  (exists tag base,
     tag ∈ file_type_tags /\ atr' !! "FILE_TYPE" = Some (VStr tag)
     /\ out = default_outfile (outfile inps) (base ++ tag))
  /\ (forall key, key ∉ derived_keys -> atr' !! key = atr !! key)
  /\ (exists ds raw,
        read w (file inps) ds = Ok raw /\ same_shape data raw).

(** Files that lack an attribute the program needs, or hold a zero
    wavelength. *)
Module Cases.
Import Binary64 Demo.

Definition no_length_attrs : gmap string value :=
  attrs [("FILE_TYPE", "mask"); ("WAVELENGTH", "0.0562"); ("WIDTH", "2")].

Definition no_length_world : world float :=
  single no_length_attrs [[1; 0]]%float [("mask", [[1; 0]]%float)] [].

Definition no_wavelength_attrs : gmap string value :=
  attrs [("FILE_TYPE", "mask"); ("LENGTH", "1"); ("WIDTH", "2")].

Definition no_wavelength_world : world float :=
  single no_wavelength_attrs [[1; 0]]%float [("mask", [[1; 0]]%float)] [].

Definition zero_wavelength_attrs : gmap string value :=
  attrs [("FILE_TYPE", "mask"); ("WAVELENGTH", "0"); ("LENGTH", "1");
         ("WIDTH", "2")].

Definition zero_wavelength_world : world float :=
  single zero_wavelength_attrs [[1; 0]]%float [("mask", [[1; 0]]%float)] [].

(** The request for the mask of a mask file, with the output name [name]
    and the reference pixel [ref]. *)
Definition mask_request (name : option string) (ref : option (Z * Z)) : args :=
  {| file := "maskTempCoh.h5"; dset := Some "mask"; outfile := name;
     ref_yx := ref |}.

End Cases.

(** A stack with the coherence of one pair, which records the reference
    pixel (0, 0). *)
Module Stacks.
Import Binary64 Demo.

Definition coherence_world : world float :=
  single Files.stack_attrs []
    [("coherence-20091225_20100723", [[1; 2]; [3; 4]])]%float [].

Definition coherence_request : args :=
  request "geo_ifgramStack.h5" (Some "coherence-20091225_20100723")
    (Some (1, 1)).

End Stacks.

(** The type that the last branch of [read_data] gives to the product of
    a file of type [kind]. *)
Definition generic_tag (atr : gmap string value) (kind : string)
  (ds : option string) : string :=
  if PyStr.contains "coherence" (PyStr.lower kind) then ".cor"
  else if String.eqb kind "mask" then ".msk"
  else if String.eqb kind "geometry" && bool_decide (ds = Some "height") then
    if haskey atr "Y_FIRST" then ".dem" else ".hgt"
  else ".unw".

(** The types of file that have a branch of their own in [read_data]. *)
Definition own_branch : list string :=
  ["velocity"; "timeseries"; "HDFEOS"; "ifgramStack"].

(** A time-series file that records no reference date. *)
Module Epochs.
Import Binary64 Demo.

Definition no_ref_date_attrs : gmap string value :=
  attrs [("FILE_TYPE", "timeseries"); ("WAVELENGTH", "0.0562");
         ("LENGTH", "1"); ("WIDTH", "2")].

Definition no_ref_date_world : world float :=
  single no_ref_date_attrs []
    [("20040101", [[1; 2]]); ("20050601", [[3; 5]])]%float
    ["20040101"; "20050601"].

(** A time series whose two dates agree at the first pixel. *)
Definition still_world : world float :=
  single Files.timeseries_attrs []
    [("20040101", [[1; 2]]); ("20050601", [[1; 5]])]%float
    ["20040101"; "20050601"].

(** A time series whose first date is not a number at the first pixel. *)
Definition gap_world : world float :=
  single Files.timeseries_attrs []
    [("20040101", [[PrimFloat.nan; 2]]); ("20050601", [[1; 5]])]%float
    ["20040101"; "20050601"].

End Epochs.

(** * Properties *)

(** ** Strings *)

Example split_pair : PyStr.split "_" "20040728_20050601" = ["20040728"; "20050601"].
Proof. reflexivity. Qed.

Example split_none : PyStr.split "-" "displacement" = ["displacement"].
Proof. reflexivity. Qed.

Example isupper_mixed :
  PyStr.isupper "REF_X" = true /\ PyStr.isupper "Width" = false
  /\ PyStr.isupper "1_2" = false.
Proof. repeat split. Qed.

Example splitext_h5 :
  PyStr.splitext_root "./inputs/geo_velocity.h5" = "./inputs/geo_velocity"
  /\ PyStr.splitext_root "dir.d/.hidden" = "dir.d/.hidden".
Proof. split; reflexivity. Qed.

Example parse_literal_wavelength :
  PyStr.parse_literal "0.0562" = Some (PyStr.Decimal false 562 (-4))
  /\ PyStr.parse_literal " -5.62E-2 " = Some (PyStr.Decimal true 562 (-4))
  /\ PyStr.parse_literal "Infinity" = Some (PyStr.Infinite false)
  /\ PyStr.parse_literal "1_0.5_0" = Some (PyStr.Decimal false 1050 (-2))
  /\ PyStr.parse_literal "1e" = None
  /\ PyStr.parse_int " -12 " = Some (-12).
Proof. repeat split; reflexivity. Qed.

(** [float] rounds once, to the nearest float: the literal of the
    wavelength, a literal half way between two floats, and the smallest
    and the largest numbers. *)
Example parse_rounds_to_nearest :
  Binary64.parse "0.0562" = Some (PrimFloat.div 562 10000)
  /\ Binary64.parse "9007199254740993" = Some 9007199254740992%float
  /\ Binary64.parse "1e23" = Some 0x1.52d02c7e14af6p+76%float
  /\ Binary64.parse "5e-324" = Some 0x0.0000000000001p-1022%float
  /\ Binary64.parse "1e309" = Some PrimFloat.infinity
  /\ Binary64.parse ".5" = Some 0.5%float.
Proof. repeat split; vm_compute; reflexivity. Qed.

Lemma Ok_inj {A} (a b : A) : Ok a = Ok b -> a = b.
Proof. congruence. Qed.

(** ** The metadata clean-up *)

Section Sanitizer.
Implicit Types (m : gmap string string) (key : string).

Lemma pop_if_present m key :
  (if haskey m key then delete key m else m) = delete key m.
Proof.
  unfold haskey. case_bool_decide as Hk; [done|].
  symmetry. apply delete_id. by apply eq_None_not_Some.
Qed.

Lemma lookup_drop_keys key_list m key :
  drop_keys key_list m !! key
  = if bool_decide (key ∈ key_list) then None else m !! key.
Proof.
  unfold drop_keys. revert m.
  induction key_list as [|a l IH]; intros m; simpl; [done|].
  rewrite IH, pop_if_present.
  destruct (decide (key = a)) as [->|Hne].
  - rewrite lookup_delete_eq.
    rewrite (bool_decide_eq_true_2 (a ∈ a :: l)) by set_solver.
    by case_bool_decide.
  - rewrite lookup_delete_ne by done.
    assert (bool_decide (key ∈ a :: l) = bool_decide (key ∈ l)) as ->; [|done].
    apply bool_decide_ext. rewrite elem_of_cons.
    split; [by intros [?|?]|by right].
Qed.

Lemma lookup_pop_not_upper key_list m key :
  foldl (fun m k => if negb (PyStr.isupper k) then delete k m else m)
        m key_list !! key
  = if negb (PyStr.isupper key) && bool_decide (key ∈ key_list) then None
    else m !! key.
Proof.
  revert m. induction key_list as [|a l IH]; intros m; simpl.
  { by rewrite andb_false_r. }
  rewrite IH. destruct (decide (key = a)) as [->|Hne].
  - rewrite (bool_decide_eq_true_2 (a ∈ a :: l)) by set_solver.
    destruct (PyStr.isupper a); simpl; [done|].
    rewrite lookup_delete_eq. by case_bool_decide.
  - assert ((if negb (PyStr.isupper a) then delete a m else m) !! key
            = m !! key) as ->.
    { destruct (negb (PyStr.isupper a)); [by rewrite lookup_delete_ne|done]. }
    destruct (negb (PyStr.isupper key)); simpl; [|done].
    assert (bool_decide (key ∈ a :: l) = bool_decide (key ∈ l)) as ->; [|done].
    apply bool_decide_ext. rewrite elem_of_cons.
    split; [by intros [?|?]|by right].
Qed.

Lemma lookup_drop_not_upper m key :
  drop_not_upper m !! key = if PyStr.isupper key then m !! key else None.
Proof.
  unfold drop_not_upper. rewrite lookup_pop_not_upper.
  destruct (PyStr.isupper key); simpl; [done|].
  case_bool_decide as Hin; [done|].
  destruct (m !! key) as [v|] eqn:Hv; [|done].
  exfalso. apply Hin. apply list_elem_of_fmap. exists (key, v).
  split; [done|]. by apply elem_of_map_to_list.
Qed.

Lemma isupper_no_lower key :
  PyStr.isupper key = true -> PyStr.has_lower key = false.
Proof. unfold PyStr.isupper. destruct (PyStr.has_lower key); simpl; congruence. Qed.

Lemma redundant_keys_not_upper key :
  key ∈ redundant_keys -> PyStr.isupper key = false.
Proof.
  unfold redundant_keys. rewrite !elem_of_cons, elem_of_nil.
  intros [->|[->|[->|[->|[->|[]]]]]]; reflexivity.
Qed.

(** The entries of the mapping just before [FILE_LENGTH] is set: the text
    of every entry under an upper-case key. *)
Lemma lookup_before_file_length (atr_in : gmap string value) key :
  drop_not_upper (drop_keys redundant_keys (py_str <$> atr_in)) !! key
  = if PyStr.isupper key then py_str <$> atr_in !! key else None.
Proof.
  rewrite lookup_drop_not_upper. destruct (PyStr.isupper key) eqn:Hup; [|done].
  rewrite lookup_drop_keys, lookup_fmap. case_bool_decide as Hin; [|done].
  apply redundant_keys_not_upper in Hin. congruence.
Qed.

Lemma clean_metadata4roipac_eq (atr_in : gmap string value) :
  clean_metadata4roipac atr_in
  = match atr_in !! "LENGTH" with
    | Some v =>
        Ok (<["FILE_LENGTH" := py_str v]>
              (drop_not_upper (drop_keys redundant_keys (py_str <$> atr_in))))
    | None => Raise (KeyError "LENGTH")
    end.
Proof.
  unfold clean_metadata4roipac, getitem.
  rewrite lookup_before_file_length. change (PyStr.isupper "LENGTH") with true.
  cbv iota. by destruct (atr_in !! "LENGTH").
Qed.

End Sanitizer.

(** C3, as amended. The output of the clean-up has no key with a lower-case
    character and none of the five spellings [width], [Width], [samples],
    [length], [lines]; every other entry under an upper-case key, such as
    [WIDTH] or [LENGTH], is kept with the text of its value. *)
Theorem clean_metadata4roipac_keys (atr_in : gmap string value)
  (out : gmap string string) :
  clean_metadata4roipac atr_in = Ok out ->
  (forall key, is_Some (out !! key) ->
     PyStr.has_lower key = false /\ key ∉ redundant_keys)
  /\ (forall key v, atr_in !! key = Some v -> PyStr.isupper key = true ->
        key <> "FILE_LENGTH" -> out !! key = Some (py_str v)).
Proof.
  rewrite clean_metadata4roipac_eq.
  destruct (atr_in !! "LENGTH") as [len|] eqn:Hlen; [|discriminate].
  intros <-%Ok_inj. split.
  - intros key Hkey.
    assert (PyStr.isupper key = true) as Hup.
    { destruct (decide (key = "FILE_LENGTH")) as [->|Hne]; [reflexivity|].
      rewrite lookup_insert_ne in Hkey by done.
      rewrite lookup_before_file_length in Hkey.
      destruct (PyStr.isupper key); [done|]. by destruct Hkey. }
    split; [by apply isupper_no_lower|].
    intros Hin%redundant_keys_not_upper. congruence.
  - intros key v Hv Hup Hne.
    rewrite lookup_insert_ne by done.
    rewrite lookup_before_file_length, Hup, Hv. done.
Qed.

Lemma clean_metadata4roipac_keys_witness :
  PyStr.has_lower "X_FIRST" = false /\ "X_FIRST" ∉ redundant_keys.
Proof.
  refine (proj1 (clean_metadata4roipac_keys
    (Demo.attrs [("WIDTH", "100"); ("LENGTH", "50"); ("width", "100");
                 ("Mixed", "1"); ("X_FIRST", "2")])
    (list_to_map [("WIDTH", "100"); ("LENGTH", "50"); ("FILE_LENGTH", "50");
                  ("X_FIRST", "2")]) _) "X_FIRST" _).
  - vm_compute. reflexivity.
  - vm_compute. eauto.
Defined.

(** C3, as stated, fails: an input with [WIDTH] and [LENGTH] keeps both,
    and they are geometry names in upper case. *)
Lemma clean_metadata4roipac_keeps_WIDTH :
  exists out,
    clean_metadata4roipac (Demo.attrs [("WIDTH", "100"); ("LENGTH", "50")])
    = Ok out
    /\ out !! "WIDTH" = Some "100"
    /\ ~ no_geometry_key_any_case out.
Proof.
  assert (Demo.attrs [("WIDTH", "100"); ("LENGTH", "50")] !! "LENGTH"
          = Some (VStr "50")) as Hlength by (vm_compute; reflexivity).
  assert (Demo.attrs [("WIDTH", "100"); ("LENGTH", "50")] !! "WIDTH"
          = Some (VStr "100")) as Hwidth by (vm_compute; reflexivity).
  rewrite clean_metadata4roipac_eq, Hlength.
  eexists. split; [reflexivity|].
  assert (forall v : string,
            <["FILE_LENGTH" := v]>
              (drop_not_upper (drop_keys redundant_keys
                 (py_str <$> Demo.attrs [("WIDTH", "100"); ("LENGTH", "50")])))
            !! "WIDTH" = Some "100") as Hout.
  { intros v. rewrite lookup_insert_ne by done.
    rewrite lookup_before_file_length, Hwidth. reflexivity. }
  split; [apply Hout|].
  intros Hno. apply (Hno "WIDTH").
  - rewrite Hout. by eexists.
  - change (PyStr.lower "WIDTH") with "width". unfold geometry_names.
    apply elem_of_cons. by left.
Qed.

(** C5, as amended. The clean-up copies [LENGTH] to [FILE_LENGTH] and keeps
    [LENGTH]: when the input has [LENGTH] the output has both keys with the
    text of the original value, and when the input has no [LENGTH] the
    clean-up ends with the [KeyError] of that key. *)
Theorem clean_metadata4roipac_file_length (atr_in : gmap string value) :
  match atr_in !! "LENGTH" with
  | Some v =>
      exists out, clean_metadata4roipac atr_in = Ok out
        /\ out !! "FILE_LENGTH" = Some (py_str v)
        /\ out !! "LENGTH" = Some (py_str v)
  | None => clean_metadata4roipac atr_in = Raise (KeyError "LENGTH")
  end.
Proof.
  rewrite clean_metadata4roipac_eq.
  destruct (atr_in !! "LENGTH") as [len|] eqn:Hlen; [|done].
  eexists. split; [done|]. split.
  - by rewrite lookup_insert_eq.
  - rewrite lookup_insert_ne by done.
    rewrite lookup_before_file_length, Hlen. done.
Qed.

(** C5, as stated, fails: [LENGTH] is not renamed, the output still has
    it next to [FILE_LENGTH]. *)
Lemma clean_metadata4roipac_keeps_LENGTH :
  exists out,
    clean_metadata4roipac (Demo.attrs [("LENGTH", "50")]) = Ok out
    /\ out !! "FILE_LENGTH" = Some "50"
    /\ out !! "LENGTH" = Some "50".
Proof.
  assert (Demo.attrs [("LENGTH", "50")] !! "LENGTH" = Some (VStr "50"))
    as Hlength by (vm_compute; reflexivity).
  rewrite clean_metadata4roipac_eq, Hlength.
  eexists. split; [reflexivity|]. split.
  - by rewrite lookup_insert_eq.
  - rewrite lookup_insert_ne by done.
    rewrite lookup_before_file_length, Hlength. reflexivity.
Qed.

(** ** Effects *)

Section Effects.
Context {A B : Type}.
Implicit Types (m : io A) (f : A -> io B).

Lemma bind_mret a f : mret a ≫= f = f a.
Proof. unfold mbind, mret, io_bind, io_ret. by destruct (f a). Qed.

Lemma bind_pure_Ok a f : pure (Ok a) ≫= f = f a.
Proof. apply bind_mret. Qed.

Lemma bind_pure_Raise e f : pure (Raise e) ≫= f = raise e.
Proof. reflexivity. Qed.

Lemma bind_raise e f : raise e ≫= f = raise e.
Proof. reflexivity. Qed.

Lemma bind_perform_Ok ev a f : perform ev (Ok a) ≫= f = logged ev (f a).
Proof. unfold mbind, io_bind, perform, logged. by destruct (f a). Qed.

Lemma bind_perform_Raise ev e f :
  perform ev (Raise e) ≫= f = perform ev (Raise e).
Proof. reflexivity. Qed.

Lemma bind_logged ev m f : logged ev m ≫= f = logged ev (m ≫= f).
Proof.
  unfold mbind, io_bind, logged. destruct m as [t [a|e]]; simpl; [|done].
  by destruct (f a).
Qed.

Lemma outcome_bind m f :
  outcome (m ≫= f)
  = match outcome m with Ok a => outcome (f a) | Raise e => Raise e end.
Proof.
  unfold mbind, io_bind. destruct m as [t [a|e]]; simpl; [|done].
  by destruct (f a).
Qed.

Lemma trace_bind m f :
  trace (m ≫= f)
  = (trace m ++ match outcome m with Ok a => trace (f a) | Raise _ => [] end)%list.
Proof.
  unfold mbind, io_bind. destruct m as [t [a|e]]; simpl.
  - by destruct (f a).
  - by rewrite app_nil_r.
Qed.

End Effects.

Lemma logged_eq {A} ev (m : io A) t r : m = (t, r) -> logged ev m = (ev :: t, r).
Proof. by intros ->. Qed.

(** ** Lists and attributes *)

Lemma py_index_first {A} (a : A) l : py_index (a :: l) 0 = Ok a.
Proof.
  unfold py_index. cbn [length]. rewrite Nat2Z.inj_succ.
  replace (0 <? 0) with false by done. cbv iota.
  replace ((0 <=? 0) && (0 <? Z.succ (Z.of_nat (length l)))) with true; [done|].
  symmetry. apply andb_true_iff. split; [done|]. apply Z.ltb_lt. lia.
Qed.

Lemma py_index_last {A} (l : list A) a : last l = Some a -> py_index l (-1) = Ok a.
Proof.
  intros Hlast. unfold py_index.
  assert (length l <> 0%nat) as Hlen by (intros ?%nil_length_inv; by subst).
  replace (-1 <? 0) with true by done. cbv iota.
  replace ((0 <=? Z.of_nat (length l) + -1)
           && (Z.of_nat (length l) + -1 <? Z.of_nat (length l))) with true.
  2:{ symmetry. apply andb_true_iff. split; [apply Z.leb_le|apply Z.ltb_lt]; lia. }
  replace (Z.to_nat (Z.of_nat (length l) + -1)) with (pred (length l)) by lia.
  rewrite <- last_lookup, Hlast. done.
Qed.

Lemma lookup_set_reference y x (atr : gmap string value) key :
  key <> "REF_X" -> key <> "REF_Y" ->
  set_reference y x atr !! key = atr !! key.
Proof. intros. unfold set_reference. by rewrite !lookup_insert_ne. Qed.

Lemma lookup_change_reference inps (atr : gmap string value) key :
  key <> "REF_X" -> key <> "REF_Y" ->
  change_reference inps atr !! key = atr !! key.
Proof.
  intros. unfold change_reference. destruct (ref_yx inps) as [[y x]|]; [|done].
  by apply lookup_set_reference.
Qed.

Lemma getitem_Some {V} (d : gmap string V) key v :
  d !! key = Some v -> getitem d key = Ok v.
Proof. unfold getitem. by intros ->. Qed.


(** Looks an attribute up through the entries the program has set. *)
Ltac lookup_attr :=
  repeat (rewrite lookup_insert_ne by done);
  try rewrite lookup_insert_eq;
  try (rewrite lookup_change_reference by done);
  try (rewrite lookup_set_reference by done);
  try done.

(** ** Velocity *)


Section Velocity.
Context {num : Type} `{Scalar num} (w : world num).


End Velocity.


(** ** The default dataset *)

Section DefaultDataset.
Context {num : Type} `{Scalar num} (w : world num).


End DefaultDataset.


Example cmd_line_parse_last_date :
  cmd_line_parse Files.timeseries_world (Demo.request "ts.h5" None None)
  = ([ReadAttribute; TimeseriesDateList],
     Ok (Demo.request "ts.h5" (Some "20050601") None)).
Proof. vm_compute. reflexivity. Qed.

(** ** The last branch *)

Lemma rereads_default_generic (atr : gmap string value) kind ds :
  rereads_default atr kind ds = true ->
  value_is (VStr kind) "velocity" = false
  /\ value_is (VStr kind) "timeseries" = false
  /\ value_is (VStr kind) "HDFEOS" = false
  /\ value_is (VStr kind) "ifgramStack" = false.
Proof.
  intros Hre. simpl.
  repeat split;
    (apply String.eqb_neq; intros Heq; rewrite Heq in Hre;
     vm_compute in Hre; discriminate Hre).
Qed.

Section Generic.
Context {num : Type} `{Scalar num} (w : world num).

(** In the three cases of [rereads_default] the program reads the dataset
    of the token, then the file without a dataset name, and returns the
    second raster. *)
Lemma read_data_reread (inps : args) (atr : gmap string value)
  (kind : string) (k : num) (first data : raster num) :
  read_attribute w (file inps) = Ok atr ->
  range2phase_of atr = Ok k ->
  atr !! "FILE_TYPE" = Some (VStr kind) ->
  rereads_default atr kind (dset inps) = true ->
  read w (file inps) (dset inps) = Ok first ->
  read w (file inps) None = Ok data ->
  exists atr' out,
    read_data w inps
    = ([ReadAttribute; Read (dset inps); Read None], Ok (data, atr', out)).
Proof.
  intros Hatr Hk Htype Hre Hfirst Hdata.
  destruct (rereads_default_generic _ _ _ Hre) as (Hv & Ht & Hh & Hi).
  unfold read_data. rewrite Hatr, bind_perform_Ok, Hk, bind_pure_Ok.
  rewrite (getitem_Some _ _ (VStr kind))
    by (by rewrite lookup_change_reference).
  rewrite bind_pure_Ok, Hv, Ht, Hh, Hi.
  unfold read_generic, read_slice.
  rewrite Hfirst, bind_perform_Ok, !bind_logged, bind_mret.
  unfold rereads_default in Hre.
  destruct (PyStr.contains "coherence" (PyStr.lower kind)).
  { rewrite Hdata, bind_perform_Ok, !bind_logged, !bind_mret.
    rewrite (getitem_Some _ _ (VStr ".cor")) by lookup_attr.
    rewrite bind_pure_Ok, !bind_mret. by eexists _, _. }
  destruct (String.eqb kind "mask").
  { rewrite Hdata, bind_perform_Ok, !bind_logged, !bind_mret.
    rewrite (getitem_Some _ _ (VStr ".msk")) by lookup_attr.
    rewrite bind_pure_Ok, !bind_mret. by eexists _, _. }
  simpl in Hre. apply andb_true_iff in Hre as [Hre Hy].
  rewrite Hre.
  assert (haskey (change_reference inps atr) "Y_FIRST" = true) as ->.
  { unfold haskey in *. by rewrite lookup_change_reference. }
  rewrite Hdata, bind_perform_Ok, !bind_logged, !bind_mret.
  rewrite (getitem_Some _ _ (VStr ".dem")) by lookup_attr.
  rewrite bind_pure_Ok, !bind_mret. by eexists _, _.
Qed.

(** C9. For a file of a coherence type, of type mask, or of type geometry
    with the token [height] and a [Y_FIRST] attribute, the program reads
    the dataset of the token, then reads the file again without a dataset
    name, and returns the second raster; the raster of the first read is
    dropped, and every token of these cases that can be read gives the
    same returned raster. *)
Theorem read_data_rereads_default (inps : args) (atr : gmap string value)
  (kind : string) (k : num) (first data : raster num) :
  read_attribute w (file inps) = Ok atr ->
  range2phase_of atr = Ok k ->
  atr !! "FILE_TYPE" = Some (VStr kind) ->
  rereads_default atr kind (dset inps) = true ->
  read w (file inps) (dset inps) = Ok first ->
  read w (file inps) None = Ok data ->
  (exists atr' out,
     read_data w inps
     = ([ReadAttribute; Read (dset inps); Read None], Ok (data, atr', out)))
  /\ (forall token other,
        rereads_default atr kind token = true ->
        read w (file inps) token = Ok other ->
        raster_of (read_data w (with_dset inps token)) = Ok data).
Proof.
  intros Hatr Hk Htype Hre Hfirst Hdata. split.
  - by apply (read_data_reread inps atr kind k first data).
  - intros token other Hre' Hother.
    destruct (read_data_reread (with_dset inps token) atr kind k other data)
      as (atr' & out & Hrun); try done.
    unfold raster_of. by rewrite Hrun.
Qed.

End Generic.

Lemma read_data_rereads_default_mask :
  exists atr' out,
    read_data Files.mask_world (Demo.request "maskTempCoh.h5" (Some "mask") None)
    = ([ReadAttribute; Read (Some "mask"); Read None],
       Ok ([[1; 0]]%float, atr', out)).
Proof.
  refine (proj1 (read_data_rereads_default Files.mask_world
            (Demo.request "maskTempCoh.h5" (Some "mask") None)
            Files.mask_attrs "mask" (phase_factor Scenario.c_band)
            [[1; 0]]%float [[1; 0]]%float _ _ _ _ _ _));
    reflexivity.
Defined.

(** ** Splitting a token *)

Lemma startswith_empty s : PyStr.startswith s "" = true.
Proof. by destruct s. Qed.

Section Split.
Variable sep : ascii.

(** The character [sep] occurs in [s]. *)
Local Abbreviation has_sep s := (PyStr.contains (String sep EmptyString) s).

Lemma has_sep_cons c s :
  has_sep (String c s) = Ascii.eqb sep c || has_sep s.
Proof. simpl. by rewrite startswith_empty, andb_true_r. Qed.

Lemma has_sep_app a b : has_sep (a ++ b) = has_sep a || has_sep b.
Proof.
  induction a as [|c a IH].
  - change ("" ++ b) with b. by destruct b.
  - change (String c a ++ b) with (String c (a ++ b)).
    rewrite !has_sep_cons, IH. by rewrite orb_assoc.
Qed.

Lemma has_sep_join a b : has_sep (a ++ String sep b) = true.
Proof.
  rewrite has_sep_app, has_sep_cons, Ascii.eqb_refl. by rewrite orb_true_r.
Qed.

Lemma split_nonempty s : PyStr.split sep s <> [].
Proof.
  induction s as [|c s IH]; simpl; [done|].
  destruct (Ascii.eqb c sep); [done|]. by destruct (PyStr.split sep s).
Qed.

Lemma split_no_sep s : has_sep s = false -> PyStr.split sep s = [s].
Proof.
  induction s as [|c s IH]; [done|].
  rewrite has_sep_cons. intros [Hc Hs]%orb_false_iff.
  simpl. rewrite Ascii.eqb_sym, Hc. by rewrite IH.
Qed.

Lemma split_join a b :
  has_sep a = false ->
  PyStr.split sep (a ++ String sep b) = a :: PyStr.split sep b.
Proof.
  induction a as [|c a IH].
  - intros _. change ("" ++ String sep b) with (String sep b).
    simpl. by rewrite Ascii.eqb_refl.
  - rewrite has_sep_cons. intros [Hc Ha]%orb_false_iff.
    change (String c a ++ String sep b) with (String c (a ++ String sep b)).
    simpl. rewrite Ascii.eqb_sym, Hc. by rewrite IH.
Qed.

Lemma split_pair_join a b :
  has_sep a = false -> has_sep b = false ->
  PyStr.split sep (a ++ String sep b) = [a; b].
Proof. intros Ha Hb. by rewrite split_join, split_no_sep. Qed.

End Split.

(** ** Rasters *)

Section RasterFacts.
Context {num : Type} `{Scalar num}.
Implicit Types (a b : raster num) (k : num).

Lemma same_shape_sym a b : same_shape a b -> same_shape b a.
Proof. unfold same_shape. congruence. Qed.

Lemma isub_row_same (ra rb : list num) :
  length ra = length rb -> isub_row ra rb = Ok (zip_with nsub ra rb).
Proof. intros Hlen. unfold isub_row. by rewrite Hlen, Nat.eqb_refl. Qed.

Lemma isub_rows_same a b :
  same_shape a b -> isub_rows a b = Ok (zip_with (zip_with nsub) a b).
Proof.
  unfold same_shape. revert b.
  induction a as [|ra a IH]; intros [|rb b] Hshape; try done.
  simpl in *. injection Hshape as Hrow Hrest.
  by rewrite isub_row_same, IH.
Qed.

(** Subtraction in place of a raster of the same shape is the difference
    element by element. *)
Lemma isub_same_shape a b :
  same_shape a b -> isub a b = Ok (zip_with (zip_with nsub) a b).
Proof.
  intros Hshape. unfold isub.
  assert (length b = length a) as ->.
  { unfold same_shape in Hshape.
    by rewrite <- (length_map length a), Hshape, length_map. }
  rewrite Nat.eqb_refl. by apply isub_rows_same.
Qed.

Context `{!SignLaws num}.

(** One pixel: [(x - y) * k] and [- ((y - x) * k)] are the same number. *)
Lemma difference_sign (x y k : num) :
  same_number (nmul (nsub x y) k) (nopp (nmul (nsub y x) k)).
Proof.
  rewrite <- nmul_opp_l.
  destruct (nsub_swap x y) as [->|[Hxy Hyx]]; [by left|].
  by apply nmul_zero.
Qed.

Lemma difference_sign_row (ra rb : list num) k :
  Forall2 same_number
    (map (fun x => nmul x k) (zip_with nsub ra rb))
    (map nopp (map (fun x => nmul x k) (zip_with nsub rb ra))).
Proof.
  revert rb. induction ra as [|x ra IH]; intros [|y rb]; simpl;
    constructor; [apply difference_sign|apply IH].
Qed.

(** The scaled difference of two rasters, and the negation of the scaled
    difference in the other order. *)
Lemma difference_sign_raster a b k :
  same_raster (scale (zip_with (zip_with nsub) a b) k)
              (negate (scale (zip_with (zip_with nsub) b a) k)).
Proof.
  unfold same_raster, scale, negate. revert b.
  induction a as [|ra a IH]; intros [|rb b]; simpl;
    constructor; [apply difference_sign_row|apply IH].
Qed.

End RasterFacts.

(** ** Time series *)

Section Timeseries.
Context {num : Type} `{Scalar num} (w : world num).

(** A time-series request [date1_date2]: the raster of [date2] minus the
    raster of [date1], times the phase factor, then the reference. *)
Lemma read_data_timeseries_pair (inps : args) (atr : gmap string value)
  (k : num) (ds e1 e2 : string) (r1 r2 d data : raster num) :
  read_attribute w (file inps) = Ok atr ->
  range2phase_of atr = Ok k ->
  atr !! "FILE_TYPE" = Some (VStr "timeseries") ->
  dset inps = Some ds ->
  PyStr.contains "_" ds = true ->
  PyStr.split "_" ds = [e1; e2] ->
  read w (file inps) (Some (yyyymmdd w e2)) = Ok r2 ->
  read w (file inps) (Some (yyyymmdd w e1)) = Ok r1 ->
  isub r2 r1 = Ok d ->
  with_reference (ref_yx inps) (scale d k) = Ok data ->
  exists atr' out,
    read_data w inps
    = ([ReadAttribute; Read (Some (yyyymmdd w e2)); Read (Some (yyyymmdd w e1))],
       Ok (data, atr', out))
    /\ atr' !! "DATE12" = Some (date12_of (yyyymmdd w e1) (yyyymmdd w e2))
    /\ atr' !! "FILE_TYPE" = Some (VStr ".unw").
Proof.
  intros Hatr Hk Htype Hds Hin Hsplit Hr2 Hr1 Hd Hdata.
  eexists _, _. split.
  - unfold read_data. rewrite Hatr, bind_perform_Ok, Hk, bind_pure_Ok.
    rewrite (getitem_Some _ _ (VStr "timeseries"))
      by (by rewrite lookup_change_reference).
    rewrite bind_pure_Ok.
    change (value_is (VStr "timeseries") "velocity") with false.
    change (value_is (VStr "timeseries") "timeseries") with true.
    cbv iota.
    unfold read_timeseries, dset_text, read_slice, subtract_ref.
    rewrite Hds, bind_mret, Hin, Hsplit.
    cbn [map unpack2]. rewrite bind_pure_Ok. cbv beta iota.
    rewrite Hr2, bind_perform_Ok, !bind_logged.
    rewrite Hr1, bind_perform_Ok, !bind_logged.
    rewrite Hd, bind_pure_Ok, Hdata, bind_pure_Ok, !bind_mret.
    reflexivity.
  - split; unfold set_dates, date12_of; lookup_attr.
Qed.

(** A time-series request of a single date: the stored reference date is
    the first date of the pair. *)
Lemma read_data_timeseries_single (inps : args) (atr : gmap string value)
  (k : num) (ds ref : string) (r1 r2 d data : raster num) :
  read_attribute w (file inps) = Ok atr ->
  range2phase_of atr = Ok k ->
  atr !! "FILE_TYPE" = Some (VStr "timeseries") ->
  dset inps = Some ds ->
  PyStr.contains "_" ds = false ->
  atr !! "REF_DATE" = Some (VStr ref) ->
  read w (file inps) (Some (yyyymmdd w ds)) = Ok r2 ->
  read w (file inps) (Some ref) = Ok r1 ->
  isub r2 r1 = Ok d ->
  with_reference (ref_yx inps) (scale d k) = Ok data ->
  exists atr' out,
    read_data w inps
    = ([ReadAttribute; Read (Some (yyyymmdd w ds)); Read (Some ref)],
       Ok (data, atr', out))
    /\ atr' !! "DATE12" = Some (date12_of ref (yyyymmdd w ds)).
Proof.
  intros Hatr Hk Htype Hds Hin Href Hr2 Hr1 Hd Hdata.
  eexists _, _. split.
  - unfold read_data. rewrite Hatr, bind_perform_Ok, Hk, bind_pure_Ok.
    rewrite (getitem_Some _ _ (VStr "timeseries"))
      by (by rewrite lookup_change_reference).
    rewrite bind_pure_Ok.
    change (value_is (VStr "timeseries") "velocity") with false.
    change (value_is (VStr "timeseries") "timeseries") with true.
    cbv iota.
    unfold read_timeseries, dset_text, read_slice, subtract_ref, ref_date.
    rewrite Hds, bind_mret, Hin.
    rewrite (getitem_Some _ _ (VStr ref))
      by (by rewrite lookup_change_reference).
    rewrite bind_pure_Ok. cbn [as_str]. rewrite bind_pure_Ok, bind_mret.
    cbv beta iota.
    rewrite Hr2, bind_perform_Ok, !bind_logged.
    rewrite Hr1, bind_perform_Ok, !bind_logged.
    rewrite Hd, bind_pure_Ok, Hdata, bind_pure_Ok, !bind_mret.
    reflexivity.
  - unfold set_dates, date12_of; lookup_attr.
Qed.

End Timeseries.

(** ** HDF-EOS5 *)

Section Hdfeos.
Context {num : Type} `{Scalar num} (w : world num).

Lemma displacement_token_name e1 e2 :
  plain e1 -> plain e2 ->
  PyStr.split "-" (displacement_token e1 e2)
  = ["displacement"; pair_token e1 e2].
Proof.
  intros [_ H1] [_ H2].
  apply (split_pair_join "-" "displacement" (pair_token e1 e2)); [done|].
  unfold pair_token.
  change (e1 ++ "_" ++ e2) with (e1 ++ String "_" e2).
  rewrite has_sep_app, has_sep_cons, H1, H2. reflexivity.
Qed.

Lemma pair_token_split e1 e2 :
  plain e1 -> plain e2 ->
  PyStr.contains "_" (pair_token e1 e2) = true
  /\ PyStr.split "_" (pair_token e1 e2) = [e1; e2].
Proof.
  intros [H1 _] [H2 _]. unfold pair_token.
  change (e1 ++ "_" ++ e2) with (e1 ++ String "_" e2).
  split; [apply has_sep_join|by apply split_pair_join].
Qed.

(** A displacement request [displacement-date1_date2]: the program
    subtracts the slice of [date2] from the slice of [date1]. *)
Lemma read_data_hdfeos_displacement (inps : args) (atr : gmap string value)
  (k : num) (e1 e2 : string) (slice_list found1 found2 : list string)
  (s1 s2 : string) (r1 r2 d data : raster num) :
  read_attribute w (file inps) = Ok atr ->
  range2phase_of atr = Ok k ->
  atr !! "FILE_TYPE" = Some (VStr "HDFEOS") ->
  dset inps = Some (displacement_token e1 e2) ->
  plain e1 -> plain e2 ->
  get_slice_list w (file inps) = Ok slice_list ->
  check_dataset_input w slice_list ("displacement" ++ "-" ++ yyyymmdd w e1)
  = Ok (s1 :: found1) ->
  check_dataset_input w slice_list ("displacement" ++ "-" ++ yyyymmdd w e2)
  = Ok (s2 :: found2) ->
  read w (file inps) (Some s1) = Ok r1 ->
  read w (file inps) (Some s2) = Ok r2 ->
  isub r1 r2 = Ok d ->
  with_reference (ref_yx inps) (scale d k) = Ok data ->
  exists atr' out,
    read_data w inps
    = ([ReadAttribute; GetSliceList; Read (Some s1); Read (Some s2)],
       Ok (data, atr', out))
    /\ atr' !! "DATE12" = Some (date12_of (yyyymmdd w e1) (yyyymmdd w e2))
    /\ atr' !! "FILE_TYPE" = Some (VStr ".unw").
Proof.
  intros Hatr Hk Htype Hds He1 He2 Hlist Hs1 Hs2 Hr1 Hr2 Hd Hdata.
  destruct (pair_token_split e1 e2 He1 He2) as [Hin Hsplit].
  eexists _, _. split.
  - unfold read_data. rewrite Hatr, bind_perform_Ok, Hk, bind_pure_Ok.
    rewrite (getitem_Some _ _ (VStr "HDFEOS"))
      by (by rewrite lookup_change_reference).
    rewrite bind_pure_Ok.
    change (value_is (VStr "HDFEOS") "velocity") with false.
    change (value_is (VStr "HDFEOS") "timeseries") with false.
    change (value_is (VStr "HDFEOS") "HDFEOS") with true.
    cbv iota.
    unfold read_hdfeos, dset_text. rewrite Hds, bind_mret.
    rewrite displacement_token_name by done.
    rewrite py_index_first, bind_pure_Ok.
    unfold hdfeos_dates.
    change ("displacement" =? "displacement")%string with true. cbv iota.
    assert (PyStr.contains "-" (displacement_token e1 e2) = true) as ->.
    { apply (has_sep_join "-" "displacement"). }
    rewrite displacement_token_name by done.
    change (py_index ["displacement"; pair_token e1 e2] 1)
      with (Ok (A:=string) (pair_token e1 e2)).
    rewrite bind_pure_Ok, Hin, Hsplit.
    cbn [map unpack2]. rewrite bind_pure_Ok. cbv beta iota.
    unfold hdfeos_data, slice_name_of, read_slice, subtract_ref.
    rewrite Hlist, bind_perform_Ok, !bind_logged.
    assert (PyStr.contains "displacement" (displacement_token e1 e2) = true)
      as -> by reflexivity.
    rewrite Hs1, bind_pure_Ok, py_index_first, bind_pure_Ok.
    rewrite Hs2, bind_pure_Ok, py_index_first, bind_pure_Ok.
    rewrite Hr1, bind_perform_Ok, !bind_logged.
    rewrite Hr2, bind_perform_Ok, !bind_logged.
    rewrite Hd, bind_pure_Ok, Hdata, bind_pure_Ok.
    unfold hdfeos_kind.
    change ("displacement" =? "displacement")%string with true. cbv iota.
    rewrite bind_mret.
    rewrite (getitem_Some _ _ (VStr ".unw")) by lookup_attr.
    rewrite bind_pure_Ok, !bind_mret. reflexivity.
  - split; unfold set_dates, date12_of; lookup_attr.
Qed.

End Hdfeos.

(** ** Antisymmetry of the difference of two dates *)

Section Antisymmetry.
Context {num : Type} `{Scalar num} `{!SignLaws num} (w : world num).

(** C7, as amended. Without a reference pixel, and for two rasters of the
    same shape, the raster of the request [date1_date2] and the negation
    of the raster of the request [date2_date1] hold the same numbers pixel
    by pixel, for a time series and for the displacement of an HDF-EOS5
    file: identical values, except that where the rasters of the two dates
    agree both results are zeros, which may differ in sign. This holds
    for the binary64 floats of the program and for the real numbers. *)
Theorem epoch_difference_antisymmetric (inps : args)
  (atr : gmap string value) (k : num) (e1 e2 : string) (r1 r2 : raster num) :
  read_attribute w (file inps) = Ok atr ->
  range2phase_of atr = Ok k ->
  ref_yx inps = None ->
  plain e1 -> plain e2 ->
  same_shape r1 r2 ->
  (atr !! "FILE_TYPE" = Some (VStr "timeseries") ->
   read w (file inps) (Some (yyyymmdd w e1)) = Ok r1 ->
   read w (file inps) (Some (yyyymmdd w e2)) = Ok r2 ->
   exists d12 d21 a12 a21 o12 o21,
     outcome (read_data w (with_dset inps (Some (pair_token e1 e2))))
     = Ok (d12, a12, o12)
     /\ outcome (read_data w (with_dset inps (Some (pair_token e2 e1))))
        = Ok (d21, a21, o21)
     /\ same_raster d12 (negate d21))
  /\ (atr !! "FILE_TYPE" = Some (VStr "HDFEOS") ->
      forall slice_list s1 s2 found1 found2,
      get_slice_list w (file inps) = Ok slice_list ->
      check_dataset_input w slice_list ("displacement" ++ "-" ++ yyyymmdd w e1)
      = Ok (s1 :: found1) ->
      check_dataset_input w slice_list ("displacement" ++ "-" ++ yyyymmdd w e2)
      = Ok (s2 :: found2) ->
      read w (file inps) (Some s1) = Ok r1 ->
      read w (file inps) (Some s2) = Ok r2 ->
      exists d12 d21 a12 a21 o12 o21,
        outcome (read_data w (with_dset inps (Some (displacement_token e1 e2))))
        = Ok (d12, a12, o12)
        /\ outcome (read_data w (with_dset inps (Some (displacement_token e2 e1))))
           = Ok (d21, a21, o21)
        /\ same_raster d12 (negate d21)).
Proof.
  intros Hatr Hk Href He1 He2 Hshape.
  pose proof (same_shape_sym _ _ Hshape) as Hshape'.
  split.
  - intros Htype Hr1 Hr2.
    destruct (pair_token_split e1 e2 He1 He2) as [Hin12 Hsplit12].
    destruct (pair_token_split e2 e1 He2 He1) as [Hin21 Hsplit21].
    destruct (read_data_timeseries_pair w
                (with_dset inps (Some (pair_token e1 e2))) atr k
                (pair_token e1 e2) e1 e2 r1 r2
                (zip_with (zip_with nsub) r2 r1)
                (scale (zip_with (zip_with nsub) r2 r1) k))
      as (a12 & o12 & Hrun12 & _); try done.
    { by apply isub_same_shape. }
    { simpl. by rewrite Href. }
    destruct (read_data_timeseries_pair w
                (with_dset inps (Some (pair_token e2 e1))) atr k
                (pair_token e2 e1) e2 e1 r2 r1
                (zip_with (zip_with nsub) r1 r2)
                (scale (zip_with (zip_with nsub) r1 r2) k))
      as (a21 & o21 & Hrun21 & _); try done.
    { by apply isub_same_shape. }
    { simpl. by rewrite Href. }
    eexists _, _, a12, a21, o12, o21.
    rewrite Hrun12, Hrun21. repeat split.
    apply difference_sign_raster.
  - intros Htype slice_list s1 s2 found1 found2 Hlist Hs1 Hs2 Hr1 Hr2.
    destruct (read_data_hdfeos_displacement w
                (with_dset inps (Some (displacement_token e1 e2))) atr k
                e1 e2 slice_list found1 found2 s1 s2 r1 r2
                (zip_with (zip_with nsub) r1 r2)
                (scale (zip_with (zip_with nsub) r1 r2) k))
      as (a12 & o12 & Hrun12 & _); try done.
    { by apply isub_same_shape. }
    { simpl. by rewrite Href. }
    destruct (read_data_hdfeos_displacement w
                (with_dset inps (Some (displacement_token e2 e1))) atr k
                e2 e1 slice_list found2 found1 s2 s1 r2 r1
                (zip_with (zip_with nsub) r2 r1)
                (scale (zip_with (zip_with nsub) r2 r1) k))
      as (a21 & o21 & Hrun21 & _); try done.
    { by apply isub_same_shape. }
    { simpl. by rewrite Href. }
    eexists _, _, a12, a21, o12, o21.
    rewrite Hrun12, Hrun21. repeat split.
    apply difference_sign_raster.
Qed.

End Antisymmetry.

(** ** The sign laws on real numbers and on binary64 floats *)

Section SpecFloats.
Variables prec emax : Z.

Lemma binary_round_aux_opp s m e l :
  binary_round_aux prec emax (negb s) m e l
  = SFopp (binary_round_aux prec emax s m e l).
Proof.
  unfold binary_round_aux.
  destruct (shr_fexp prec emax m e l) as [mrs' e'].
  destruct (shr_fexp prec emax _ e' loc_Exact) as [mrs'' e''].
  destruct (shr_m mrs''); try reflexivity.
  destruct (e'' <=? emax - prec); reflexivity.
Qed.

Lemma binary_round_opp s m e :
  binary_round prec emax (negb s) m e = SFopp (binary_round prec emax s m e).
Proof.
  unfold binary_round. destruct (shl_align m e _) as [mz ez].
  apply binary_round_aux_opp.
Qed.

Lemma binary_normalize_opp m e :
  m <> 0 ->
  binary_normalize prec emax (- m) e false
  = SFopp (binary_normalize prec emax m e false).
Proof.
  destruct m as [|p|p]; intros Hm; [done| |]; simpl.
  - apply (binary_round_opp false).
  - apply (binary_round_opp true).
Qed.

(** [x - y] is the opposite of [y - x], except that both are [+0] when
    the difference of two finite numbers is zero. *)
Lemma SFsub_anti x y :
  SFsub prec emax x y = SFopp (SFsub prec emax y x)
  \/ (SFsub prec emax x y = S754_zero false
      /\ SFsub prec emax y x = S754_zero false).
Proof.
  destruct x as [sx|sx| |sx mx ex], y as [sy|sy| |sy my ey]; simpl;
    try (left; reflexivity);
    try (destruct sx, sy; simpl; auto; fail);
    try (left; by rewrite negb_involutive).
  rewrite (Z.min_comm ey ex).
  set (a := cond_Zopp sx (Z.pos (fst (shl_align mx ex (Z.min ex ey))))).
  set (b := cond_Zopp sy (Z.pos (fst (shl_align my ey (Z.min ex ey))))).
  destruct (Z.eq_dec (a - b) 0) as [Hz|Hnz].
  - right. replace (b - a) with 0 by lia. rewrite Hz. auto.
  - left. replace (a - b) with (- (b - a)) by lia.
    apply binary_normalize_opp. lia.
Qed.

Lemma SFmul_opp x k :
  SFmul prec emax (SFopp x) k = SFopp (SFmul prec emax x k).
Proof.
  destruct x as [sx|sx| |sx mx ex], k as [sk|sk| |sk mk ek]; simpl;
    rewrite <- ?negb_xorb_l; try reflexivity.
  apply binary_round_aux_opp.
Qed.

(** A zero times [k] is a zero, or not a number. *)
Lemma SFmul_zero s k :
  SFmul prec emax (S754_zero s) k = S754_nan
  \/ exists s', SFmul prec emax (S754_zero s) k = S754_zero s'.
Proof. destruct k; simpl; eauto. Qed.

Lemma SFmul_zero_nan s s' k :
  SFmul prec emax (S754_zero s) k = S754_nan ->
  SFmul prec emax (S754_zero s') k = S754_nan.
Proof. by destruct k. Qed.

Lemma SFmul_zero_zero s s' k t :
  SFmul prec emax (S754_zero s) k = S754_zero t ->
  exists t', SFmul prec emax (S754_zero s') k = S754_zero t'.
Proof. destruct k; simpl; intros; try discriminate; eauto. Qed.

End SpecFloats.

Lemma Prim2SF_inj (a b : float) : Prim2SF a = Prim2SF b -> a = b.
Proof.
  intros Heq. rewrite <- (SF2Prim_Prim2SF a), <- (SF2Prim_Prim2SF b).
  by rewrite Heq.
Qed.

Lemma float_is_zero (a : float) :
  PrimFloat.eqb a PrimFloat.zero = true <-> exists s, Prim2SF a = S754_zero s.
Proof.
  rewrite FloatAxioms.eqb_spec. change (Prim2SF PrimFloat.zero) with (S754_zero false).
  unfold SFeqb. destruct (Prim2SF a) as [s|s| |s m e]; simpl.
  - split; eauto.
  - split; [by destruct s|intros [? ?]; discriminate].
  - split; [discriminate|intros [? ?]; discriminate].
  - split; [by destruct s|intros [? ?]; discriminate].
Qed.

(** The real numbers have the sign laws, and the same number is one
    number. *)
#[global] Instance exact_sign_laws : SignLaws R.
Proof.
  split.
  - intros a b. left. simpl. ring.
  - intros a k. simpl. ring.
  - intros a a' k Ha Ha'. left. simpl in *. unfold Exact.is_zero in *.
    destruct (Req_dec_T a 0) as [->|]; [|discriminate].
    destruct (Req_dec_T a' 0) as [->|]; [|discriminate]. reflexivity.
Qed.

Lemma same_number_exact (a b : R) : same_number a b <-> a = b.
Proof.
  split; [|by left]. intros [Heq|[Ha Hb]]; [done|].
  simpl in *. unfold Exact.is_zero in *.
  destruct (Req_dec_T a 0) as [->|]; [|discriminate].
  by destruct (Req_dec_T b 0) as [->|].
Qed.

(** The binary64 floats have the sign laws. *)
#[global] Instance binary64_sign_laws : SignLaws float.
Proof.
  split.
  - intros a b. unfold same_number. cbn [nsub nopp nis_zero Binary64.scalar].
    destruct (SFsub_anti prec emax (Prim2SF a) (Prim2SF b))
      as [Heq|[Hab Hba]].
    + left. apply Prim2SF_inj.
      rewrite FloatAxioms.opp_spec, !FloatAxioms.sub_spec. exact Heq.
    + right. split; apply float_is_zero.
      * exists false. rewrite FloatAxioms.sub_spec. exact Hab.
      * exists true. rewrite FloatAxioms.opp_spec, FloatAxioms.sub_spec.
        unfold SF64sub. by rewrite Hba.
  - intros a k. cbn [nmul nopp Binary64.scalar]. apply Prim2SF_inj.
    rewrite FloatAxioms.opp_spec, !FloatAxioms.mul_spec, FloatAxioms.opp_spec.
    apply SFmul_opp.
  - intros a a' k Ha Ha'. unfold same_number.
    cbn [nmul nis_zero Binary64.scalar] in *.
    apply float_is_zero in Ha as [s Hs]. apply float_is_zero in Ha' as [s' Hs'].
    destruct (SFmul_zero prec emax s (Prim2SF k)) as [Hnan|[t Ht]].
    + left. apply Prim2SF_inj. rewrite !FloatAxioms.mul_spec, Hs, Hs'.
      unfold SF64mul. rewrite Hnan. symmetry.
      by apply SFmul_zero_nan with s.
    + destruct (SFmul_zero_zero prec emax s s' (Prim2SF k) t Ht) as [t' Ht'].
      right. split; apply float_is_zero.
      * exists t. by rewrite FloatAxioms.mul_spec, Hs.
      * exists t'. by rewrite FloatAxioms.mul_spec, Hs'.
Qed.

Lemma epoch_difference_antisymmetric_timeseries :
  exists d12 d21 a12 a21 o12 o21,
    outcome (read_data Epochs.still_world
               (Demo.request "timeseries.h5" (Some "20040101_20050601") None))
    = Ok (d12, a12, o12)
    /\ outcome (read_data Epochs.still_world
                  (Demo.request "timeseries.h5" (Some "20050601_20040101") None))
       = Ok (d21, a21, o21)
    /\ same_raster d12 (negate d21).
Proof.
  refine (proj1 (epoch_difference_antisymmetric Epochs.still_world
            (Demo.request "timeseries.h5" None None) Files.timeseries_attrs
            (phase_factor Scenario.c_band) "20040101" "20050601"
            [[1; 2]]%float [[1; 5]]%float _ _ _ _ _ _) _ _ _).
  - reflexivity.
  - reflexivity.
  - reflexivity.
  - split; reflexivity.
  - split; reflexivity.
  - reflexivity.
  - reflexivity.
  - reflexivity.
  - reflexivity.
Defined.

(** C7, as stated, fails on the floats of the program. Where the two dates
    agree, the request [date1_date2] gives the zero [(1 - 1) * k] and the
    negation of the other request gives [- ((1 - 1) * k)], the zero of the
    other sign: the two rasters are not identical, though their values
    compare equal. And where a date is not a number, the two results are
    identical and do not compare equal. *)
Lemma epoch_difference_signed_zero :
  raster_of (read_data Epochs.still_world
               (Demo.request "timeseries.h5" (Some "20040101_20050601") None))
  = Ok (scale [[PrimFloat.sub 1 1; PrimFloat.sub 5 2]]
              (phase_factor Scenario.c_band))
  /\ raster_of (read_data Epochs.still_world
        (Demo.request "timeseries.h5" (Some "20050601_20040101") None))
     = Ok (scale [[PrimFloat.sub 1 1; PrimFloat.sub 2 5]]
                 (phase_factor Scenario.c_band))
  /\ scale [[PrimFloat.sub 1 1; PrimFloat.sub 5 2]]
           (phase_factor Scenario.c_band)
     <> negate (scale [[PrimFloat.sub 1 1; PrimFloat.sub 2 5]]
                      (phase_factor Scenario.c_band))
  /\ raster_of (read_data Epochs.gap_world
        (Demo.request "timeseries.h5" (Some "20040101_20050601") None))
     = Ok (scale [[PrimFloat.sub 1 PrimFloat.nan; PrimFloat.sub 5 2]]
                 (phase_factor Scenario.c_band))
  /\ raster_of (read_data Epochs.gap_world
        (Demo.request "timeseries.h5" (Some "20050601_20040101") None))
     = Ok (scale [[PrimFloat.sub PrimFloat.nan 1; PrimFloat.sub 2 5]]
                 (phase_factor Scenario.c_band))
  /\ Compare.same_values
       (scale [[PrimFloat.sub 1 PrimFloat.nan; PrimFloat.sub 5 2]]
              (phase_factor Scenario.c_band))
       (negate (scale [[PrimFloat.sub PrimFloat.nan 1; PrimFloat.sub 2 5]]
                      (phase_factor Scenario.c_band)))
     = false.
Proof.
  split; [vm_compute; reflexivity|]. split; [vm_compute; reflexivity|].
  split.
  { intros Heq. apply (f_equal (map (map Prim2SF))) in Heq.
    vm_compute in Heq. discriminate Heq. }
  split; [vm_compute; reflexivity|]. split; [vm_compute; reflexivity|].
  vm_compute. reflexivity.
Qed.

(** ** The order of the two dates in the HDF-EOS5 branch *)

(** C1 at the request [displacement-20170904_20170916]: the slice of the
    first date holds 1 and 2, the slice of the second date 4 and 8. The
    program returns (first - second) * k, which is not
    (second - first) * k, the raster that the time-series branch returns
    for such a pair (lemma [read_data_timeseries_pair]). *)
Theorem read_data_hdfeos_displacement_reversed :
  trace (read_data Files.hdfeos_world
           (Demo.request "S1.he5" (Some "displacement-20170904_20170916") None))
  = [ReadAttribute; GetSliceList; Read (Some "displacement-20170904");
     Read (Some "displacement-20170916")]
  /\ raster_of (read_data Files.hdfeos_world
        (Demo.request "S1.he5" (Some "displacement-20170904_20170916") None))
     = Ok (scale [[PrimFloat.sub 1 4; PrimFloat.sub 2 8]]
                 (phase_factor Scenario.c_band))
  /\ scale [[PrimFloat.sub 1 4; PrimFloat.sub 2 8]]
           (phase_factor Scenario.c_band)
     <> scale [[PrimFloat.sub 4 1; PrimFloat.sub 8 2]]
              (phase_factor Scenario.c_band).
Proof.
  split; [vm_compute; reflexivity|]. split; [vm_compute; reflexivity|].
  intros Heq.
  apply (f_equal (fun r => Compare.same_values r
           (scale [[PrimFloat.sub 4 1; PrimFloat.sub 8 2]]
                  (phase_factor Scenario.c_band)))) in Heq.
  vm_compute in Heq. discriminate Heq.
Qed.

(** The time-series branch on the same kind of request: second minus
    first. *)
Example read_data_timeseries_order :
  raster_of (read_data Files.timeseries_world
               (Demo.request "timeseries.h5" (Some "20040101_20050601") None))
  = Ok (scale [[PrimFloat.sub 3 1; PrimFloat.sub 5 2]]
              (phase_factor Scenario.c_band))
  /\ attribute_of (read_data Files.timeseries_world
        (Demo.request "timeseries.h5" (Some "20040101_20050601") None)) "DATE12"
     = Ok (Some (VStr "040101-050601")).
Proof. split; vm_compute; reflexivity. Qed.

(** ** The dates of an HDF-EOS5 request *)

Lemma outcome_logged {A} ev (m : io A) : outcome (logged ev m) = outcome m.
Proof. reflexivity. Qed.

Lemma outcome_pure {A} (r : result A) : outcome (pure r) = r.
Proof. reflexivity. Qed.

Lemma outcome_mret {A} (a : A) : outcome (mret a) = Ok a.
Proof. reflexivity. Qed.

Lemma py_index_first_inv {A} (l : list A) a : py_index l 0 = Ok a -> head l = Some a.
Proof.
  destruct l as [|b l]; [done|]. rewrite py_index_first. by intros [= ->].
Qed.

Lemma py_index_last_inv {A} (l : list A) a : py_index l (-1) = Ok a -> last l = Some a.
Proof.
  destruct (last l) as [b|] eqn:Hlast.
  - rewrite (py_index_last l b Hlast). by intros [= ->].
  - apply last_None in Hlast as ->. done.
Qed.

(** Splits a successful sequence into its successful first step and the
    rest. *)
Ltac bind_inv H :=
  rewrite outcome_bind in H;
  match type of H with
  | match outcome ?m with _ => _ end = _ =>
      let Hstep := fresh "Hstep" in
      destruct (outcome m) eqn:Hstep; [|discriminate H]
  end.

Section HdfeosDates.
Context {num : Type} `{Scalar num} (w : world num).

Lemma hdfeos_kind_lookup ds dname (atr atr' : gmap string value) key :
  outcome (hdfeos_kind ds dname atr) = Ok atr' ->
  key <> "UNIT" -> key <> "FILE_TYPE" -> key <> "DATA_TYPE" ->
  atr' !! key = atr !! key.
Proof.
  unfold hdfeos_kind. intros Hkind ? ? ?.
  destruct (String.eqb dname "displacement");
    [|destruct (PyStr.contains "coherence" (PyStr.lower dname));
      [|destruct (String.eqb dname "height"); [|discriminate Hkind]]];
    apply Ok_inj in Hkind as <-; by rewrite !lookup_insert_ne.
Qed.

(** A successful run on an HDF-EOS5 file has computed a pair of dates and
    recorded it in [DATE12]. *)
Lemma read_data_hdfeos_dates (inps : args) (atr : gmap string value)
  (ds : string) (data : raster num) (atr' : gmap string value) (out : string) :
  read_attribute w (file inps) = Ok atr ->
  atr !! "FILE_TYPE" = Some (VStr "HDFEOS") ->
  dset inps = Some ds ->
  outcome (read_data w inps) = Ok (data, atr', out) ->
  exists date1 date2,
    outcome (hdfeos_dates w inps (change_reference inps atr) ds
               (dataset_name (Some ds))) = Ok (date1, date2)
    /\ atr' !! "DATE12" = Some (date12_of date1 date2).
Proof.
  intros Hatr Htype Hds Hrun.
  unfold read_data in Hrun.
  rewrite Hatr, bind_perform_Ok, outcome_logged in Hrun.
  bind_inv Hrun. rename a into k.
  rewrite (getitem_Some _ _ (VStr "HDFEOS")) in Hrun
    by (by rewrite lookup_change_reference).
  rewrite bind_pure_Ok in Hrun.
  change (value_is (VStr "HDFEOS") "velocity") with false in Hrun.
  change (value_is (VStr "HDFEOS") "timeseries") with false in Hrun.
  change (value_is (VStr "HDFEOS") "HDFEOS") with true in Hrun.
  cbv iota in Hrun.
  bind_inv Hrun. destruct a as [[data0 atr0] out0].
  cbv beta iota in Hrun. rewrite outcome_mret in Hrun.
  apply Ok_inj in Hrun. injection Hrun as <- <- <-.
  rename Hstep0 into Hbranch. unfold read_hdfeos, dset_text in Hbranch.
  rewrite Hds, bind_mret in Hbranch.
  assert (py_index (PyStr.split "-" ds) 0 = Ok (dataset_name (Some ds))) as Hname.
  { unfold dataset_name. pose proof (split_nonempty "-" ds) as Hne.
    destruct (PyStr.split "-" ds); [done|]. apply py_index_first. }
  rewrite Hname, bind_pure_Ok in Hbranch.
  bind_inv Hbranch. destruct a as [date1 date2]. cbv beta iota in Hbranch.
  bind_inv Hbranch. bind_inv Hbranch. bind_inv Hbranch.
  rewrite outcome_mret in Hbranch.
  apply Ok_inj in Hbranch. injection Hbranch as <- <- <-.
  exists date1, date2. split; [done|].
  rewrite lookup_insert_ne by done.
  rewrite (hdfeos_kind_lookup _ _ _ _ _ Hstep2) by done.
  unfold set_dates, date12_of. by rewrite lookup_insert_eq.
Qed.

(** C4, as amended. When [read_data] returns for an HDF-EOS5 request,
    [DATE12] is made of the six-digit forms of the two dates of the branch:
    the dates of the request, normalised, for [displacement-date1_date2],
    and the first and the last date stored in the file for every other
    name, whatever follows the name in the request. *)
Theorem read_data_hdfeos_DATE12 (inps : args) (atr : gmap string value)
  (ds : string) (data : raster num) (atr' : gmap string value) (out : string) :
  read_attribute w (file inps) = Ok atr ->
  atr !! "FILE_TYPE" = Some (VStr "HDFEOS") ->
  dset inps = Some ds ->
  outcome (read_data w inps) = Ok (data, atr', out) ->
  (forall e1 e2, plain e1 -> plain e2 -> ds = displacement_token e1 e2 ->
     atr' !! "DATE12" = Some (date12_of (yyyymmdd w e1) (yyyymmdd w e2)))
  /\ (dataset_name (Some ds) <> "displacement" ->
      exists date_list first_date last_date,
        HDFEOS_get_date_list w (file inps) = Ok date_list
        /\ head date_list = Some first_date
        /\ last date_list = Some last_date
        /\ atr' !! "DATE12" = Some (date12_of first_date last_date)).
Proof.
  intros Hatr Htype Hds Hrun.
  destruct (read_data_hdfeos_dates inps atr ds data atr' out Hatr Htype Hds Hrun)
    as (date1 & date2 & Hdates & Hdate12).
  unfold hdfeos_dates in Hdates. split.
  - intros e1 e2 He1 He2 ->.
    destruct (pair_token_split e1 e2 He1 He2) as [Hin Hsplit].
    unfold dataset_name in Hdates.
    rewrite displacement_token_name in Hdates by done.
    change ("displacement" =? "displacement")%string with true in Hdates.
    cbv iota in Hdates.
    assert (PyStr.contains "-" (displacement_token e1 e2) = true) as Hsep.
    { apply (has_sep_join "-" "displacement"). }
    rewrite Hsep in Hdates.
    change (py_index ["displacement"; pair_token e1 e2] 1)
      with (Ok (A:=string) (pair_token e1 e2)) in Hdates.
    rewrite bind_pure_Ok, Hin, Hsplit in Hdates.
    cbn [map unpack2] in Hdates. rewrite outcome_pure in Hdates.
    apply Ok_inj in Hdates. injection Hdates as <- <-. done.
  - intros Hname. apply String.eqb_neq in Hname. rewrite Hname in Hdates.
    destruct (HDFEOS_get_date_list w (file inps)) as [date_list|e] eqn:Hlist;
      [|discriminate Hdates].
    rewrite bind_perform_Ok, outcome_logged in Hdates.
    bind_inv Hdates. bind_inv Hdates. rewrite outcome_mret in Hdates.
    apply Ok_inj in Hdates. injection Hdates as <- <-.
    rewrite outcome_pure in Hstep, Hstep0.
    exists date_list, a, a0. repeat split; try done.
    + by apply py_index_first_inv.
    + by apply py_index_last_inv.
Qed.

End HdfeosDates.

Lemma read_data_hdfeos_DATE12_displacement :
  attribute_of
    (read_data Files.hdfeos_world
       (Demo.request "S1.he5" (Some "displacement-20170904_20170916") None))
    "DATE12"
  = Ok (Some (VStr "170904-170916")).
Proof.
  assert (exists atr' out,
            read_data Files.hdfeos_world
              (Demo.request "S1.he5" (Some "displacement-20170904_20170916") None)
            = ([ReadAttribute; GetSliceList;
                Read (Some "displacement-20170904");
                Read (Some "displacement-20170916")],
               Ok (scale [[PrimFloat.sub 1 4; PrimFloat.sub 2 8]]
                         (phase_factor Scenario.c_band), atr', out)))
    as (atr' & out & Hrun).
  { destruct (read_data_hdfeos_displacement Files.hdfeos_world
                (Demo.request "S1.he5" (Some "displacement-20170904_20170916") None)
                Files.hdfeos_attrs (phase_factor Scenario.c_band)
                "20170904" "20170916"
                ["displacement-20170904"; "displacement-20170916";
                 "temporalCoherence"]
                [] [] "displacement-20170904" "displacement-20170916"
                [[1; 2]]%float [[4; 8]]%float
                [[PrimFloat.sub 1 4; PrimFloat.sub 2 8]]
                (scale [[PrimFloat.sub 1 4; PrimFloat.sub 2 8]]
                       (phase_factor Scenario.c_band)))
      as (atr' & out & Hrun & _);
      try reflexivity; try (split; reflexivity).
    by exists atr', out. }
  unfold attribute_of. rewrite Hrun. cbn [outcome snd].
  f_equal.
  refine (proj1 (read_data_hdfeos_DATE12 Files.hdfeos_world
            (Demo.request "S1.he5" (Some "displacement-20170904_20170916") None)
            Files.hdfeos_attrs "displacement-20170904_20170916" _ atr' out
            _ _ _ _) "20170904" "20170916" _ _ _).
  - reflexivity.
  - reflexivity.
  - reflexivity.
  - rewrite Hrun. reflexivity.
  - split; reflexivity.
  - split; reflexivity.
  - reflexivity.
Defined.

(** C4, as stated, fails: the request [coherence-20170910_20170912] gets
    the first and the last date of the file, not the dates of the
    request. *)
Lemma read_data_hdfeos_DATE12_coherence :
  attribute_of
    (read_data Pairs.hdfeos_world
       (Demo.request "S1.he5" (Some "coherence-20170910_20170912") None))
    "DATE12"
  = Ok (Some (VStr "170904-170916"))
  /\ VStr "170904-170916" <> date12_of "20170910" "20170912".
Proof. split; [vm_compute; reflexivity|discriminate]. Qed.

(** ** The reference pixel of the command line *)

Section Frame.
Context {A B C : Type}.

Lemma io_map_mret (g : A -> B) a : io_map g (mret a) = mret (g a).
Proof. reflexivity. Qed.

Lemma io_map_raise (g : A -> B) e : io_map g (raise e) = raise e.
Proof. reflexivity. Qed.

Lemma bind_io_map (h : A -> B) (m : io A) (f : B -> io C) :
  io_map h m ≫= f = m ≫= (fun a => f (h a)).
Proof. by destruct m as [t [a|e]]. Qed.

(** Two sequences with the same first step, whose continuations differ
    by [g] on the value. *)
Lemma bind_frame (g : B -> C) (m : io A) (f : A -> io B) (f' : A -> io C) :
  (forall a, f' a = io_map g (f a)) ->
  m ≫= f' = io_map g (m ≫= f).
Proof.
  intros Hf. destruct m as [t [a|e]]; [|done].
  unfold mbind, io_bind. rewrite Hf. by destruct (f a) as [t' [b|e]].
Qed.

End Frame.

Section Reference.
Context {num : Type} `{Scalar num} (w : world num).
Variables (inps : args) (y x : Z).

Local Abbreviation given := (with_ref_yx inps (Some (y, x))).
Local Abbreviation absent := (with_ref_yx inps None).
Local Abbreviation moved := (on_attributes (num:=num) (set_reference y x)).

Lemma set_reference_insert key v (atr : gmap string value) :
  key <> "REF_X" -> key <> "REF_Y" ->
  <[key := v]> (set_reference y x atr) = set_reference y x (<[key := v]> atr).
Proof.
  intros Hx Hy. unfold set_reference.
  rewrite (insert_insert_ne _ key "REF_X") by done.
  by rewrite (insert_insert_ne _ key "REF_Y") by done.
Qed.

Lemma getitem_set_reference key (atr : gmap string value) :
  key <> "REF_X" -> key <> "REF_Y" ->
  getitem (set_reference y x atr) key = getitem atr key.
Proof. intros. unfold getitem. by rewrite lookup_set_reference. Qed.

Lemma set_dates_set_reference date1 date2 (atr : gmap string value) :
  set_dates date1 date2 (set_reference y x atr)
  = set_reference y x (set_dates date1 date2 atr).
Proof. unfold set_dates. by rewrite !set_reference_insert. Qed.

Lemma hdfeos_dates_frame atr ds dname :
  hdfeos_dates w given (set_reference y x atr) ds dname
  = hdfeos_dates w absent atr ds dname.
Proof.
  unfold hdfeos_dates, ref_date. by rewrite getitem_set_reference.
Qed.

Lemma hdfeos_data_frame k ds dname date1 date2 :
  PyStr.contains "displacement" ds = false ->
  hdfeos_data w given k ds dname date1 date2
  = hdfeos_data w absent k ds dname date1 date2.
Proof. intros Hds. unfold hdfeos_data. by rewrite Hds. Qed.

Lemma hdfeos_kind_frame ds dname atr :
  hdfeos_kind ds dname (set_reference y x atr)
  = io_map (set_reference y x) (hdfeos_kind ds dname atr).
Proof.
  unfold hdfeos_kind.
  repeat match goal with |- context [if ?b then _ else _] => destruct b end;
    rewrite ?set_reference_insert by done; reflexivity.
Qed.

Lemma ifgram_kind_frame ds dname atr :
  ifgram_kind ds dname (set_reference y x atr)
  = io_map (set_reference y x) (ifgram_kind ds dname atr).
Proof.
  unfold ifgram_kind.
  repeat match goal with |- context [if ?b then _ else _] => destruct b end;
    rewrite ?set_reference_insert by done; reflexivity.
Qed.

Lemma read_hdfeos_frame atr k :
  match dset inps with
  | Some ds => PyStr.contains "displacement" ds = false
  | None => True
  end ->
  read_hdfeos w given (set_reference y x atr) k
  = io_map moved (read_hdfeos w absent atr k).
Proof.
  intros Hds. unfold read_hdfeos, dset_text. cbn [dset with_ref_yx].
  destruct (dset inps) as [ds|]; [|done]. rewrite !bind_mret.
  apply bind_frame. intros dname.
  rewrite hdfeos_dates_frame. apply bind_frame. intros [date1 date2].
  rewrite hdfeos_data_frame by done. apply bind_frame. intros data.
  rewrite set_dates_set_reference, hdfeos_kind_frame, bind_io_map.
  apply bind_frame. intros atr'.
  rewrite getitem_set_reference by done.
  apply bind_frame. intros file_type. reflexivity.
Qed.

Lemma read_ifgram_stack_frame atr :
  PyStr.startswith (dataset_name (dset inps)) "unwrapPhase" = false ->
  read_ifgram_stack w given (set_reference y x atr)
  = io_map moved (read_ifgram_stack w absent atr).
Proof.
  intros Hname. unfold read_ifgram_stack, dset_text. cbn [dset with_ref_yx].
  destruct (dset inps) as [ds|]; [|done]. rewrite !bind_mret.
  unfold dataset_name in Hname.
  destruct (PyStr.split "-" ds) as [|dname [|date12 [|? ?]]]; try done.
  cbn [unpack2]. rewrite !bind_pure_Ok.
  apply bind_frame. intros [date1 date2].
  apply bind_frame. intros data.
  unfold ifgram_reference. rewrite Hname, !bind_mret.
  rewrite set_dates_set_reference, ifgram_kind_frame, bind_io_map.
  apply bind_frame. intros atr'.
  rewrite getitem_set_reference by done.
  apply bind_frame. intros file_type. reflexivity.
Qed.

Lemma read_generic_frame atr k :
  read_generic w given (set_reference y x atr) k
  = io_map moved (read_generic w absent atr k).
Proof.
  pose (h := fun p : raster num * gmap string value =>
               (p.1, set_reference y x p.2)).
  unfold read_generic. cbn [dset with_ref_yx].
  apply bind_frame. intros data.
  apply bind_frame. intros kind.
  assert (haskey (set_reference y x atr) "Y_FIRST" = haskey atr "Y_FIRST") as ->.
  { unfold haskey. by rewrite lookup_set_reference. }
  match goal with
  | |- ?m' ≫= _ = io_map _ (?m ≫= _) => assert (m' = io_map h m) as ->
  end.
  { repeat match goal with |- context [if ?b then _ else _] => destruct b end;
      rewrite ?set_reference_insert by done;
      try reflexivity;
      try (apply bind_frame; intros ?; reflexivity).
    - match goal with
      | |- ?m' ≫= _ = io_map _ (?m ≫= _) =>
          assert (m' = io_map h m) as ->
            by (apply bind_frame; intros ?; reflexivity)
      end.
      rewrite bind_io_map. apply bind_frame. intros [data' atr'].
      cbn [h fst snd]. by rewrite set_reference_insert.
    - rewrite !bind_mret. cbv beta iota. by rewrite set_reference_insert. }
  rewrite bind_io_map. apply bind_frame. intros [data' atr'].
  cbn [h fst snd]. rewrite getitem_set_reference by done.
  apply bind_frame. intros file_type. reflexivity.
Qed.

End Reference.

Lemma io_map_logged {A B} (g : A -> B) ev (m : io A) :
  io_map g (logged ev m) = logged ev (io_map g m).
Proof. reflexivity. Qed.

Section ReferenceFrame.
Context {num : Type} `{Scalar num} (w : world num).

(** C10, as amended. Outside the branches in which the raster is
    referenced to the pixel of the attributes (velocity, time series,
    HDF-EOS5 displacement, and also the unwrapped phase of a stack), a
    reference pixel on the command line only sets [REF_Y] and [REF_X]:
    the run reads the same datasets, ends the same way, and returns the
    same raster and file name, with the two entries set in the attributes. *)
Theorem reference_only_sets_attributes (inps : args)
  (atr : gmap string value) (k : value) (y x : Z) :
  read_attribute w (file inps) = Ok atr ->
  atr !! "FILE_TYPE" = Some k ->
  reference_changes_raster k (dset inps) = false ->
  read_data w (with_ref_yx inps (Some (y, x)))
  = io_map (on_attributes (set_reference y x))
      (read_data w (with_ref_yx inps None)).
Proof.
  intros Hatr Htype Hframe.
  unfold read_data. cbn [file with_ref_yx].
  rewrite Hatr, !bind_perform_Ok, io_map_logged. f_equal.
  apply bind_frame. intros range2phase.
  unfold change_reference. cbn [ref_yx with_ref_yx].
  rewrite getitem_set_reference by done.
  rewrite (getitem_Some _ _ k), !bind_pure_Ok by done.
  match goal with
  | |- ?m' ≫= _ = io_map _ (?m ≫= _) =>
      assert (m' = io_map (on_attributes (set_reference y x)) m) as ->
  end.
  { unfold reference_changes_raster in Hframe.
    destruct (value_is k "velocity"); [done|].
    destruct (value_is k "timeseries"); [done|].
    cbn [orb] in Hframe. apply orb_false_iff in Hframe as [Hhdfeos Hstack].
    destruct (value_is k "HDFEOS").
    { apply read_hdfeos_frame. cbn [andb] in Hhdfeos.
      by destruct (dset inps). }
    destruct (value_is k "ifgramStack").
    { by apply read_ifgram_stack_frame. }
    apply read_generic_frame. }
  rewrite bind_io_map. apply bind_frame. intros [[data atr'] out].
  cbn [on_attributes]. by rewrite set_reference_insert.
Qed.

(** An unwrapped phase of a stack: the raster is referenced to the pixel
    that the attributes hold after the pixel of the command line, if any,
    has been written to them. *)
Lemma read_data_ifgram_unwrapPhase (inps : args) (atr : gmap string value)
  (k : num) (ds dname date12 date1 date2 : string) (raw data : raster num)
  (vy vx : value) (y x : Z) :
  read_attribute w (file inps) = Ok atr ->
  range2phase_of atr = Ok k ->
  atr !! "FILE_TYPE" = Some (VStr "ifgramStack") ->
  dset inps = Some ds ->
  PyStr.split "-" ds = [dname; date12] ->
  PyStr.split "_" date12 = [date1; date2] ->
  PyStr.startswith dname "unwrapPhase" = true ->
  read w (file inps) (Some ds) = Ok raw ->
  change_reference inps atr !! "REF_Y" = Some vy ->
  change_reference inps atr !! "REF_X" = Some vx ->
  py_int vy = Ok y -> py_int vx = Ok x ->
  subtract_at raw y x = Ok data ->
  exists atr' out,
    read_data w inps = ([ReadAttribute; Read (Some ds)], Ok (data, atr', out))
    /\ atr' !! "REF_Y" = Some vy /\ atr' !! "REF_X" = Some vx
    /\ atr' !! "FILE_TYPE" = Some (VStr ".unw").
Proof.
  intros Hatr Hk Htype Hds Hsplit Hdates Hname Hraw Hvy Hvx Hy Hx Hdata.
  eexists _, _. split.
  - unfold read_data. rewrite Hatr, bind_perform_Ok, Hk, bind_pure_Ok.
    rewrite (getitem_Some _ _ (VStr "ifgramStack"))
      by (by rewrite lookup_change_reference).
    rewrite bind_pure_Ok.
    change (value_is (VStr "ifgramStack") "velocity") with false.
    change (value_is (VStr "ifgramStack") "timeseries") with false.
    change (value_is (VStr "ifgramStack") "HDFEOS") with false.
    change (value_is (VStr "ifgramStack") "ifgramStack") with true.
    cbv iota.
    unfold read_ifgram_stack, dset_text, read_slice.
    rewrite Hds, bind_mret, Hsplit. cbn [unpack2].
    rewrite bind_pure_Ok. cbv beta iota.
    rewrite Hdates. cbn [unpack2]. rewrite bind_pure_Ok. cbv beta iota.
    rewrite Hraw, bind_perform_Ok, !bind_logged.
    unfold ifgram_reference, ifgram_kind. rewrite Hname.
    assert (haskey (change_reference inps atr) "REF_X" = true) as ->.
    { unfold haskey. rewrite Hvx. by apply bool_decide_eq_true_2. }
    rewrite (getitem_Some _ "REF_Y" vy), bind_pure_Ok by done.
    rewrite Hy, bind_pure_Ok.
    rewrite (getitem_Some _ "REF_X" vx), bind_pure_Ok by done.
    rewrite Hx, bind_pure_Ok, Hdata, bind_pure_Ok, bind_mret.
    rewrite (getitem_Some _ _ (VStr ".unw")) by lookup_attr.
    rewrite bind_pure_Ok, !bind_mret. reflexivity.
  - unfold set_dates. repeat split; lookup_attr.
Qed.


End ReferenceFrame.

Lemma reference_only_sets_attributes_mask :
  read_data Files.mask_world
    (Demo.request "maskTempCoh.h5" (Some "mask") (Some (0, 1)))
  = io_map (on_attributes (set_reference 0 1))
      (read_data Files.mask_world
         (Demo.request "maskTempCoh.h5" (Some "mask") None)).
Proof.
  refine (reference_only_sets_attributes Files.mask_world
            (Demo.request "maskTempCoh.h5" (Some "mask") None)
            Files.mask_attrs (VStr "mask") 0 1 _ _ _); reflexivity.
Defined.

(** C10, as stated, fails: for the unwrapped phase of a stack, which is
    none of velocity, time series and displacement, the pixel of the
    command line changes the raster. *)
Lemma reference_changes_stack_raster :
  Files.stack_attrs !! "FILE_TYPE" = Some (VStr "ifgramStack")
  /\ raster_of (read_data Files.stack_world
        (Demo.request "ifgramStack.h5" (Some "unwrapPhase-20091225_20100723")
           None))
     = Ok [[PrimFloat.sub 1 1; PrimFloat.sub 2 1];
           [PrimFloat.sub 3 1; PrimFloat.sub 4 1]]
  /\ raster_of (read_data Files.stack_world
        (Demo.request "ifgramStack.h5" (Some "unwrapPhase-20091225_20100723")
           (Some (1, 1))))
     = Ok [[PrimFloat.sub 1 4; PrimFloat.sub 2 4];
           [PrimFloat.sub 3 4; PrimFloat.sub 4 4]]
  /\ [[PrimFloat.sub 1 1; PrimFloat.sub 2 1];
      [PrimFloat.sub 3 1; PrimFloat.sub 4 1]]
     <> [[PrimFloat.sub 1 4; PrimFloat.sub 2 4];
         [PrimFloat.sub 3 4; PrimFloat.sub 4 4]].
Proof.
  repeat split; try (vm_compute; reflexivity).
  intros Heq.
  apply (f_equal (fun r => Compare.same_values r
           [[PrimFloat.sub 1 4; PrimFloat.sub 2 4];
            [PrimFloat.sub 3 4; PrimFloat.sub 4 4]])) in Heq.
  vm_compute in Heq. discriminate Heq.
Qed.



(** Without a pixel on the command line the raster is zeroed at the
    recorded pixel. *)
Example read_data_ifgram_zeroed_at_recorded_pixel :
  raster_of (read_data Files.stack_world
     (Demo.request "ifgramStack.h5" (Some "unwrapPhase-20091225_20100723") None))
  = subtract_at [[1; 2]; [3; 4]]%float 0 0.
Proof. vm_compute. reflexivity. Qed.

(** * Further properties *)

(** ** The clean-up as a function of its input *)

(** X1. Every entry of the output of the clean-up is the text of the input
    entry under the same upper-case key, except [FILE_LENGTH], which is
    the text of the input [LENGTH] even when the input has a
    [FILE_LENGTH] of its own; there is no other entry. *)
Theorem clean_metadata4roipac_lookup (atr_in : gmap string value)
  (out : gmap string string) (key : string) :
  clean_metadata4roipac atr_in = Ok out ->
  out !! key
  = if String.eqb key "FILE_LENGTH" then py_str <$> atr_in !! "LENGTH"
    else if PyStr.isupper key then py_str <$> atr_in !! key
    else None.
Proof.
  rewrite clean_metadata4roipac_eq.
  destruct (atr_in !! "LENGTH") as [len|] eqn:Hlen; [|discriminate].
  intros <-%Ok_inj.
  destruct (String.eqb_spec key "FILE_LENGTH") as [->|Hne].
  - by rewrite lookup_insert_eq.
  - rewrite lookup_insert_ne by done. apply lookup_before_file_length.
Qed.

Lemma clean_metadata4roipac_lookup_witness :
  (<["FILE_LENGTH" := "50"]>
     (drop_not_upper (drop_keys redundant_keys
        (py_str <$> Demo.attrs [("LENGTH", "50"); ("FILE_LENGTH", "7")]))))
  !! "FILE_LENGTH"
  = py_str <$> Demo.attrs [("LENGTH", "50"); ("FILE_LENGTH", "7")] !! "LENGTH".
Proof.
  refine (clean_metadata4roipac_lookup
            (Demo.attrs [("LENGTH", "50"); ("FILE_LENGTH", "7")]) _
            "FILE_LENGTH" _).
  rewrite clean_metadata4roipac_eq.
  assert (Demo.attrs [("LENGTH", "50"); ("FILE_LENGTH", "7")] !! "LENGTH"
          = Some (VStr "50")) as -> by (vm_compute; reflexivity).
  reflexivity.
Defined.

(** X2. The clean-up changes nothing when it is applied to its own
    output. *)
Theorem clean_metadata4roipac_idempotent (atr_in : gmap string value)
  (out : gmap string string) :
  clean_metadata4roipac atr_in = Ok out ->
  clean_metadata4roipac (VStr <$> out) = Ok out.
Proof.
  intros Hout.
  assert (forall key, out !! key
          = if String.eqb key "FILE_LENGTH" then py_str <$> atr_in !! "LENGTH"
            else if PyStr.isupper key then py_str <$> atr_in !! key
            else None) as Hlookup.
  { intros key. revert Hout. rewrite clean_metadata4roipac_eq.
    destruct (atr_in !! "LENGTH") as [len|]; [|discriminate].
    intros <-%Ok_inj.
    destruct (String.eqb_spec key "FILE_LENGTH") as [->|Hne].
    - by rewrite lookup_insert_eq.
    - rewrite lookup_insert_ne by done. apply lookup_before_file_length. }
  assert (exists len, atr_in !! "LENGTH" = Some len) as [len Hlen].
  { revert Hout. rewrite clean_metadata4roipac_eq.
    destruct (atr_in !! "LENGTH") as [len|]; [by exists len|discriminate]. }
  rewrite clean_metadata4roipac_eq, lookup_fmap.
  rewrite (Hlookup "LENGTH"). cbn [String.eqb Ascii.eqb Bool.eqb].
  change (PyStr.isupper "LENGTH") with true. cbv iota.
  rewrite Hlen. cbn [fmap option_fmap option_map py_str].
  f_equal. apply map_eq. intros key.
  rewrite (Hlookup key).
  destruct (String.eqb_spec key "FILE_LENGTH") as [->|Hne].
  - by rewrite lookup_insert_eq, Hlen.
  - rewrite lookup_insert_ne by done.
    rewrite lookup_before_file_length, lookup_fmap, (Hlookup key).
    destruct (String.eqb_spec key "FILE_LENGTH") as [|_]; [done|].
    destruct (PyStr.isupper key); [|done].
    by destruct (atr_in !! key).
Qed.

Lemma clean_metadata4roipac_idempotent_witness :
  clean_metadata4roipac
    (VStr <$> <["FILE_LENGTH" := "50"]>
       (drop_not_upper (drop_keys redundant_keys
          (py_str <$> Demo.attrs [("LENGTH", "50"); ("width", "2")]))))
  = Ok (<["FILE_LENGTH" := "50"]>
          (drop_not_upper (drop_keys redundant_keys
             (py_str <$> Demo.attrs [("LENGTH", "50"); ("width", "2")])))).
Proof.
  refine (clean_metadata4roipac_idempotent
            (Demo.attrs [("LENGTH", "50"); ("width", "2")]) _ _).
  rewrite clean_metadata4roipac_eq.
  assert (Demo.attrs [("LENGTH", "50"); ("width", "2")] !! "LENGTH"
          = Some (VStr "50")) as -> by (vm_compute; reflexivity).
  reflexivity.
Defined.

(** ** Indices and the reference pixel *)

Lemma lookup_map {A B} (f : A -> B) (l : list A) (n : nat) :
  map f l !! n = f <$> l !! n.
Proof.
  revert n. induction l as [|a l IH]; intros [|n]; simpl; try done.
Qed.

#[global] Instance in_range_dec n i : Decision (in_range n i).
Proof. unfold in_range. apply _. Defined.




Lemma py_index_map {A B} (f : A -> B) (l : list A) i :
  py_index (map f l) i
  = match py_index l i with Ok a => Ok (f a) | Raise e => Raise e end.
Proof.
  unfold py_index. rewrite length_map, lookup_map.
  destruct ((0 <=? (if i <? 0 then Z.of_nat (length l) + i else i))
            && ((if i <? 0 then Z.of_nat (length l) + i else i)
                <? Z.of_nat (length l))); [|done].
  by destruct (l !! _).
Qed.

Section ReferencePixel.
Context {num : Type} `{Scalar num}.
Implicit Types (data : raster num) (v : num).

Lemma shift_shape data v : same_shape (shift data v) data.
Proof.
  unfold same_shape, shift. rewrite map_map. apply map_ext.
  intros row. apply length_map.
Qed.

Lemma index2_shift data v y x :
  index2 (shift data v) y x
  = match index2 data y x with Ok a => Ok (nsub a v) | Raise e => Raise e end.
Proof.
  unfold index2, shift. rewrite py_index_map.
  destruct (py_index data y) as [row|e]; [|done]. apply py_index_map.
Qed.


Context `{!ZeroLaws num}.

(** X4. After [data -= data[y, x]] the pixel [(y, x)] holds zero, and the
    same statement run again changes nothing. *)
Theorem subtract_at_idempotent data y x (d : raster num) :
  subtract_at data y x = Ok d ->
  index2 d y x = Ok (nof_Z 0) /\ subtract_at d y x = Ok d.
Proof.
  unfold subtract_at at 1.
  destruct (index2 data y x) as [v|e] eqn:Hv; [|discriminate].
  intros <-%Ok_inj.
  assert (index2 (shift data v) y x = Ok (nof_Z 0)) as Hzero.
  { by rewrite index2_shift, Hv, nsub_diag. }
  split; [done|].
  unfold subtract_at. rewrite Hzero. f_equal.
  unfold shift at 1.
  rewrite (List.map_ext _ (fun row => row)); [apply List.map_id|].
  intros row. rewrite (List.map_ext _ (fun a => a)); [apply List.map_id|].
  intros a. apply nsub_zero_r.
Qed.

End ReferencePixel.

(** The real numbers have the laws of zero. *)
#[global] Instance exact_zero_laws : ZeroLaws R.
Proof. split; intros; simpl; ring. Qed.


Lemma subtract_at_idempotent_witness :
  index2 (shift [[1; 2]; [3; 4]]%R 4%R) 1 1 = Ok (IZR 0)
  /\ subtract_at (shift [[1; 2]; [3; 4]]%R 4%R) 1 1
     = Ok (shift [[1; 2]; [3; 4]]%R 4%R).
Proof.
  refine (subtract_at_idempotent [[1; 2]; [3; 4]]%R 1 1 _ _).
  reflexivity.
Defined.

(** ** Subtraction in place *)

Section InPlace.
Context {num : Type} `{Scalar num}.
Implicit Types (a b d : raster num).

Lemma isub_row_shape (ra rb r : list num) :
  isub_row ra rb = Ok r -> length r = length ra.
Proof.
  unfold isub_row. destruct (Nat.eqb_spec (length rb) (length ra)) as [Heq|_].
  - intros <-%Ok_inj. rewrite length_zip_with. lia.
  - destruct rb as [|y [|? ?]]; try discriminate.
    intros <-%Ok_inj. apply length_map.
Qed.

Lemma isub_row_error (ra rb : list num) e :
  isub_row ra rb = Raise e -> e = ValueError "operands could not be broadcast together".
Proof.
  unfold isub_row, broadcast_error.
  destruct (length rb =? length ra)%nat; [discriminate|].
  destruct rb as [|y [|? ?]]; congruence.
Qed.

Lemma isub_rows_shape a b :
  match isub_rows a b with
  | Ok d => same_shape d a
  | Raise e => e = ValueError "operands could not be broadcast together"
  end.
Proof.
  revert b. induction a as [|ra a IH]; intros [|rb b]; simpl; try done.
  specialize (IH b).
  destruct (isub_row ra rb) as [r|e] eqn:Hrow.
  - destruct (isub_rows a b) as [rs|e]; [|done].
    unfold same_shape in *. simpl. f_equal; [|done].
    by apply isub_row_shape with rb.
  - by apply isub_row_error in Hrow.
Qed.

Lemma isub_each_shape a (rb : list num) :
  match isub_each a rb with
  | Ok d => same_shape d a
  | Raise e => e = ValueError "operands could not be broadcast together"
  end.
Proof.
  induction a as [|ra a IH]; simpl; [done|].
  destruct (isub_row ra rb) as [r|e] eqn:Hrow.
  - destruct (isub_each a rb) as [rs|e]; [|done].
    unfold same_shape in *. simpl. f_equal; [|done].
    by apply isub_row_shape with rb.
  - by apply isub_row_error in Hrow.
Qed.

(** X5. [data -= other] keeps the shape of [data], whatever the shape of
    [other] that broadcasts to it, and when [other] does not broadcast the
    statement ends with the [ValueError] of the broadcast. *)
Theorem isub_shape a b :
  match isub a b with
  | Ok d => same_shape d a
  | Raise e => e = ValueError "operands could not be broadcast together"
  end.
Proof.
  unfold isub. destruct (length b =? length a)%nat.
  - apply isub_rows_shape.
  - destruct b as [|rb [|? ?]]; try done. apply isub_each_shape.
Qed.

End InPlace.

(** ** What every successful run of [read_data] returns *)

Lemma triple_inj {A B C} (a a' : A) (b b' : B) (c c' : C) :
  (a, b, c) = (a', b', c') -> a = a' /\ b = b' /\ c = c'.
Proof. intros Heq. by injection Heq. Qed.

Lemma string_append_assoc (a b c : string) : (a ++ b) ++ c = a ++ b ++ c.
Proof.
  induction a as [|x a IH]; [done|].
  change (String x ((a ++ b) ++ c) = String x (a ++ b ++ c)). by f_equal.
Qed.

Lemma not_derived_key key :
  key ∉ derived_keys ->
  key <> "DATE" /\ key <> "DATE12" /\ key <> "FILE_TYPE" /\ key <> "UNIT"
  /\ key <> "DATA_TYPE" /\ key <> "PROCESSOR".
Proof.
  unfold derived_keys. rewrite !elem_of_cons, elem_of_nil. intros Hkey.
  repeat split; intros ->; apply Hkey; tauto.
Qed.

Lemma plain_key_not_derived key :
  key = "LENGTH" \/ key = "REF_Y" \/ key = "REF_X" -> key ∉ derived_keys.
Proof.
  unfold derived_keys. rewrite !elem_of_cons, elem_of_nil.
  intros [Hk|[Hk|Hk]]; rewrite Hk; intuition discriminate.
Qed.

(** As [bind_inv], with names for the value and for the step. *)
Ltac bind_inv_as H x Hx :=
  rewrite outcome_bind in H;
  match type of H with
  | match outcome ?m with _ => _ end = _ =>
      destruct (outcome m) as [x|] eqn:Hx; [|discriminate H]
  end.

Ltac tag_in := unfold file_type_tags; rewrite !elem_of_cons; tauto.

(** An attribute that is not derived, through the entries a branch sets. *)
Ltac kept_key Hkey :=
  let H := fresh in
  pose proof (not_derived_key _ Hkey) as H;
  destruct H as (? & ? & ? & ? & ? & ?);
  unfold set_dates; by rewrite ?lookup_insert_ne by done.

Section Shapes.
Context {num : Type} `{Scalar num}.
Implicit Types (a b d : raster num).

Lemma same_shape_refl a : same_shape a a.
Proof. reflexivity. Qed.

Lemma same_shape_trans a b d : same_shape a b -> same_shape b d -> same_shape a d.
Proof. unfold same_shape. congruence. Qed.

Lemma scale_shape a k : same_shape (scale a k) a.
Proof.
  unfold same_shape, scale. rewrite map_map. apply List.map_ext.
  intros row. apply length_map.
Qed.

Lemma subtract_at_shape a y x d : subtract_at a y x = Ok d -> same_shape d a.
Proof.
  unfold subtract_at. destruct (index2 a y x); [|discriminate].
  intros <-%Ok_inj. apply shift_shape.
Qed.

Lemma with_reference_shape ref a d : with_reference ref a = Ok d -> same_shape d a.
Proof.
  destruct ref as [[y x]|]; simpl.
  - apply subtract_at_shape.
  - by intros <-%Ok_inj.
Qed.

Lemma isub_Ok_shape a b d : isub a b = Ok d -> same_shape d a.
Proof.
  unfold isub, broadcast_error. intros Hd.
  destruct (length b =? length a)%nat.
  - pose proof (isub_rows_shape a b) as Hs. by rewrite Hd in Hs.
  - destruct b as [|rb [|? ?]]; try discriminate Hd.
    pose proof (isub_each_shape a rb) as Hs. by rewrite Hd in Hs.
Qed.

End Shapes.

Section Branches.
Context {num : Type} `{Scalar num} (w : world num).
Implicit Types (inps : args) (atr : gmap string value).

Lemma read_velocity_post inps atr k p :
  outcome (read_velocity w inps atr k) = Ok p -> branch_post w inps atr p.
Proof.
  intros Hrun. unfold read_velocity in Hrun.
  bind_inv_as Hrun raw Hraw. bind_inv_as Hrun data Hdata.
  rewrite (getitem_Some _ _ (VStr ".unw")) in Hrun by lookup_attr.
  rewrite bind_pure_Ok, outcome_mret in Hrun. apply Ok_inj in Hrun as <-.
  unfold branch_post. split; [|split].
  - exists ".unw", (PyStr.splitext_root (file inps)).
    split; [tag_in|]. split; [lookup_attr|done].
  - intros key Hkey. kept_key Hkey.
  - exists None, raw. split; [done|].
    apply with_reference_shape in Hdata.
    eapply same_shape_trans; [done|apply scale_shape].
Qed.

Lemma read_timeseries_post inps atr k p :
  outcome (read_timeseries w inps atr k) = Ok p -> branch_post w inps atr p.
Proof.
  intros Hrun. unfold read_timeseries in Hrun.
  bind_inv_as Hrun ds Hds. bind_inv_as Hrun dates Hdates.
  destruct dates as [date1 date2]. cbv beta iota in Hrun.
  bind_inv_as Hrun data2 Hdata2. bind_inv_as Hrun data1 Hdata1.
  bind_inv_as Hrun diff Hdiff. bind_inv_as Hrun data Hdata.
  rewrite outcome_mret in Hrun. apply Ok_inj in Hrun as <-.
  unfold branch_post. split; [|split].
  - exists ".unw",
      ((if PyStr.startswith (file inps) "geo_" then "geo_" else "")
       ++ date1 ++ "_" ++ date2).
    split; [tag_in|]. split; [lookup_attr|].
    f_equal. destruct (PyStr.startswith (file inps) "geo_").
    + by rewrite !string_append_assoc.
    + change ("" ++ date1 ++ "_" ++ date2) with (date1 ++ "_" ++ date2).
      by rewrite !string_append_assoc.
  - intros key Hkey. kept_key Hkey.
  - exists (Some date2), data2. split; [done|].
    apply with_reference_shape in Hdata. apply isub_Ok_shape in Hdiff.
    eapply same_shape_trans; [done|].
    eapply same_shape_trans; [apply scale_shape|done].
Qed.

Lemma hdfeos_data_shape inps k ds dname date1 date2 data :
  outcome (hdfeos_data w inps k ds dname date1 date2) = Ok data ->
  exists name raw, read w (file inps) name = Ok raw /\ same_shape data raw.
Proof.
  intros Hrun. unfold hdfeos_data in Hrun.
  bind_inv_as Hrun slice_list Hlist.
  destruct (PyStr.contains "displacement" ds).
  - bind_inv_as Hrun name1 Hname1. bind_inv_as Hrun name2 Hname2.
    bind_inv_as Hrun raw Hraw. bind_inv_as Hrun data2 Hdata2.
    bind_inv_as Hrun diff Hdiff.
    exists (Some name1), raw. split; [done|].
    apply with_reference_shape in Hrun. apply isub_Ok_shape in Hdiff.
    eapply same_shape_trans; [done|].
    eapply same_shape_trans; [apply scale_shape|done].
  - bind_inv_as Hrun name Hname.
    exists (Some name), data. by split.
Qed.

Lemma hdfeos_kind_tag ds dname atr atr' :
  outcome (hdfeos_kind ds dname atr) = Ok atr' ->
  exists tag, tag ∈ file_type_tags /\ atr' !! "FILE_TYPE" = Some (VStr tag).
Proof.
  unfold hdfeos_kind. intros Hkind.
  destruct (String.eqb dname "displacement");
    [|destruct (PyStr.contains "coherence" (PyStr.lower dname));
      [|destruct (String.eqb dname "height"); [|discriminate Hkind]]];
    apply Ok_inj in Hkind as <-.
  - exists ".unw". split; [tag_in|lookup_attr].
  - exists ".cor". split; [tag_in|lookup_attr].
  - exists ".dem". split; [tag_in|lookup_attr].
Qed.

Lemma read_hdfeos_post inps atr k p :
  outcome (read_hdfeos w inps atr k) = Ok p -> branch_post w inps atr p.
Proof.
  intros Hrun. unfold read_hdfeos in Hrun.
  bind_inv_as Hrun ds Hds. bind_inv_as Hrun dname Hdname.
  bind_inv_as Hrun dates Hdates. destruct dates as [date1 date2].
  cbv beta iota in Hrun.
  bind_inv_as Hrun data Hdata. bind_inv_as Hrun atr' Hkind.
  destruct (hdfeos_kind_tag _ _ _ _ Hkind) as (tag & Htag & Htype).
  rewrite (getitem_Some _ _ (VStr tag)), bind_pure_Ok, outcome_mret in Hrun
    by done.
  apply Ok_inj in Hrun as <-.
  unfold branch_post. split; [|split].
  - by exists tag, (date1 ++ "_" ++ date2).
  - intros key Hkey.
    destruct (not_derived_key _ Hkey) as (? & ? & ? & ? & ? & ?).
    rewrite (hdfeos_kind_lookup _ _ _ _ _ Hkind) by done.
    unfold set_dates. by rewrite !lookup_insert_ne.
  - by apply hdfeos_data_shape in Hdata.
Qed.

Lemma ifgram_reference_shape dname atr data d :
  outcome (ifgram_reference dname atr data) = Ok d -> same_shape d data.
Proof.
  unfold ifgram_reference. intros Hrun.
  destruct (PyStr.startswith dname "unwrapPhase");
    [destruct (haskey atr "REF_X")|].
  - bind_inv_as Hrun ref_y Hy. bind_inv_as Hrun y Hyi.
    bind_inv_as Hrun ref_x Hx. bind_inv_as Hrun x Hxi.
    by apply subtract_at_shape in Hrun.
  - by apply Ok_inj in Hrun as <-.
  - by apply Ok_inj in Hrun as <-.
Qed.

Lemma ifgram_kind_post ds dname atr atr' :
  outcome (ifgram_kind ds dname atr) = Ok atr' ->
  (exists tag, tag ∈ file_type_tags /\ atr' !! "FILE_TYPE" = Some (VStr tag))
  /\ (forall key, key <> "UNIT" -> key <> "FILE_TYPE" ->
        atr' !! key = atr !! key).
Proof.
  unfold ifgram_kind. intros Hkind.
  destruct (PyStr.startswith dname "unwrapPhase");
    [|destruct (String.eqb dname "coherence");
      [|destruct (String.eqb dname "wrapPhase"); [|discriminate Hkind]]];
    apply Ok_inj in Hkind as <-.
  - split; [exists ".unw"; split; [tag_in|lookup_attr]|].
    intros. by rewrite !lookup_insert_ne.
  - split; [exists ".cor"; split; [tag_in|lookup_attr]|].
    intros. by rewrite !lookup_insert_ne.
  - split; [exists ".int"; split; [tag_in|lookup_attr]|].
    intros. by rewrite !lookup_insert_ne.
Qed.

Lemma read_ifgram_stack_post inps atr p :
  outcome (read_ifgram_stack w inps atr) = Ok p -> branch_post w inps atr p.
Proof.
  intros Hrun. unfold read_ifgram_stack in Hrun.
  bind_inv_as Hrun ds Hds. bind_inv_as Hrun names Hnames.
  destruct names as [dname date12]. cbv beta iota in Hrun.
  bind_inv_as Hrun dates Hdates. destruct dates as [date1 date2].
  cbv beta iota in Hrun.
  bind_inv_as Hrun raw Hraw. bind_inv_as Hrun data Hdata.
  bind_inv_as Hrun atr' Hkind.
  destruct (ifgram_kind_post _ _ _ _ Hkind) as ((tag & Htag & Htype) & Hkept).
  rewrite (getitem_Some _ _ (VStr tag)), bind_pure_Ok, outcome_mret in Hrun
    by done.
  apply Ok_inj in Hrun as <-.
  unfold branch_post. split; [|split].
  - exists tag,
      ((if PyStr.startswith (file inps) "geo_" then "geo_" else "") ++ date12).
    split; [done|]. split; [done|]. f_equal.
    destruct (PyStr.startswith (file inps) "geo_"); [|done].
    by rewrite string_append_assoc.
  - intros key Hkey.
    destruct (not_derived_key _ Hkey) as (? & ? & ? & ? & ? & ?).
    rewrite Hkept by done. unfold set_dates. by rewrite !lookup_insert_ne.
  - exists (Some ds), raw. split; [done|].
    by apply ifgram_reference_shape in Hdata.
Qed.

Lemma read_generic_post inps atr k p :
  outcome (read_generic w inps atr k) = Ok p -> branch_post w inps atr p.
Proof.
  intros Hrun. unfold read_generic in Hrun.
  bind_inv_as Hrun token_data Htoken. bind_inv_as Hrun kind Hkind.
  bind_inv_as Hrun mid Hpair. destruct mid as [data atr'].
  cbv beta iota in Hrun.
  assert ((exists tag, tag ∈ file_type_tags
             /\ atr' !! "FILE_TYPE" = Some (VStr tag))
          /\ (forall key, key ∉ derived_keys -> atr' !! key = atr !! key)
          /\ (exists name raw, read w (file inps) name = Ok raw
                /\ same_shape data raw)) as (Htype & Hkept & Hshape).
  { destruct (PyStr.contains "coherence" (PyStr.lower kind));
      [|destruct (String.eqb kind "mask");
        [|destruct (String.eqb kind "geometry"
                    && bool_decide (dset inps = Some "height"));
          [destruct (haskey atr "Y_FIRST")|]]].
    - bind_inv_as Hpair again Hagain. rewrite outcome_mret in Hpair.
      apply Ok_inj in Hpair. injection Hpair as <- <-.
      split; [exists ".cor"; split; [tag_in|lookup_attr]|].
      split; [intros key Hkey; kept_key Hkey|by exists None, again].
    - bind_inv_as Hpair again Hagain. rewrite outcome_mret in Hpair.
      apply Ok_inj in Hpair. injection Hpair as <- <-.
      split; [exists ".msk"; split; [tag_in|lookup_attr]|].
      split; [intros key Hkey; kept_key Hkey|by exists None, again].
    - bind_inv_as Hpair inner Hinner. destruct inner as [data' atr''].
      cbv beta iota in Hpair. rewrite outcome_mret in Hpair.
      apply Ok_inj in Hpair. injection Hpair as <- <-.
      bind_inv_as Hinner again Hagain. rewrite outcome_mret in Hinner.
      apply Ok_inj in Hinner. injection Hinner as <- <-.
      split; [exists ".dem"; split; [tag_in|lookup_attr]|].
      split; [intros key Hkey; kept_key Hkey|by exists None, again].
    - rewrite bind_mret in Hpair. cbv beta iota in Hpair.
      rewrite outcome_mret in Hpair.
      apply Ok_inj in Hpair. injection Hpair as <- <-.
      split; [exists ".hgt"; split; [tag_in|lookup_attr]|].
      split; [intros key Hkey; kept_key Hkey|by exists (dset inps), token_data].
    - rewrite outcome_mret in Hpair.
      apply Ok_inj in Hpair. injection Hpair as <- <-.
      split; [exists ".unw"; split; [tag_in|lookup_attr]|].
      split; [intros key Hkey; kept_key Hkey|by exists (dset inps), token_data]. }
  destruct Htype as (tag & Htag & Htype).
  rewrite (getitem_Some _ _ (VStr tag)), bind_pure_Ok, outcome_mret in Hrun
    by done.
  apply Ok_inj in Hrun as <-.
  unfold branch_post. split; [|by split].
  by exists tag, (PyStr.splitext_root (file inps)).
Qed.

(** A successful run of [read_data]: the attributes of the file, the
    branch that ran on them with the reference pixel of the command line,
    and [PROCESSOR] set at the end. *)
Lemma read_data_post inps atr p :
  read_attribute w (file inps) = Ok atr ->
  outcome (read_data w inps) = Ok p ->
  exists data atr' out,
    p = (data, <["PROCESSOR" := VStr "roipac"]> atr', out)
    /\ branch_post w inps (change_reference inps atr) (data, atr', out).
Proof.
  intros Hatr Hrun. unfold read_data in Hrun.
  rewrite Hatr, bind_perform_Ok, outcome_logged in Hrun.
  bind_inv_as Hrun k Hk. bind_inv_as Hrun type Htype.
  bind_inv_as Hrun branch Hbranch. destruct branch as [[data atr'] out].
  cbv beta iota in Hrun. rewrite outcome_mret in Hrun.
  apply Ok_inj in Hrun as <-.
  exists data, atr', out. split; [done|].
  destruct (value_is type "velocity"); [by apply read_velocity_post in Hbranch|].
  destruct (value_is type "timeseries");
    [by apply read_timeseries_post in Hbranch|].
  destruct (value_is type "HDFEOS"); [by apply read_hdfeos_post in Hbranch|].
  destruct (value_is type "ifgramStack");
    [by apply read_ifgram_stack_post in Hbranch|].
  by apply read_generic_post in Hbranch.
Qed.

End Branches.

(** ** The accesses to the file *)

Lemma trace_bind_Forall {A B} (E : event -> Prop) (m : io A) (f : A -> io B) :
  Forall E (trace m) -> (forall a, Forall E (trace (f a))) ->
  Forall E (trace (m ≫= f)).
Proof.
  intros Hm Hf. rewrite trace_bind. apply Forall_app. split; [done|].
  destruct (outcome m); [apply Hf|apply Forall_nil_2].
Qed.

(** Walks through a computation and checks every access it may make. *)
Ltac only_reads :=
  repeat first
    [ apply Forall_nil_2
    | apply Forall_cons_2; [exact I|apply Forall_nil_2]
    | apply trace_bind_Forall; [|intros ?]
    | match goal with
      | |- context [if ?b then _ else _] => destruct b
      | |- context [match ?x with _ => _ end] => destruct x
      end ].

Section ReadOnly.
Context {num : Type} `{Scalar num} (w : world num).

Lemma cmd_line_parse_reads (inps : args) :
  Forall is_read (trace (cmd_line_parse w inps)).
Proof. unfold cmd_line_parse. only_reads. Qed.

Lemma read_data_reads (inps : args) :
  Forall is_read (trace (read_data w inps)).
Proof.
  unfold read_data, read_velocity, read_timeseries, read_hdfeos,
    read_ifgram_stack, read_generic, hdfeos_dates, hdfeos_data, hdfeos_kind,
    ifgram_reference, ifgram_kind, slice_name_of, ref_date, dset_text,
    read_slice, subtract_ref.
  only_reads.
Qed.

End ReadOnly.

(** ** The product of [read_data] *)

Section Product.
Context {num : Type} `{Scalar num} (w : world num).
Implicit Types (inps : args) (atr : gmap string value).

Lemma read_data_attributes inps p :
  outcome (read_data w inps) = Ok p ->
  exists atr, read_attribute w (file inps) = Ok atr.
Proof.
  unfold read_data. destruct (read_attribute w (file inps)) as [atr|e].
  - by exists atr.
  - rewrite bind_perform_Raise. discriminate.
Qed.

Lemma read_data_branch inps atr data atr' out :
  read_attribute w (file inps) = Ok atr ->
  outcome (read_data w inps) = Ok (data, atr', out) ->
  exists atr0,
    atr' = <["PROCESSOR" := VStr "roipac"]> atr0
    /\ branch_post w inps (change_reference inps atr) (data, atr0, out).
Proof.
  intros Hatr Hrun.
  destruct (read_data_post w inps atr _ Hatr Hrun)
    as (data0 & atr0 & out0 & Heq & Hpost).
  apply triple_inj in Heq as (-> & -> & ->). by exists atr0.
Qed.

(** X6. Every product of [read_data] is marked for ROI_PAC: [PROCESSOR] is
    [roipac] and [FILE_TYPE] is one of the six types of the format,
    whatever the type of the file and the dataset were. *)
Theorem read_data_file_type inps data atr' out :
  outcome (read_data w inps) = Ok (data, atr', out) ->
  atr' !! "PROCESSOR" = Some (VStr "roipac")
  /\ exists tag, tag ∈ file_type_tags /\ atr' !! "FILE_TYPE" = Some (VStr tag).
Proof.
  intros Hrun. destruct (read_data_attributes _ _ Hrun) as (atr & Hatr).
  destruct (read_data_branch _ _ _ _ _ Hatr Hrun)
    as (atr0 & -> & (tag & base & Htag & Htype & _) & _).
  split; [by rewrite lookup_insert_eq|].
  exists tag. split; [done|]. by rewrite lookup_insert_ne.
Qed.

(** X7. The attributes that [read_data] does not derive pass through: the
    reference pixel of the command line is recorded as two integers under
    [REF_Y] and [REF_X], and every other attribute outside [DATE],
    [DATE12], [FILE_TYPE], [UNIT], [DATA_TYPE] and [PROCESSOR] is returned
    as the file has it. *)
Theorem read_data_keeps_attributes inps atr data atr' out :
  read_attribute w (file inps) = Ok atr ->
  outcome (read_data w inps) = Ok (data, atr', out) ->
  (forall y x, ref_yx inps = Some (y, x) ->
     atr' !! "REF_Y" = Some (VInt y) /\ atr' !! "REF_X" = Some (VInt x))
  /\ (forall key, key ∉ derived_keys ->
        ref_yx inps = None \/ (key <> "REF_Y" /\ key <> "REF_X") ->
        atr' !! key = atr !! key).
Proof.
  intros Hatr Hrun.
  destruct (read_data_branch _ _ _ _ _ Hatr Hrun) as (atr0 & -> & _ & Hkept & _).
  assert (forall key, key ∉ derived_keys ->
            (<["PROCESSOR" := VStr "roipac"]> atr0) !! key
            = change_reference inps atr !! key) as Hin.
  { intros key Hkey. destruct (not_derived_key _ Hkey) as (_&_&_&_&_&?).
    rewrite lookup_insert_ne by done. by apply Hkept. }
  split.
  - intros y x Href.
    rewrite !Hin by (apply plain_key_not_derived; auto).
    unfold change_reference, set_reference. rewrite Href.
    by rewrite lookup_insert_ne, !lookup_insert_eq.
  - intros key Hkey Hother. rewrite Hin by done.
    unfold change_reference. destruct (ref_yx inps) as [[y x]|]; [|done].
    destruct Hother as [?|[? ?]]; [done|]. by rewrite lookup_set_reference.
Qed.

(** X8. The output name: a name given on the command line is returned as
    it is, and without one (or with the empty name) the returned name ends
    with the [FILE_TYPE] of the product. *)
Theorem read_data_outfile inps data atr' out :
  outcome (read_data w inps) = Ok (data, atr', out) ->
  (falsy (outfile inps) = false -> outfile inps = Some out)
  /\ (falsy (outfile inps) = true ->
      exists tag base,
        atr' !! "FILE_TYPE" = Some (VStr tag) /\ out = base ++ tag).
Proof.
  intros Hrun. destruct (read_data_attributes _ _ Hrun) as (atr & Hatr).
  destruct (read_data_branch _ _ _ _ _ Hatr Hrun)
    as (atr0 & -> & (tag & base & Htag & Htype & ->) & _).
  unfold default_outfile. split.
  - intros Hgiven. destruct (outfile inps) as [name|]; [|done].
    by rewrite Hgiven.
  - intros Hnone. exists tag, base.
    split; [by rewrite lookup_insert_ne|].
    destruct (outfile inps) as [name|]; [|done]. by rewrite Hnone.
Qed.

(** X9. The raster that [read_data] returns has the shape of a dataset of
    the file: the conversions and the reference keep the number of rows
    and the length of each row. *)
Theorem read_data_shape inps data atr' out :
  outcome (read_data w inps) = Ok (data, atr', out) ->
  exists ds raw, read w (file inps) ds = Ok raw /\ same_shape data raw.
Proof.
  intros Hrun. destruct (read_data_attributes _ _ Hrun) as (atr & Hatr).
  by destruct (read_data_branch _ _ _ _ _ Hatr Hrun) as (atr0 & _ & _ & _ & ?).
Qed.

End Product.

Lemma read_data_file_type_witness :
  exists data atr' out,
    outcome (read_data Files.stack_world
               (Demo.request "ifgramStack.h5"
                  (Some "unwrapPhase-20091225_20100723") None))
    = Ok (data, atr', out)
    /\ atr' !! "PROCESSOR" = Some (VStr "roipac")
    /\ exists tag, tag ∈ file_type_tags /\ atr' !! "FILE_TYPE" = Some (VStr tag).
Proof.
  destruct (read_data_ifgram_unwrapPhase Files.stack_world
              (Demo.request "ifgramStack.h5"
                 (Some "unwrapPhase-20091225_20100723") None)
              Files.stack_attrs (phase_factor Scenario.c_band)
              "unwrapPhase-20091225_20100723" "unwrapPhase"
              "20091225_20100723" "20091225" "20100723"
              [[1; 2]; [3; 4]]%float (shift [[1; 2]; [3; 4]] 1)%float
              (VStr "0") (VStr "0") 0 0)
    as (atr' & out & Hrun & _); [reflexivity..|].
  assert (outcome (read_data Files.stack_world
                     (Demo.request "ifgramStack.h5"
                        (Some "unwrapPhase-20091225_20100723") None))
          = Ok (shift [[1; 2]; [3; 4]] 1, atr', out)%float) as Hout.
  { by rewrite Hrun. }
  exists (shift [[1; 2]; [3; 4]] 1)%float, atr', out.
  split; [exact Hout|]. exact (read_data_file_type _ _ _ _ _ Hout).
Defined.

Lemma read_data_keeps_attributes_witness :
  exists data atr' out,
    outcome (read_data Files.mask_world (Cases.mask_request None (Some (0, 1))))
    = Ok (data, atr', out)
    /\ atr' !! "REF_Y" = Some (VInt 0) /\ atr' !! "REF_X" = Some (VInt 1)
    /\ atr' !! "WAVELENGTH" = Files.mask_attrs !! "WAVELENGTH".
Proof.
  destruct (read_data_reread Files.mask_world
              (Cases.mask_request None (Some (0, 1))) Files.mask_attrs "mask"
              (phase_factor Scenario.c_band) [[1; 0]]%float [[1; 0]]%float)
    as (atr' & out & Hrun); [reflexivity..|].
  assert (outcome (read_data Files.mask_world
                     (Cases.mask_request None (Some (0, 1))))
          = Ok ([[1; 0]]%float, atr', out)) as Hout.
  { by rewrite Hrun. }
  exists [[1; 0]]%float, atr', out. split; [exact Hout|].
  destruct (read_data_keeps_attributes Files.mask_world
              (Cases.mask_request None (Some (0, 1))) Files.mask_attrs
              _ atr' out eq_refl Hout) as [Href Hkept].
  destruct (Href 0 1 eq_refl) as [Hy Hx].
  split; [exact Hy|]. split; [exact Hx|].
  apply Hkept.
  - unfold derived_keys. rewrite !elem_of_cons, elem_of_nil.
    intuition discriminate.
  - right. split; discriminate.
Defined.

Lemma read_data_outfile_witness :
  (exists data atr' out,
     outcome (read_data Files.mask_world
                (Cases.mask_request (Some "mask.msk") None))
     = Ok (data, atr', out)
     /\ Some "mask.msk" = Some out)
  /\ (exists data atr' out tag base,
        outcome (read_data Files.mask_world (Cases.mask_request None None))
        = Ok (data, atr', out)
        /\ atr' !! "FILE_TYPE" = Some (VStr tag) /\ out = base ++ tag).
Proof.
  split.
  - destruct (read_data_reread Files.mask_world
                (Cases.mask_request (Some "mask.msk") None) Files.mask_attrs
                "mask" (phase_factor Scenario.c_band)
                [[1; 0]]%float [[1; 0]]%float)
      as (atr' & out & Hrun); [reflexivity..|].
    assert (outcome (read_data Files.mask_world
                       (Cases.mask_request (Some "mask.msk") None))
            = Ok ([[1; 0]]%float, atr', out)) as Hout.
    { by rewrite Hrun. }
    exists [[1; 0]]%float, atr', out. split; [exact Hout|].
    exact (proj1 (read_data_outfile _ _ _ _ _ Hout) eq_refl).
  - destruct (read_data_reread Files.mask_world
                (Cases.mask_request None None) Files.mask_attrs
                "mask" (phase_factor Scenario.c_band)
                [[1; 0]]%float [[1; 0]]%float)
      as (atr' & out & Hrun); [reflexivity..|].
    assert (outcome (read_data Files.mask_world (Cases.mask_request None None))
            = Ok ([[1; 0]]%float, atr', out)) as Hout.
    { by rewrite Hrun. }
    destruct (proj2 (read_data_outfile _ _ _ _ _ Hout) eq_refl)
      as (tag & base & Htype & Hname).
    by exists [[1; 0]]%float, atr', out, tag, base.
Defined.

Lemma read_data_shape_witness :
  exists data atr' out ds raw,
    outcome (read_data Files.timeseries_world
               (Demo.request "timeseries.h5" (Some "20040101_20050601") None))
    = Ok (data, atr', out)
    /\ read Files.timeseries_world "timeseries.h5" ds = Ok raw
    /\ same_shape data raw.
Proof.
  destruct (read_data_timeseries_pair Files.timeseries_world
              (Demo.request "timeseries.h5" (Some "20040101_20050601") None)
              Files.timeseries_attrs (phase_factor Scenario.c_band)
              "20040101_20050601" "20040101" "20050601"
              [[1; 2]]%float [[3; 5]]%float
              [[PrimFloat.sub 3 1; PrimFloat.sub 5 2]]
              (scale [[PrimFloat.sub 3 1; PrimFloat.sub 5 2]]
                     (phase_factor Scenario.c_band)))
    as (atr' & out & Hrun & _); [reflexivity..|].
  assert (outcome (read_data Files.timeseries_world
                     (Demo.request "timeseries.h5"
                        (Some "20040101_20050601") None))
          = Ok (scale [[PrimFloat.sub 3 1; PrimFloat.sub 5 2]]
                      (phase_factor Scenario.c_band), atr', out)) as Hout.
  { by rewrite Hrun. }
  destruct (read_data_shape _ _ _ _ _ Hout) as (ds & raw & Hread & Hshape).
  by exists (scale [[PrimFloat.sub 3 1; PrimFloat.sub 5 2]]
               (phase_factor Scenario.c_band)), atr', out, ds, raw.
Defined.

(** ** The driver *)

Section Driver.
Context {num : Type} `{Scalar num} (w : world num).

Lemma cmd_line_parse_result (inps inps' : args) :
  outcome (cmd_line_parse w inps) = Ok inps' ->
  inps' = inps
  \/ (falsy (dset inps) = true
      /\ exists date_list last_date,
           timeseries_get_date_list w (file inps) = Ok date_list
           /\ last date_list = Some last_date
           /\ inps' = with_dset inps (Some last_date)).
Proof.
  unfold cmd_line_parse. intros Hrun.
  destruct (falsy (dset inps)) eqn:Hno; [|left; by apply Ok_inj in Hrun].
  bind_inv_as Hrun atr Hatr. bind_inv_as Hrun k Hk.
  destruct (value_is k "ifgramStack" || value_is k "HDFEOS"); [discriminate|].
  destruct (value_is k "timeseries"); [|left; by apply Ok_inj in Hrun].
  bind_inv_as Hrun date_list Hdates. bind_inv_as Hrun last_date Hlast.
  right. split; [done|]. exists date_list, last_date.
  split; [done|]. split; [by apply py_index_last_inv|].
  by apply Ok_inj in Hrun.
Qed.

Lemma cmd_line_parse_file (inps inps' : args) :
  outcome (cmd_line_parse w inps) = Ok inps' ->
  file inps' = file inps /\ outfile inps' = outfile inps
  /\ ref_yx inps' = ref_yx inps.
Proof.
  intros [->|(_ & ? & ? & _ & _ & ->)]%cmd_line_parse_result; by repeat split.
Qed.

(** X10. The driver calls the writer at most once, and only as its last
    access: a run that returns has read the file and then written once,
    the data and the attributes it returns to the file name it returns; a
    run that ends with an exception has either only read the file, or has
    read it and then called the writer once, and the exception is the one
    of the writer. *)
Theorem main_writes_last (inps : args) :
  match outcome (main w inps) with
  | Ok (data, atr, out_file) =>
      exists reads,
        trace (main w inps) = (reads ++ [WriteFile out_file])%list
        /\ Forall is_read reads
        /\ write w data out_file atr = Ok tt
  | Raise e =>
      Forall is_read (trace (main w inps))
      \/ exists reads data atr out_file,
           trace (main w inps) = (reads ++ [WriteFile out_file])%list
           /\ Forall is_read reads
           /\ write w data out_file atr = Raise e
  end.
Proof.
  unfold main. rewrite outcome_bind, trace_bind.
  pose proof (cmd_line_parse_reads w inps) as Hparse.
  destruct (outcome (cmd_line_parse w inps)) as [inps'|e];
    [|left; by rewrite app_nil_r].
  rewrite outcome_bind, trace_bind.
  pose proof (read_data_reads w inps') as Hread.
  destruct (outcome (read_data w inps')) as [[[data atr] out_file]|e].
  2:{ left. rewrite app_nil_r. by apply Forall_app. }
  cbv beta iota.
  destruct (clean_metadata4roipac atr) as [out_atr|e].
  - rewrite bind_pure_Ok.
    destruct (write w data out_file out_atr) as [[]|e] eqn:Hwrite.
    + rewrite bind_perform_Ok.
      cbn [outcome trace logged mret io_ret fst snd].
      exists (trace (cmd_line_parse w inps) ++ trace (read_data w inps'))%list.
      split; [by rewrite <- app_assoc|]. split; [by apply Forall_app|done].
    + rewrite bind_perform_Raise.
      cbn [outcome trace perform fst snd]. right.
      exists (trace (cmd_line_parse w inps) ++ trace (read_data w inps'))%list,
             data, out_atr, out_file.
      split; [by rewrite <- app_assoc|]. split; [by apply Forall_app|done].
  - left. rewrite bind_pure_Raise. cbn [outcome trace raise fst snd].
    rewrite app_nil_r. by apply Forall_app.
Qed.

(** The writer that fails: its exception ends the run, after the one call. *)
Example main_writer_exception :
  main (Demo.read_only Files.mask_world)
    {| file := "maskTempCoh.h5"; dset := Some "mask"; outfile := None;
       ref_yx := None |}
  = ([ReadAttribute; Read (Some "mask"); Read None;
      WriteFile "maskTempCoh.msk"],
     Raise (Exception "read-only file system")).
Proof. vm_compute. reflexivity. Qed.

(** X11. Nothing in the program sets [LENGTH]: for a file whose attributes
    have no [LENGTH], a run of the driver whose data was read and
    transformed still ends with the [KeyError] of [LENGTH], before the
    writer is called. *)
Theorem main_requires_LENGTH (inps inps' : args) (atr : gmap string value)
  (p : raster num * gmap string value * string) :
  read_attribute w (file inps) = Ok atr ->
  atr !! "LENGTH" = None ->
  outcome (cmd_line_parse w inps) = Ok inps' ->
  outcome (read_data w inps') = Ok p ->
  outcome (main w inps) = Raise (KeyError "LENGTH")
  /\ Forall is_read (trace (main w inps)).
Proof.
  intros Hatr Hlength Hparse Hread.
  destruct (cmd_line_parse_file _ _ Hparse) as (Hfile & _ & _).
  rewrite <- Hfile in Hatr.
  destruct (read_data_post w inps' atr p Hatr Hread)
    as (data & atr' & out & -> & _ & Hkept & _).
  assert (clean_metadata4roipac (<["PROCESSOR" := VStr "roipac"]> atr')
          = Raise (KeyError "LENGTH")) as Hclean.
  { rewrite clean_metadata4roipac_eq.
    rewrite lookup_insert_ne by done.
    rewrite Hkept by (apply plain_key_not_derived; auto).
    rewrite lookup_change_reference by done. by rewrite Hlength. }
  unfold main. split.
  - rewrite outcome_bind, Hparse, outcome_bind, Hread.
    cbv beta iota. by rewrite Hclean.
  - rewrite trace_bind, Hparse, trace_bind, Hread.
    cbv beta iota. rewrite Hclean, bind_pure_Raise.
    cbn [trace raise fst]. rewrite app_nil_r.
    apply Forall_app. split; [apply cmd_line_parse_reads|apply read_data_reads].
Qed.

(** X12. The attributes that the driver writes: [PROCESSOR] is [roipac],
    [FILE_TYPE] is a type of the format, [FILE_LENGTH] is the text of the
    [LENGTH] of the file, the reference pixel of the command line is
    written as text, and every other upper-case attribute of the file that
    the program does not derive is written with its text. *)
Theorem main_written_attributes (inps : args) (atr : gmap string value)
  (data : raster num) (out_atr : gmap string string) (out_file : string) :
  read_attribute w (file inps) = Ok atr ->
  outcome (main w inps) = Ok (data, out_atr, out_file) ->
  out_atr !! "PROCESSOR" = Some "roipac"
  /\ (exists tag, tag ∈ file_type_tags /\ out_atr !! "FILE_TYPE" = Some tag)
  /\ (exists len, atr !! "LENGTH" = Some len
        /\ out_atr !! "FILE_LENGTH" = Some (py_str len))
  /\ (forall y x, ref_yx inps = Some (y, x) ->
        out_atr !! "REF_Y" = Some (pretty y)
        /\ out_atr !! "REF_X" = Some (pretty x))
  /\ (forall key, PyStr.isupper key = true -> key ∉ derived_keys ->
        key <> "REF_Y" -> key <> "REF_X" -> key <> "FILE_LENGTH" ->
        out_atr !! key = py_str <$> atr !! key).
Proof.
  intros Hatr Hrun. unfold main in Hrun.
  bind_inv_as Hrun inps' Hparse.
  destruct (cmd_line_parse_file _ _ Hparse) as (Hfile & _ & Href).
  bind_inv_as Hrun p Hread.
  rewrite <- Hfile in Hatr.
  destruct (read_data_post w inps' atr p Hatr Hread)
    as (data' & atr' & out & -> & (tag & base & Htag & Htype & _) & Hkept & _).
  cbv beta iota in Hrun.
  rewrite clean_metadata4roipac_eq in Hrun.
  destruct (_ !! "LENGTH") as [len|] eqn:Hlen in Hrun; [|discriminate Hrun].
  rewrite bind_pure_Ok in Hrun.
  destruct (write w data' out _) as [[]|e] in Hrun; [|discriminate Hrun].
  rewrite bind_perform_Ok in Hrun.
  apply Ok_inj, triple_inj in Hrun. destruct Hrun as (<- & <- & <-).
  assert (forall key, key ∉ derived_keys ->
            (<["PROCESSOR" := VStr "roipac"]> atr') !! key
            = change_reference inps' atr !! key) as Hin.
  { intros key Hkey. destruct (not_derived_key _ Hkey) as (_&_&_&_&_&?).
    rewrite lookup_insert_ne by done. by apply Hkept. }
  pose proof plain_key_not_derived as Hplain.
  rewrite Hin, lookup_change_reference in Hlen by (try apply Hplain; auto).
  repeat split.
  - rewrite lookup_insert_ne by done.
    rewrite lookup_before_file_length. by rewrite lookup_insert_eq.
  - exists tag. split; [done|]. rewrite lookup_insert_ne by done.
    rewrite lookup_before_file_length.
    rewrite lookup_insert_ne, Htype by done. reflexivity.
  - exists len. split; [done|]. by rewrite lookup_insert_eq.
  - rewrite lookup_insert_ne by done.
    rewrite lookup_before_file_length, Hin by (apply Hplain; auto).
    rewrite <- Href in H0. unfold change_reference, set_reference.
    rewrite H0. by rewrite lookup_insert_ne, lookup_insert_eq.
  - rewrite lookup_insert_ne by done.
    rewrite lookup_before_file_length, Hin by (apply Hplain; auto).
    rewrite <- Href in H0. unfold change_reference, set_reference.
    rewrite H0. by rewrite lookup_insert_eq.
  - intros key Hup Hkey Hy Hx Hfl.
    rewrite lookup_insert_ne by done.
    rewrite lookup_before_file_length, Hup, Hin by done.
    by rewrite lookup_change_reference.
Qed.

End Driver.

Section DriverRuns.
Context {num : Type} `{Scalar num} (w : world num).

(** A run of the driver on a file that records [LENGTH], with a writer
    that succeeds, returns what [read_data] returned, with the attributes
    cleaned. *)
Lemma main_returns (inps inps' : args) (atr : gmap string value) (len : value)
  (data : raster num) (atr' : gmap string value) (out : string) :
  read_attribute w (file inps) = Ok atr ->
  atr !! "LENGTH" = Some len ->
  outcome (cmd_line_parse w inps) = Ok inps' ->
  outcome (read_data w inps') = Ok (data, atr', out) ->
  (forall metadata, write w data out metadata = Ok tt) ->
  exists out_atr, outcome (main w inps) = Ok (data, out_atr, out).
Proof.
  intros Hatr Hlength Hparse Hread Hwrite.
  destruct (cmd_line_parse_file _ _ _ Hparse) as (Hfile & _ & _).
  rewrite <- Hfile in Hatr.
  destruct (read_data_post w inps' atr _ Hatr Hread)
    as (data0 & atr0 & out0 & Heq & _ & Hkept & _).
  apply triple_inj in Heq as (-> & -> & ->).
  unfold main. rewrite outcome_bind, Hparse, outcome_bind, Hread.
  cbv beta iota. rewrite clean_metadata4roipac_eq.
  rewrite lookup_insert_ne by done.
  rewrite Hkept by (apply plain_key_not_derived; auto).
  rewrite lookup_change_reference by done. rewrite Hlength.
  rewrite bind_pure_Ok, Hwrite, bind_perform_Ok. by eexists.
Qed.

End DriverRuns.

Lemma main_requires_LENGTH_witness :
  outcome (main Cases.no_length_world (Cases.mask_request None None))
  = Raise (KeyError "LENGTH")
  /\ Forall is_read
       (trace (main Cases.no_length_world (Cases.mask_request None None))).
Proof.
  destruct (read_data_reread Cases.no_length_world
              (Cases.mask_request None None) Cases.no_length_attrs "mask"
              (phase_factor Scenario.c_band) [[1; 0]]%float [[1; 0]]%float)
    as (atr' & out & Hrun); [reflexivity..|].
  refine (main_requires_LENGTH Cases.no_length_world
            (Cases.mask_request None None) (Cases.mask_request None None)
            Cases.no_length_attrs ([[1; 0]]%float, atr', out) _ _ _ _).
  - reflexivity.
  - reflexivity.
  - reflexivity.
  - by rewrite Hrun.
Defined.

Lemma main_written_attributes_witness :
  exists data out_atr out_file,
    outcome (main Files.mask_world (Cases.mask_request None (Some (0, 1))))
    = Ok (data, out_atr, out_file)
    /\ out_atr !! "PROCESSOR" = Some "roipac"
    /\ (exists tag, tag ∈ file_type_tags /\ out_atr !! "FILE_TYPE" = Some tag)
    /\ out_atr !! "FILE_LENGTH" = Some "1"
    /\ out_atr !! "REF_Y" = Some "0" /\ out_atr !! "REF_X" = Some "1"
    /\ out_atr !! "WIDTH" = Some "2".
Proof.
  destruct (read_data_reread Files.mask_world
              (Cases.mask_request None (Some (0, 1))) Files.mask_attrs "mask"
              (phase_factor Scenario.c_band) [[1; 0]]%float [[1; 0]]%float)
    as (atr' & out & Hrun); [reflexivity..|].
  destruct (main_returns Files.mask_world
              (Cases.mask_request None (Some (0, 1)))
              (Cases.mask_request None (Some (0, 1)))
              Files.mask_attrs (VStr "1") [[1; 0]]%float atr' out)
    as (out_atr & Hmain); [reflexivity..|by rewrite Hrun|done|].
  exists [[1; 0]]%float, out_atr, out. split; [exact Hmain|].
  destruct (main_written_attributes Files.mask_world
              (Cases.mask_request None (Some (0, 1))) Files.mask_attrs
              _ out_atr out eq_refl Hmain)
    as (Hproc & Htype & (len & Hlen & Hfl) & Href & Hkept).
  split; [exact Hproc|]. split; [exact Htype|].
  split.
  { rewrite Hfl. assert (Files.mask_attrs !! "LENGTH" = Some (VStr "1")) as Hone
      by reflexivity.
    rewrite Hone in Hlen. apply (f_equal (fmap py_str)) in Hlen.
    symmetry. exact Hlen. }
  destruct (Href 0 1 eq_refl) as [Hy Hx].
  split; [exact Hy|]. split; [exact Hx|].
  rewrite Hkept; [reflexivity|reflexivity| |discriminate|discriminate|discriminate].
  unfold derived_keys. rewrite !elem_of_cons, elem_of_nil.
  intuition discriminate.
Defined.

(** ** The wavelength *)

Section Wavelength.
Context {num : Type} `{Scalar num} (w : world num).

Lemma read_data_range2phase_error (inps : args) (atr : gmap string value) e :
  read_attribute w (file inps) = Ok atr ->
  range2phase_of atr = Raise e ->
  read_data w inps = ([ReadAttribute], Raise e).
Proof.
  intros Hatr Hk. unfold read_data.
  by rewrite Hatr, bind_perform_Ok, Hk, bind_pure_Raise.
Qed.

(** X13. [read_data] needs a usable [WAVELENGTH] for every type of file,
    also for those whose data it does not convert: without the attribute
    the run ends with its [KeyError], with a text that is no number with
    the error of the conversion, and with a wavelength of zero with a
    [ZeroDivisionError]; in each case no dataset has been read. *)
Theorem read_data_requires_wavelength (inps : args) (atr : gmap string value) :
  read_attribute w (file inps) = Ok atr ->
  (atr !! "WAVELENGTH" = None ->
     read_data w inps = ([ReadAttribute], Raise (KeyError "WAVELENGTH")))
  /\ (forall v e, atr !! "WAVELENGTH" = Some v -> py_float v = Raise e ->
        read_data w inps = ([ReadAttribute], Raise e))
  /\ (forall v x, atr !! "WAVELENGTH" = Some v -> py_float v = Ok x ->
        nis_zero x = true ->
        read_data w inps = ([ReadAttribute], Raise ZeroDivisionError)).
Proof.
  intros Hatr. repeat split.
  - intros Hnone. apply (read_data_range2phase_error _ _ _ Hatr).
    unfold range2phase_of, getitem. by rewrite Hnone.
  - intros v e Hv He. apply (read_data_range2phase_error _ _ _ Hatr).
    unfold range2phase_of, getitem. by rewrite Hv, He.
  - intros v x Hv Hx Hzero. apply (read_data_range2phase_error _ _ _ Hatr).
    unfold range2phase_of, getitem, py_div. by rewrite Hv, Hx, Hzero.
Qed.

End Wavelength.

Lemma read_data_requires_wavelength_witness :
  read_data Cases.no_wavelength_world (Cases.mask_request None None)
  = ([ReadAttribute], Raise (KeyError "WAVELENGTH"))
  /\ read_data Cases.zero_wavelength_world (Cases.mask_request None None)
     = ([ReadAttribute], Raise ZeroDivisionError).
Proof.
  split.
  - refine (proj1 (read_data_requires_wavelength Cases.no_wavelength_world
              (Cases.mask_request None None) Cases.no_wavelength_attrs _) _);
      reflexivity.
  - refine (proj2 (proj2 (read_data_requires_wavelength
              Cases.zero_wavelength_world (Cases.mask_request None None)
              Cases.zero_wavelength_attrs _)) (VStr "0") 0%float _ _ _);
      reflexivity.
Defined.

(** ** The command line *)

Section CommandLine.
Context {num : Type} `{Scalar num} (w : world num).

(** X14. [cmd_line_parse] changes nothing but the dataset: the file, the
    output name and the reference pixel are returned as given; a dataset
    that is given is kept without any access to the file; and a dataset
    that differs from the given one is the last date of the time-series
    file. *)
Theorem cmd_line_parse_keeps_request (inps inps' : args) :
  outcome (cmd_line_parse w inps) = Ok inps' ->
  file inps' = file inps /\ outfile inps' = outfile inps
  /\ ref_yx inps' = ref_yx inps
  /\ (falsy (dset inps) = false ->
        inps' = inps /\ trace (cmd_line_parse w inps) = [])
  /\ (dset inps' <> dset inps ->
        exists date_list,
          timeseries_get_date_list w (file inps) = Ok date_list
          /\ last date_list = dset inps').
Proof.
  intros Hrun.
  destruct (cmd_line_parse_file _ _ _ Hrun) as (Hfile & Hout & Href).
  split; [done|]. split; [done|]. split; [done|]. split.
  - intros Hgiven. unfold cmd_line_parse in *. rewrite Hgiven in *.
    split; [|done]. by apply Ok_inj in Hrun.
  - intros Hdiff.
    destruct (cmd_line_parse_result _ _ _ Hrun)
      as [->|(_ & date_list & last_date & Hdates & Hlast & ->)]; [done|].
    by exists date_list.
Qed.

End CommandLine.

Lemma cmd_line_parse_keeps_request_witness :
  (exists date_list,
     timeseries_get_date_list Files.timeseries_world "ts.h5" = Ok date_list
     /\ last date_list = Some "20050601")
  /\ trace (cmd_line_parse Files.timeseries_world
              (Demo.request "ts.h5" (Some "20040101") None)) = [].
Proof.
  split.
  - refine (proj2 (proj2 (proj2 (proj2
              (cmd_line_parse_keeps_request Files.timeseries_world
                 (Demo.request "ts.h5" None None)
                 (Demo.request "ts.h5" (Some "20050601") None) _)))) _).
    + vm_compute. reflexivity.
    + discriminate.
  - refine (proj2 (proj1 (proj2 (proj2 (proj2
              (cmd_line_parse_keeps_request Files.timeseries_world
                 (Demo.request "ts.h5" (Some "20040101") None)
                 (Demo.request "ts.h5" (Some "20040101") None) _)))) _)).
    + reflexivity.
    + reflexivity.
Defined.

(** ** The branch of the stack of interferograms *)

Lemma unpack2_inv {A} (l : list A) a b : unpack2 l = Ok (a, b) -> l = [a; b].
Proof.
  destruct l as [|x [|y [|z l]]]; try discriminate.
  intros Heq%Ok_inj. by injection Heq as -> ->.
Qed.

Lemma pure_of_outcome {A} (m : io A) a :
  trace m = [] -> outcome m = Ok a -> m = pure (Ok a).
Proof. destruct m as [t r]. simpl. by intros -> ->. Qed.

(** A computation made of steps without access to the file has none. *)
Ltac no_access :=
  repeat first
    [ reflexivity
    | rewrite trace_bind; cbn [trace pure fst outcome snd app]
    | match goal with
      | |- context [if ?b then _ else _] => destruct b
      | |- context [match ?r with Ok _ => _ | Raise _ => _ end] => destruct r
      end ].

Section Stack.
Context {num : Type} `{Scalar num} (w : world num).
Implicit Types (inps : args) (atr : gmap string value).

Lemma ifgram_reference_trace dname atr (data : raster num) :
  trace (ifgram_reference dname atr data) = [].
Proof. unfold ifgram_reference. no_access. Qed.

Lemma ifgram_kind_trace ds dname atr : trace (ifgram_kind ds dname atr) = [].
Proof. unfold ifgram_kind. no_access. Qed.

(** A successful run on a stack, step by step. *)
Lemma read_data_ifgram_inv inps atr ds data atr' out :
  read_attribute w (file inps) = Ok atr ->
  atr !! "FILE_TYPE" = Some (VStr "ifgramStack") ->
  dset inps = Some ds ->
  outcome (read_data w inps) = Ok (data, atr', out) ->
  exists dname date12 date1 date2 raw atr1 tag,
    PyStr.split "-" ds = [dname; date12]
    /\ PyStr.split "_" date12 = [date1; date2]
    /\ read w (file inps) (Some ds) = Ok raw
    /\ outcome (ifgram_reference dname (change_reference inps atr) raw) = Ok data
    /\ outcome (ifgram_kind ds dname
                  (set_dates date1 date2 (change_reference inps atr))) = Ok atr1
    /\ atr1 !! "FILE_TYPE" = Some (VStr tag)
    /\ atr' = <["PROCESSOR" := VStr "roipac"]> atr1
    /\ out = default_outfile (outfile inps)
               (if PyStr.startswith (file inps) "geo_"
                then "geo_" ++ date12 ++ tag else date12 ++ tag)
    /\ trace (read_data w inps) = [ReadAttribute; Read (Some ds)].
Proof.
  intros Hatr Htype Hds Hrun.
  assert (exists k, range2phase_of atr = Ok k) as (k & Hk).
  { unfold read_data in Hrun.
    rewrite Hatr, bind_perform_Ok, outcome_logged in Hrun.
    bind_inv_as Hrun k Hk. by exists k. }
  assert (read_data w inps
          = logged ReadAttribute
              ('(data, atr, out) ← read_ifgram_stack w inps
                                     (change_reference inps atr);
               mret (data, <["PROCESSOR" := VStr "roipac"]> atr, out)))
    as Hdata.
  { unfold read_data. rewrite Hatr, bind_perform_Ok, Hk, bind_pure_Ok.
    rewrite (getitem_Some _ _ (VStr "ifgramStack"))
      by (by rewrite lookup_change_reference).
    by rewrite bind_pure_Ok. }
  rewrite Hdata in Hrun |- *. rewrite outcome_logged in Hrun.
  bind_inv_as Hrun p Hbranch. destruct p as [[data0 atr0] out0].
  cbv beta iota in Hrun. rewrite outcome_mret in Hrun.
  apply Ok_inj, triple_inj in Hrun as (<- & <- & <-).
  unfold read_ifgram_stack, dset_text, read_slice in Hbranch |- *.
  rewrite Hds, bind_mret in Hbranch |- *.
  bind_inv_as Hbranch names Hnames. destruct names as [dname date12].
  cbv beta iota in Hbranch. rewrite outcome_pure in Hnames.
  bind_inv_as Hbranch dates Hdates. destruct dates as [date1 date2].
  cbv beta iota in Hbranch. rewrite outcome_pure in Hdates.
  bind_inv_as Hbranch raw Hraw.
  change (read w (file inps) (Some ds) = Ok raw) in Hraw.
  bind_inv_as Hbranch data1 Href. bind_inv_as Hbranch atr1 Hkind.
  destruct (ifgram_kind_post _ _ _ _ Hkind) as ((tag & _ & Hfile_type) & _).
  rewrite (getitem_Some _ _ (VStr tag)), bind_pure_Ok, outcome_mret in Hbranch
    by done.
  apply Ok_inj, triple_inj in Hbranch as (<- & <- & <-).
  exists dname, date12, date1, date2, raw, atr1, tag.
  split; [by apply unpack2_inv|]. split; [by apply unpack2_inv|].
  split; [done|]. split; [done|]. split; [done|]. split; [done|].
  split; [done|]. split; [done|].
  rewrite Hnames, bind_pure_Ok. cbv beta iota.
  rewrite Hdates, bind_pure_Ok. cbv beta iota.
  rewrite Hraw, bind_perform_Ok, !bind_logged.
  rewrite (pure_of_outcome _ _ (ifgram_reference_trace _ _ _) Href).
  rewrite bind_pure_Ok.
  rewrite (pure_of_outcome _ _ (ifgram_kind_trace _ _ _) Hkind).
  rewrite bind_pure_Ok.
  rewrite (getitem_Some _ _ (VStr tag)), bind_pure_Ok, !bind_mret by done.
  reflexivity.
Qed.

End Stack.

Section StackProduct.
Context {num : Type} `{Scalar num} (w : world num).
Implicit Types (inps : args) (atr : gmap string value).

Lemma ifgram_kind_inv ds dname atr atr' :
  outcome (ifgram_kind ds dname atr) = Ok atr' ->
  exists tag unit,
    atr' = <["UNIT" := VStr unit]> (<["FILE_TYPE" := VStr tag]> atr)
    /\ ((PyStr.startswith dname "unwrapPhase" = true
         /\ tag = ".unw" /\ unit = "radian")
        \/ (dname = "coherence" /\ tag = ".cor" /\ unit = "1")
        \/ (dname = "wrapPhase" /\ tag = ".int" /\ unit = "radian")).
Proof.
  unfold ifgram_kind. intros Hkind.
  destruct (PyStr.startswith dname "unwrapPhase") eqn:Hunw;
    [|destruct (String.eqb dname "coherence") eqn:Hcor;
      [|destruct (String.eqb dname "wrapPhase") eqn:Hwrap;
        [|discriminate Hkind]]];
    apply Ok_inj in Hkind as <-.
  - exists ".unw", "radian". split; [done|]. by left.
  - apply String.eqb_eq in Hcor.
    exists ".cor", "1". split; [done|]. right. by left.
  - apply String.eqb_eq in Hwrap.
    exists ".int", "radian". split; [done|]. right. by right.
Qed.

(** A run on a stack whose request names one pair of a known dataset. *)
Lemma read_data_ifgram_run inps atr (k : num) ds dname date12 date1 date2
  (raw data : raster num) :
  read_attribute w (file inps) = Ok atr ->
  range2phase_of atr = Ok k ->
  atr !! "FILE_TYPE" = Some (VStr "ifgramStack") ->
  dset inps = Some ds ->
  PyStr.split "-" ds = [dname; date12] ->
  PyStr.split "_" date12 = [date1; date2] ->
  read w (file inps) (Some ds) = Ok raw ->
  outcome (ifgram_reference dname (change_reference inps atr) raw) = Ok data ->
  PyStr.startswith dname "unwrapPhase" = true
  \/ dname = "coherence" \/ dname = "wrapPhase" ->
  exists atr' out,
    read_data w inps = ([ReadAttribute; Read (Some ds)], Ok (data, atr', out)).
Proof.
  intros Hatr Hk Htype Hds Hsplit Hdates Hraw Href Hname.
  unfold read_data. rewrite Hatr, bind_perform_Ok, Hk, bind_pure_Ok.
  rewrite (getitem_Some _ _ (VStr "ifgramStack"))
    by (by rewrite lookup_change_reference).
  rewrite bind_pure_Ok.
  change (value_is (VStr "ifgramStack") "velocity") with false.
  change (value_is (VStr "ifgramStack") "timeseries") with false.
  change (value_is (VStr "ifgramStack") "HDFEOS") with false.
  change (value_is (VStr "ifgramStack") "ifgramStack") with true.
  cbv iota. unfold read_ifgram_stack, dset_text, read_slice.
  rewrite Hds, bind_mret, Hsplit. cbn [unpack2].
  rewrite bind_pure_Ok. cbv beta iota.
  rewrite Hdates. cbn [unpack2]. rewrite bind_pure_Ok. cbv beta iota.
  rewrite Hraw, bind_perform_Ok, !bind_logged.
  rewrite (pure_of_outcome _ _ (ifgram_reference_trace _ _ _) Href).
  rewrite bind_pure_Ok. unfold ifgram_kind.
  destruct (PyStr.startswith dname "unwrapPhase") eqn:Hunw.
  { rewrite bind_mret.
    rewrite (getitem_Some _ _ (VStr ".unw")) by lookup_attr.
    rewrite bind_pure_Ok, !bind_mret. by eexists _, _. }
  destruct Hname as [?|[->| ->]]; [done| |].
  - change ("coherence" =? "coherence")%string with true. cbv iota.
    rewrite bind_mret.
    rewrite (getitem_Some _ _ (VStr ".cor")) by lookup_attr.
    rewrite bind_pure_Ok, !bind_mret. by eexists _, _.
  - change ("wrapPhase" =? "coherence")%string with false.
    change ("wrapPhase" =? "wrapPhase")%string with true. cbv iota.
    rewrite bind_mret.
    rewrite (getitem_Some _ _ (VStr ".int")) by lookup_attr.
    rewrite bind_pure_Ok, !bind_mret. by eexists _, _.
Qed.

(** X15. On a stack, a dataset whose name does not start with
    [unwrapPhase], and an unwrapped phase of a file without [REF_X] when
    the command line gives no pixel, is returned as it is stored: one read
    of the attributes, one read of the dataset, no reference and no
    conversion. *)
Theorem read_data_ifgram_stored inps atr ds (data : raster num) atr' out :
  read_attribute w (file inps) = Ok atr ->
  atr !! "FILE_TYPE" = Some (VStr "ifgramStack") ->
  dset inps = Some ds ->
  outcome (read_data w inps) = Ok (data, atr', out) ->
  PyStr.startswith (dataset_name (Some ds)) "unwrapPhase" = false
  \/ (ref_yx inps = None /\ atr !! "REF_X" = None) ->
  read w (file inps) (Some ds) = Ok data
  /\ trace (read_data w inps) = [ReadAttribute; Read (Some ds)].
Proof.
  intros Hatr Htype Hds Hrun Hcase.
  destruct (read_data_ifgram_inv w _ _ _ _ _ _ Hatr Htype Hds Hrun)
    as (dname & date12 & date1 & date2 & raw & atr1 & tag
        & Hsplit & _ & Hraw & Href & _ & _ & _ & _ & Htrace).
  split; [|done].
  assert (dataset_name (Some ds) = dname) as Hname.
  { unfold dataset_name. by rewrite Hsplit. }
  rewrite Hname in Hcase. unfold ifgram_reference in Href.
  destruct Hcase as [Hother|[Hnone Hx]].
  - rewrite Hother in Href. by apply Ok_inj in Href as <-.
  - assert (haskey (change_reference inps atr) "REF_X" = false) as Hkey.
    { unfold haskey, change_reference. rewrite Hnone, Hx.
      apply bool_decide_eq_false_2. by intros [? ?]. }
    rewrite Hkey in Href.
    destruct (PyStr.startswith dname "unwrapPhase");
      by apply Ok_inj in Href as <-.
Qed.

(** X16. On a stack the request must be [name-date1_date2], and the two
    dates are used as they are written: [DATE] and [DATE12] are their
    characters 2 to 8, the default output name is [date1_date2] with the
    type, after [geo_] for a file whose name starts with it, and the type
    and the unit follow the name. *)
Theorem read_data_ifgram_dates inps atr ds (data : raster num) atr' out :
  read_attribute w (file inps) = Ok atr ->
  atr !! "FILE_TYPE" = Some (VStr "ifgramStack") ->
  dset inps = Some ds ->
  outcome (read_data w inps) = Ok (data, atr', out) ->
  exists dname date12 date1 date2 tag unit,
    PyStr.split "-" ds = [dname; date12]
    /\ PyStr.split "_" date12 = [date1; date2]
    /\ atr' !! "DATE" = Some (VStr (PyStr.slice 2 8 date1))
    /\ atr' !! "DATE12" = Some (date12_of date1 date2)
    /\ atr' !! "FILE_TYPE" = Some (VStr tag)
    /\ atr' !! "UNIT" = Some (VStr unit)
    /\ ((PyStr.startswith dname "unwrapPhase" = true
         /\ tag = ".unw" /\ unit = "radian")
        \/ (dname = "coherence" /\ tag = ".cor" /\ unit = "1")
        \/ (dname = "wrapPhase" /\ tag = ".int" /\ unit = "radian"))
    /\ out = default_outfile (outfile inps)
               (if PyStr.startswith (file inps) "geo_"
                then "geo_" ++ date12 ++ tag else date12 ++ tag).
Proof.
  intros Hatr Htype Hds Hrun.
  destruct (read_data_ifgram_inv w _ _ _ _ _ _ Hatr Htype Hds Hrun)
    as (dname & date12 & date1 & date2 & raw & atr1 & tag
        & Hsplit & Hdates & _ & _ & Hkind & Hfile_type & -> & -> & _).
  destruct (ifgram_kind_inv _ _ _ _ Hkind) as (tag' & unit & -> & Hcases).
  assert (tag' = tag) as ->.
  { rewrite lookup_insert_ne, lookup_insert_eq in Hfile_type by done.
    congruence. }
  exists dname, date12, date1, date2, tag, unit.
  unfold set_dates, date12_of.
  repeat split; try done; lookup_attr.
Qed.

End StackProduct.

Lemma read_data_ifgram_stored_witness :
  exists atr' out,
    outcome (read_data Stacks.coherence_world Stacks.coherence_request)
    = Ok ([[1; 2]; [3; 4]]%float, atr', out)
    /\ trace (read_data Stacks.coherence_world Stacks.coherence_request)
       = [ReadAttribute; Read (Some "coherence-20091225_20100723")].
Proof.
  destruct (read_data_ifgram_run Stacks.coherence_world
              Stacks.coherence_request Files.stack_attrs
              (phase_factor Scenario.c_band) "coherence-20091225_20100723"
              "coherence" "20091225_20100723" "20091225" "20100723"
              [[1; 2]; [3; 4]]%float [[1; 2]; [3; 4]]%float)
    as (atr' & out & Hrun); [reflexivity..|by right; left|].
  assert (outcome (read_data Stacks.coherence_world Stacks.coherence_request)
          = Ok ([[1; 2]; [3; 4]]%float, atr', out)) as Hout.
  { by rewrite Hrun. }
  exists atr', out. split; [exact Hout|].
  refine (proj2 (read_data_ifgram_stored Stacks.coherence_world
            Stacks.coherence_request Files.stack_attrs
            "coherence-20091225_20100723" _ atr' out _ _ _ Hout _)).
  - reflexivity.
  - reflexivity.
  - reflexivity.
  - left. reflexivity.
Defined.

Lemma read_data_ifgram_dates_witness :
  exists data atr' out,
    outcome (read_data Stacks.coherence_world Stacks.coherence_request)
    = Ok (data, atr', out)
    /\ atr' !! "DATE" = Some (VStr "091225")
    /\ atr' !! "DATE12" = Some (VStr "091225-100723")
    /\ atr' !! "FILE_TYPE" = Some (VStr ".cor")
    /\ out = "geo_20091225_20100723.cor".
Proof.
  destruct (read_data_ifgram_run Stacks.coherence_world
              Stacks.coherence_request Files.stack_attrs
              (phase_factor Scenario.c_band) "coherence-20091225_20100723"
              "coherence" "20091225_20100723" "20091225" "20100723"
              [[1; 2]; [3; 4]]%float [[1; 2]; [3; 4]]%float)
    as (atr' & out & Hrun); [reflexivity..|by right; left|].
  assert (outcome (read_data Stacks.coherence_world Stacks.coherence_request)
          = Ok ([[1; 2]; [3; 4]]%float, atr', out)) as Hout.
  { by rewrite Hrun. }
  exists [[1; 2]; [3; 4]]%float, atr', out. split; [exact Hout|].
  destruct (read_data_ifgram_dates Stacks.coherence_world
              Stacks.coherence_request Files.stack_attrs
              "coherence-20091225_20100723" _ atr' out
              eq_refl eq_refl eq_refl Hout)
    as (dname & date12 & date1 & date2 & tag & unit
        & Hsplit & Hdates & Hdate & Hdate12 & Htype & _ & Hkind & Hname).
  assert (dname = "coherence" /\ date12 = "20091225_20100723") as [-> ->].
  { assert (PyStr.split "-" "coherence-20091225_20100723"
            = ["coherence"; "20091225_20100723"]) as Heq by reflexivity.
    rewrite Heq in Hsplit. by injection Hsplit as <- <-. }
  assert (date1 = "20091225" /\ date2 = "20100723") as [-> ->].
  { assert (PyStr.split "_" "20091225_20100723" = ["20091225"; "20100723"])
      as Heq by reflexivity.
    rewrite Heq in Hdates. by injection Hdates as <- <-. }
  assert (tag = ".cor") as ->.
  { destruct Hkind as [(Hunw & _)|[(_ & -> & _)|(Hwrap & _)]];
      [discriminate Hunw|done|discriminate Hwrap]. }
  split; [exact Hdate|]. split; [exact Hdate12|]. split; [exact Htype|].
  exact Hname.
Defined.

(** ** The last branch, for the other types of file *)

Section OtherTypes.
Context {num : Type} `{Scalar num} (w : world num).
Implicit Types (inps : args) (atr : gmap string value).

Lemma haskey_change_reference inps atr key :
  key <> "REF_Y" -> key <> "REF_X" ->
  haskey (change_reference inps atr) key = haskey atr key.
Proof. intros. unfold haskey. by rewrite lookup_change_reference. Qed.

(** X17. A file of a type without a branch of its own: the type of the
    product is [.cor] for a type that contains [coherence] in any case,
    [.msk] for a mask, [.dem] or [.hgt] for the height of a geometry file
    with or without [Y_FIRST], and [.unw] for everything else; the default
    output name is the name of the file with the type as its extension;
    and the raster is the dataset of the request, or the default dataset
    of the file in the cases that read again. *)
Theorem read_data_other_type inps atr kind (data : raster num) atr' out :
  read_attribute w (file inps) = Ok atr ->
  atr !! "FILE_TYPE" = Some (VStr kind) ->
  kind ∉ own_branch ->
  outcome (read_data w inps) = Ok (data, atr', out) ->
  atr' !! "FILE_TYPE" = Some (VStr (generic_tag atr kind (dset inps)))
  /\ out = default_outfile (outfile inps)
             (PyStr.splitext_root (file inps)
              ++ generic_tag atr kind (dset inps))
  /\ read w (file inps)
       (if rereads_default atr kind (dset inps) then None else dset inps)
     = Ok data.
Proof.
  intros Hatr Htype Hkind Hrun.
  assert (value_is (VStr kind) "velocity" = false
          /\ value_is (VStr kind) "timeseries" = false
          /\ value_is (VStr kind) "HDFEOS" = false
          /\ value_is (VStr kind) "ifgramStack" = false) as (Hv & Ht & Hh & Hi).
  { unfold own_branch in Hkind. rewrite !elem_of_cons, elem_of_nil in Hkind.
    simpl. repeat split; apply String.eqb_neq; intros ->; apply Hkind; tauto. }
  unfold read_data in Hrun.
  rewrite Hatr, bind_perform_Ok, outcome_logged in Hrun.
  bind_inv_as Hrun k Hk.
  rewrite (getitem_Some _ _ (VStr kind)) in Hrun
    by (by rewrite lookup_change_reference).
  rewrite bind_pure_Ok, Hv, Ht, Hh, Hi in Hrun.
  bind_inv_as Hrun p Hbranch. destruct p as [[data0 atr0] out0].
  cbv beta iota in Hrun. rewrite outcome_mret in Hrun.
  apply Ok_inj, triple_inj in Hrun as (<- & <- & <-).
  unfold read_generic, read_slice in Hbranch.
  bind_inv_as Hbranch token_data Htoken.
  change (read w (file inps) (dset inps) = Ok token_data) in Htoken.
  rewrite bind_mret in Hbranch.
  bind_inv_as Hbranch mid Hpair. destruct mid as [data1 atr1].
  cbv beta iota in Hbranch.
  unfold generic_tag, rereads_default.
  rewrite haskey_change_reference in Hpair by done.
  destruct (PyStr.contains "coherence" (PyStr.lower kind));
    [|destruct (String.eqb kind "mask");
      [|destruct (String.eqb kind "geometry"
                  && bool_decide (dset inps = Some "height"));
        [destruct (haskey atr "Y_FIRST")|]]];
    cbn [orb andb].
  - bind_inv_as Hpair again Hagain.
    change (read w (file inps) None = Ok again) in Hagain.
    rewrite outcome_mret in Hpair. apply Ok_inj in Hpair.
    injection Hpair as <- <-.
    rewrite (getitem_Some _ _ (VStr ".cor")), bind_pure_Ok, outcome_mret
      in Hbranch by lookup_attr.
    apply Ok_inj, triple_inj in Hbranch as (<- & <- & <-).
    repeat split; [lookup_attr|done].
  - bind_inv_as Hpair again Hagain.
    change (read w (file inps) None = Ok again) in Hagain.
    rewrite outcome_mret in Hpair. apply Ok_inj in Hpair.
    injection Hpair as <- <-.
    rewrite (getitem_Some _ _ (VStr ".msk")), bind_pure_Ok, outcome_mret
      in Hbranch by lookup_attr.
    apply Ok_inj, triple_inj in Hbranch as (<- & <- & <-).
    repeat split; [lookup_attr|done].
  - bind_inv_as Hpair inner Hinner. destruct inner as [data2 atr2].
    cbv beta iota in Hpair. rewrite outcome_mret in Hpair.
    apply Ok_inj in Hpair. injection Hpair as <- <-.
    bind_inv_as Hinner again Hagain.
    change (read w (file inps) None = Ok again) in Hagain.
    rewrite outcome_mret in Hinner. apply Ok_inj in Hinner.
    injection Hinner as <- <-.
    rewrite (getitem_Some _ _ (VStr ".dem")), bind_pure_Ok, outcome_mret
      in Hbranch by lookup_attr.
    apply Ok_inj, triple_inj in Hbranch as (<- & <- & <-).
    repeat split; [lookup_attr|done].
  - rewrite bind_mret in Hpair. cbv beta iota in Hpair.
    rewrite outcome_mret in Hpair. apply Ok_inj in Hpair.
    injection Hpair as <- <-.
    rewrite (getitem_Some _ _ (VStr ".hgt")), bind_pure_Ok, outcome_mret
      in Hbranch by lookup_attr.
    apply Ok_inj, triple_inj in Hbranch as (<- & <- & <-).
    repeat split; [lookup_attr|done].
  - rewrite outcome_mret in Hpair. apply Ok_inj in Hpair.
    injection Hpair as <- <-.
    rewrite (getitem_Some _ _ (VStr ".unw")), bind_pure_Ok, outcome_mret
      in Hbranch by lookup_attr.
    apply Ok_inj, triple_inj in Hbranch as (<- & <- & <-).
    repeat split; [lookup_attr|done].
Qed.

End OtherTypes.

Lemma read_data_other_type_witness :
  exists data atr' out,
    outcome (read_data Files.mask_world (Cases.mask_request None None))
    = Ok (data, atr', out)
    /\ atr' !! "FILE_TYPE" = Some (VStr ".msk")
    /\ out = "maskTempCoh.msk"
    /\ read Files.mask_world "maskTempCoh.h5" None = Ok data.
Proof.
  destruct (read_data_reread Files.mask_world
              (Cases.mask_request None None) Files.mask_attrs "mask"
              (phase_factor Scenario.c_band) [[1; 0]]%float [[1; 0]]%float)
    as (atr' & out & Hrun); [reflexivity..|].
  assert (outcome (read_data Files.mask_world (Cases.mask_request None None))
          = Ok ([[1; 0]]%float, atr', out)) as Hout.
  { by rewrite Hrun. }
  exists [[1; 0]]%float, atr', out. split; [exact Hout|].
  refine (read_data_other_type Files.mask_world
            (Cases.mask_request None None) Files.mask_attrs "mask"
            _ atr' out _ _ _ Hout).
  - reflexivity.
  - reflexivity.
  - unfold own_branch. rewrite !elem_of_cons, elem_of_nil.
    intuition discriminate.
Defined.

(** ** A time-series request of one date *)

Section OneDate.
Context {num : Type} `{Scalar num} (w : world num).
Implicit Types (inps : args) (atr : gmap string value).

(** X18. A time-series request of one date is paired with the [REF_DATE]
    of the file, used as it is stored, while the date of the request goes
    through [yyyymmdd]: without [REF_DATE] the run ends with its
    [KeyError] before any dataset is read, and a run that returns has read
    the dataset of the request and then the one of [REF_DATE], and names
    the dates and the output after the two. *)
Theorem read_data_timeseries_ref_date inps atr ds :
  read_attribute w (file inps) = Ok atr ->
  atr !! "FILE_TYPE" = Some (VStr "timeseries") ->
  dset inps = Some ds ->
  PyStr.contains "_" ds = false ->
  (forall k, range2phase_of atr = Ok k -> atr !! "REF_DATE" = None ->
     read_data w inps = ([ReadAttribute], Raise (KeyError "REF_DATE")))
  /\ (forall (data : raster num) atr' out,
        outcome (read_data w inps) = Ok (data, atr', out) ->
        exists ref,
          atr !! "REF_DATE" = Some (VStr ref)
          /\ trace (read_data w inps)
             = [ReadAttribute; Read (Some (yyyymmdd w ds)); Read (Some ref)]
          /\ atr' !! "DATE" = Some (VStr (PyStr.slice 2 8 ref))
          /\ atr' !! "DATE12" = Some (date12_of ref (yyyymmdd w ds))
          /\ out = default_outfile (outfile inps)
                     (if PyStr.startswith (file inps) "geo_"
                      then "geo_" ++ ref ++ "_" ++ yyyymmdd w ds ++ ".unw"
                      else ref ++ "_" ++ yyyymmdd w ds ++ ".unw")).
Proof.
  intros Hatr Htype Hds Hin.
  assert (forall k, range2phase_of atr = Ok k ->
            read_data w inps
            = logged ReadAttribute
                ('(data, atr, out) ← read_timeseries w inps
                                       (change_reference inps atr) k;
                 mret (data, <["PROCESSOR" := VStr "roipac"]> atr, out)))
    as Hbranch.
  { intros k Hk. unfold read_data.
    rewrite Hatr, bind_perform_Ok, Hk, bind_pure_Ok.
    rewrite (getitem_Some _ _ (VStr "timeseries"))
      by (by rewrite lookup_change_reference).
    by rewrite bind_pure_Ok. }
  split.
  - intros k Hk Hnone. rewrite (Hbranch k Hk).
    unfold read_timeseries, dset_text, ref_date, getitem.
    rewrite Hds, bind_mret, Hin.
    rewrite lookup_change_reference, Hnone by done. reflexivity.
  - intros data atr' out Hrun.
    assert (exists k, range2phase_of atr = Ok k) as (k & Hk).
    { unfold read_data in Hrun.
      rewrite Hatr, bind_perform_Ok, outcome_logged in Hrun.
      bind_inv_as Hrun k Hk. by exists k. }
    rewrite (Hbranch k Hk) in Hrun |- *. rewrite outcome_logged in Hrun.
    bind_inv_as Hrun p Hp. destruct p as [[data0 atr0] out0].
    cbv beta iota in Hrun. rewrite outcome_mret in Hrun.
    apply Ok_inj, triple_inj in Hrun as (<- & <- & <-).
    unfold read_timeseries, dset_text, read_slice, subtract_ref in Hp |- *.
    rewrite Hds, bind_mret, Hin in Hp |- *.
    bind_inv_as Hp dates Hdates. destruct dates as [date1 date2].
    cbv beta iota in Hp.
    bind_inv_as Hdates ref Href. rewrite outcome_mret in Hdates.
    apply Ok_inj in Hdates. injection Hdates as -> <-.
    unfold ref_date in Href |- *. bind_inv_as Href v Hv.
    rewrite outcome_pure in Hv. rewrite outcome_pure in Href.
    unfold getitem in Hv. rewrite lookup_change_reference in Hv by done.
    destruct (atr !! "REF_DATE") as [v'|] eqn:Hdate; [|discriminate Hv].
    apply Ok_inj in Hv as ->. destruct v as [ref|n]; [|discriminate Href].
    apply Ok_inj in Href as ->.
    bind_inv_as Hp data2 Hdata2.
    change (read w (file inps) (Some (yyyymmdd w ds)) = Ok data2) in Hdata2.
    bind_inv_as Hp data1 Hdata1.
    change (read w (file inps) (Some date1) = Ok data1) in Hdata1.
    bind_inv_as Hp diff Hdiff. rewrite outcome_pure in Hdiff.
    bind_inv_as Hp shifted Hshifted. rewrite outcome_pure in Hshifted.
    rewrite outcome_mret in Hp.
    apply Ok_inj, triple_inj in Hp as (<- & <- & <-).
    exists date1. split; [done|]. split.
    + rewrite (getitem_Some _ _ (VStr date1))
        by (by rewrite lookup_change_reference).
      rewrite bind_pure_Ok. cbn [as_str]. rewrite bind_pure_Ok, bind_mret.
      cbv beta iota.
      rewrite Hdata2, bind_perform_Ok, !bind_logged.
      rewrite Hdata1, bind_perform_Ok, !bind_logged.
      rewrite Hdiff, bind_pure_Ok, Hshifted, bind_pure_Ok, !bind_mret.
      reflexivity.
    + unfold set_dates, date12_of.
      split; [lookup_attr|]. split; [lookup_attr|].
      by destruct (PyStr.startswith (file inps) "geo_").
Qed.

End OneDate.

Lemma read_data_timeseries_ref_date_witness :
  read_data Epochs.no_ref_date_world
    (Demo.request "timeseries.h5" (Some "20050601") None)
  = ([ReadAttribute], Raise (KeyError "REF_DATE"))
  /\ exists data atr' out,
       outcome (read_data Files.timeseries_world
                  (Demo.request "timeseries.h5" (Some "050601") None))
       = Ok (data, atr', out)
       /\ trace (read_data Files.timeseries_world
                   (Demo.request "timeseries.h5" (Some "050601") None))
          = [ReadAttribute; Read (Some "20050601"); Read (Some "20040101")]
       /\ atr' !! "DATE12" = Some (VStr "040101-050601")
       /\ out = "20040101_20050601.unw".
Proof.
  split.
  - refine (proj1 (read_data_timeseries_ref_date Epochs.no_ref_date_world
              (Demo.request "timeseries.h5" (Some "20050601") None)
              Epochs.no_ref_date_attrs "20050601" _ _ _ _)
              (phase_factor Scenario.c_band) _ _); reflexivity.
  - destruct (read_data_timeseries_single Files.timeseries_world
                (Demo.request "timeseries.h5" (Some "050601") None)
                Files.timeseries_attrs (phase_factor Scenario.c_band)
                "050601" "20040101" [[1; 2]]%float [[3; 5]]%float
                [[PrimFloat.sub 3 1; PrimFloat.sub 5 2]]
                (scale [[PrimFloat.sub 3 1; PrimFloat.sub 5 2]]
                       (phase_factor Scenario.c_band)))
      as (atr' & out & Hrun & _); [reflexivity..|].
    assert (outcome (read_data Files.timeseries_world
                       (Demo.request "timeseries.h5" (Some "050601") None))
            = Ok (scale [[PrimFloat.sub 3 1; PrimFloat.sub 5 2]]
                        (phase_factor Scenario.c_band), atr', out)) as Hout.
    { by rewrite Hrun. }
    destruct (proj2 (read_data_timeseries_ref_date Files.timeseries_world
                (Demo.request "timeseries.h5" (Some "050601") None)
                Files.timeseries_attrs "050601"
                eq_refl eq_refl eq_refl eq_refl) _ atr' out Hout)
      as (ref & Hdate & Htrace & _ & Hdate12 & Hname).
    assert (ref = "20040101") as ->.
    { assert (Files.timeseries_attrs !! "REF_DATE" = Some (VStr "20040101"))
        as Heq by reflexivity.
      rewrite Heq in Hdate. by injection Hdate as <-. }
    exists (scale [[PrimFloat.sub 3 1; PrimFloat.sub 5 2]]
              (phase_factor Scenario.c_band)), atr', out.
    split; [exact Hout|]. split; [exact Htrace|].
    split; [exact Hdate12|exact Hname].
Defined.

(** ** The product of an HDF-EOS5 file *)

Section HdfeosProduct.
Context {num : Type} `{Scalar num} (w : world num).
Implicit Types (inps : args) (atr : gmap string value).

Lemma hdfeos_kind_inv ds dname atr atr' :
  outcome (hdfeos_kind ds dname atr) = Ok atr' ->
  (dname = "displacement"
   /\ atr' = <["UNIT" := VStr "radian"]> (<["FILE_TYPE" := VStr ".unw"]> atr))
  \/ (dname <> "displacement"
      /\ PyStr.contains "coherence" (PyStr.lower dname) = true
      /\ atr' = <["UNIT" := VStr "1"]> (<["FILE_TYPE" := VStr ".cor"]> atr))
  \/ (dname = "height"
      /\ atr' = <["DATA_TYPE" := VStr "int16"]>
                  (<["FILE_TYPE" := VStr ".dem"]> atr)).
Proof.
  unfold hdfeos_kind. intros Hkind.
  destruct (String.eqb dname "displacement") eqn:Hdis;
    [|destruct (PyStr.contains "coherence" (PyStr.lower dname)) eqn:Hcor;
      [|destruct (String.eqb dname "height") eqn:Hhgt;
        [|discriminate Hkind]]];
    apply Ok_inj in Hkind as <-.
  - apply String.eqb_eq in Hdis. by left.
  - apply String.eqb_neq in Hdis. right. by left.
  - apply String.eqb_eq in Hhgt. right. by right.
Qed.

(** X19. The product of an HDF-EOS5 file: the two dates of the branch
    give [DATE], [DATE12] and the default output name [date1_date2] with
    the type, without the [geo_] of the other branches; the type is [.unw]
    in radian for [displacement], [.cor] with unit 1 for a name that
    contains [coherence] in any case, and [.dem] as [int16] for
    [height]; no other name returns. *)
Theorem read_data_hdfeos_product inps atr ds (data : raster num) atr' out :
  read_attribute w (file inps) = Ok atr ->
  atr !! "FILE_TYPE" = Some (VStr "HDFEOS") ->
  dset inps = Some ds ->
  outcome (read_data w inps) = Ok (data, atr', out) ->
  exists date1 date2 tag,
    outcome (hdfeos_dates w inps (change_reference inps atr) ds
               (dataset_name (Some ds))) = Ok (date1, date2)
    /\ atr' !! "DATE" = Some (VStr (PyStr.slice 2 8 date1))
    /\ atr' !! "DATE12" = Some (date12_of date1 date2)
    /\ atr' !! "FILE_TYPE" = Some (VStr tag)
    /\ out = default_outfile (outfile inps) (date1 ++ "_" ++ date2 ++ tag)
    /\ ((dataset_name (Some ds) = "displacement" /\ tag = ".unw"
         /\ atr' !! "UNIT" = Some (VStr "radian"))
        \/ (dataset_name (Some ds) <> "displacement"
            /\ PyStr.contains "coherence"
                 (PyStr.lower (dataset_name (Some ds))) = true
            /\ tag = ".cor" /\ atr' !! "UNIT" = Some (VStr "1"))
        \/ (dataset_name (Some ds) = "height" /\ tag = ".dem"
            /\ atr' !! "DATA_TYPE" = Some (VStr "int16"))).
Proof.
  intros Hatr Htype Hds Hrun.
  unfold read_data in Hrun.
  rewrite Hatr, bind_perform_Ok, outcome_logged in Hrun.
  bind_inv_as Hrun k Hk.
  rewrite (getitem_Some _ _ (VStr "HDFEOS")) in Hrun
    by (by rewrite lookup_change_reference).
  rewrite bind_pure_Ok in Hrun.
  change (value_is (VStr "HDFEOS") "velocity") with false in Hrun.
  change (value_is (VStr "HDFEOS") "timeseries") with false in Hrun.
  change (value_is (VStr "HDFEOS") "HDFEOS") with true in Hrun.
  cbv iota in Hrun.
  bind_inv_as Hrun p Hbranch. destruct p as [[data0 atr0] out0].
  cbv beta iota in Hrun. rewrite outcome_mret in Hrun.
  apply Ok_inj, triple_inj in Hrun as (<- & <- & <-).
  unfold read_hdfeos, dset_text in Hbranch.
  rewrite Hds, bind_mret in Hbranch.
  assert (py_index (PyStr.split "-" ds) 0 = Ok (dataset_name (Some ds)))
    as Hname.
  { unfold dataset_name. pose proof (split_nonempty "-" ds) as Hne.
    destruct (PyStr.split "-" ds); [done|]. apply py_index_first. }
  rewrite Hname, bind_pure_Ok in Hbranch.
  bind_inv_as Hbranch dates Hdates. destruct dates as [date1 date2].
  cbv beta iota in Hbranch.
  bind_inv_as Hbranch raster_data Hdata. bind_inv_as Hbranch atr1 Hkind.
  exists date1, date2.
  destruct (hdfeos_kind_inv _ _ _ _ Hkind)
    as [(Hdis & ->)|[(Hother & Hcor & ->)|(Hhgt & ->)]].
  - rewrite (getitem_Some _ _ (VStr ".unw")), bind_pure_Ok, outcome_mret
      in Hbranch by lookup_attr.
    apply Ok_inj, triple_inj in Hbranch as (<- & <- & <-).
    exists ".unw". unfold set_dates, date12_of.
    split; [done|]. split; [lookup_attr|]. split; [lookup_attr|].
    split; [lookup_attr|]. split; [by rewrite !string_append_assoc|].
    left. split; [done|]. split; [done|lookup_attr].
  - rewrite (getitem_Some _ _ (VStr ".cor")), bind_pure_Ok, outcome_mret
      in Hbranch by lookup_attr.
    apply Ok_inj, triple_inj in Hbranch as (<- & <- & <-).
    exists ".cor". unfold set_dates, date12_of.
    split; [done|]. split; [lookup_attr|]. split; [lookup_attr|].
    split; [lookup_attr|]. split; [by rewrite !string_append_assoc|].
    right. left. split; [done|]. split; [done|]. split; [done|lookup_attr].
  - rewrite (getitem_Some _ _ (VStr ".dem")), bind_pure_Ok, outcome_mret
      in Hbranch by lookup_attr.
    apply Ok_inj, triple_inj in Hbranch as (<- & <- & <-).
    exists ".dem". unfold set_dates, date12_of.
    split; [done|]. split; [lookup_attr|]. split; [lookup_attr|].
    split; [lookup_attr|]. split; [by rewrite !string_append_assoc|].
    right. right. split; [done|]. split; [done|lookup_attr].
Qed.

End HdfeosProduct.

Lemma read_data_hdfeos_product_witness :
  exists data atr' out,
    outcome (read_data Files.hdfeos_world
               (Demo.request "geo_S1.he5"
                  (Some "displacement-20170904_20170916") None))
    = Ok (data, atr', out)
    /\ atr' !! "FILE_TYPE" = Some (VStr ".unw")
    /\ atr' !! "UNIT" = Some (VStr "radian")
    /\ out = "20170904_20170916.unw".
Proof.
  destruct (read_data_hdfeos_displacement Files.hdfeos_world
              (Demo.request "geo_S1.he5"
                 (Some "displacement-20170904_20170916") None)
              Files.hdfeos_attrs (phase_factor Scenario.c_band)
              "20170904" "20170916"
              ["displacement-20170904"; "displacement-20170916";
               "temporalCoherence"]
              [] [] "displacement-20170904" "displacement-20170916"
              [[1; 2]]%float [[4; 8]]%float
              [[PrimFloat.sub 1 4; PrimFloat.sub 2 8]]
              (scale [[PrimFloat.sub 1 4; PrimFloat.sub 2 8]]
                     (phase_factor Scenario.c_band)))
    as (atr' & out & Hrun & _);
    [first [reflexivity|split; reflexivity]..|].
  assert (outcome (read_data Files.hdfeos_world
                     (Demo.request "geo_S1.he5"
                        (Some "displacement-20170904_20170916") None))
          = Ok (scale [[PrimFloat.sub 1 4; PrimFloat.sub 2 8]]
                      (phase_factor Scenario.c_band), atr', out)) as Hout.
  { by rewrite Hrun. }
  exists (scale [[PrimFloat.sub 1 4; PrimFloat.sub 2 8]]
            (phase_factor Scenario.c_band)), atr', out.
  split; [exact Hout|].
  destruct (read_data_hdfeos_product Files.hdfeos_world
              (Demo.request "geo_S1.he5"
                 (Some "displacement-20170904_20170916") None)
              Files.hdfeos_attrs "displacement-20170904_20170916"
              _ atr' out eq_refl eq_refl eq_refl Hout)
    as (date1 & date2 & tag & Hdates & _ & _ & Htype & Hname & Hkind).
  assert (date1 = "20170904" /\ date2 = "20170916") as [-> ->].
  { assert (outcome (hdfeos_dates Files.hdfeos_world
                       (Demo.request "geo_S1.he5"
                          (Some "displacement-20170904_20170916") None)
                       (change_reference
                          (Demo.request "geo_S1.he5"
                             (Some "displacement-20170904_20170916") None)
                          Files.hdfeos_attrs)
                       "displacement-20170904_20170916"
                       (dataset_name (Some "displacement-20170904_20170916")))
            = Ok ("20170904", "20170916")) as Heq by reflexivity.
    rewrite Heq in Hdates. apply Ok_inj in Hdates.
    by injection Hdates as <- <-. }
  destruct Hkind as [(_ & -> & Hunit)|[(Hother & _)|(Hhgt & _)]].
  - split; [exact Htype|]. split; [exact Hunit|exact Hname].
  - exfalso. by apply Hother.
  - discriminate Hhgt.
Defined.
